(** * immich-convert-originals: the per-asset conversion pipeline

    A shallow embedding of [app/transcode.py], [app/immich_api.py] and the
    orchestration of [app/main.py], with the properties of the design
    document proved (or refuted) against it.

    Conventions.
    - Python [bytes] are [list byte]; Python [str] is [string].
    - [None] results are [option]; the pairs [(value, error)] returned by
      the API client are kept as pairs.
    - The local file system is a finite map from paths to files.
    - Everything outside the process (HTTP server, external tools, the
      outcome of [os.remove]) is an explicit environment record that is
      consulted once per interaction. *)

From Stdlib.Strings Require Import Byte Ascii.
From Stdlib Require Import QArith.
From stdpp Require Import gmap strings list pretty.

Open Scope string_scope.
Open Scope Z_scope.
Open Scope list_scope.

(** ** Python byte-string primitives *)

#[global] Instance byte_eq_decision : EqDecision byte := Byte.byte_eq_dec.

(** [header.startswith(magic)] *)
Fixpoint startswith (header magic : list byte) {struct magic} : bool :=
  match magic, header with
  | [], _ => true
  | _ :: _, [] => false
  | m :: magic', h :: header' =>
      if decide (h = m) then startswith header' magic' else false
  end.

(** [b[lo:hi]] for [0 <= lo <= hi]: slicing never raises, it truncates. *)
Definition slice (lo hi : nat) (b : list byte) : list byte :=
  take (hi - lo) (drop lo b).

(** [len(b)] as a Python integer *)
Definition len (b : list byte) : Z := Z.of_nat (length b).

(** The bytes of an ASCII literal such as [b"ftyp"]. *)
Definition bytes_of_string (s : string) : list byte :=
  List.map Ascii.byte_of_ascii (String.list_ascii_of_string s).

(** [b.decode("ascii", errors="ignore")]: bytes above 0x7f are dropped. *)
Definition decode_ascii_ignore (b : list byte) : string :=
  String.string_of_list_ascii
    (List.map Ascii.ascii_of_byte
       (List.filter (fun x => (Byte.to_N x <? 128)%N) b)).

(** [str.lower()] on a string of ASCII characters: only [A]-[Z] move. *)
Definition lower_ascii (c : ascii) : ascii :=
  let n := Ascii.N_of_ascii c in
  if ((65 <=? n) && (n <=? 90))%N then Ascii.ascii_of_N (n + 32) else c.

Fixpoint lower (s : string) : string :=
  match s with
  | EmptyString => EmptyString
  | String c s' => String (lower_ascii c) (lower s')
  end.

(** [x in (a, b, ...)] on strings and on byte strings *)
Definition str_in (x : string) (l : list string) : bool :=
  bool_decide (x ∈ l).

Definition bytes_in (x : list byte) (l : list (list byte)) : bool :=
  bool_decide (x ∈ l).

(** ** transcode.py: format sniffing *)

Module Transcode.

(** Subprocess timeouts (seconds) *)
Definition IMAGE_TIMEOUT : Z := 600.
Definition VIDEO_TIMEOUT : Z := 43200.
Definition PROBE_TIMEOUT : Z := 60.
Definition METADATA_TIMEOUT : Z := 120.

(** [MAGIC_BYTES]: a dict, iterated in insertion order. *)
Definition MAGIC_BYTES : list (list byte * string) :=
  [ ([x00; x00; x00; x0c; x4a; x58; x4c; x20; x0d; x0a; x87; x0a], "jxl");
    ([x89; x50; x4e; x47; x0d; x0a; x1a; x0a], "png");
    ([xff; xd8; xff], "jpg");
    ([xff; x0a], "jxl");
    ([x49; x49; x2a; x00], "tiff");
    ([x4d; x4d; x00; x2a], "tiff");
    ([x47; x49; x46; x38], "gif");
    ([x42; x4d], "bmp") ].

(** The loop [for magic, fmt in MAGIC_BYTES.items()] of [detect_format]:
    the first signature that prefixes the header wins. *)
Fixpoint match_magic (table : list (list byte * string)) (header : list byte)
  : option string :=
  match table with
  | [] => None
  | (magic, fmt) :: table' =>
      if startswith header magic then Some fmt else match_magic table' header
  end.

Definition RIFF : list byte := [x52; x49; x46; x46].
Definition EBML : list byte := [x1a; x45; xdf; xa3].

(** The QuickTime branch of [detect_format] (its last [if]). *)
Definition detect_quicktime (header : list byte) : option string :=
  if 8 <=? len header then
    let atom_type := slice 4 8 header in
    if bytes_in atom_type
         (bytes_of_string <$> ["moov"; "mdat"; "wide"; "skip"; "free"; "pnot"])
    then Some "mp4" else None
  else None.

(** The [ftyp] branch, falling through to the QuickTime branch. *)
Definition detect_ftyp (header : list byte) : option string :=
  if (12 <=? len header)
     && bool_decide (slice 4 8 header = bytes_of_string "ftyp")
  then
    let brand := lower (decode_ascii_ignore (slice 8 12 header)) in
    if str_in brand ["heic"; "heix"; "mif1"; "msf1"] then Some "heic"
    else if str_in brand ["avif"; "avis"] then Some "avif"
    else Some "mp4"
  else detect_quicktime header.

(** The Matroska branch, falling through to the [ftyp] branch. *)
Definition detect_matroska (header : list byte) : option string :=
  if startswith header EBML then Some "mkv" else detect_ftyp header.

(** The RIFF branch: a RIFF header whose brand is neither WebP nor AVI
    falls through to the following tests. *)
Definition detect_riff (header : list byte) : option string :=
  if startswith header RIFF && (12 <=? len header) then
    if bytes_in (slice 8 12 header) (bytes_of_string <$> ["WEBP"; "WEBX"])
    then Some "webp"
    else if bool_decide (slice 8 12 header = bytes_of_string "AVI ")
    then Some "avi"
    else detect_matroska header
  else detect_matroska header.

(** The body of [detect_format] once [header = f.read(32)] is known. *)
Definition detect_header (header : list byte) : option string :=
  match match_magic MAGIC_BYTES header with
  | Some fmt => Some fmt
  | None => detect_riff header
  end.

End Transcode.

(** ** The world outside the function bodies *)

(** A regular file: its bytes, and whether [open(path, "rb")] succeeds. *)
Record file := File { f_data : list byte; f_readable : bool }.

(** Python exceptions that cross function boundaries in this program.
    [str(e)] is the carried message. *)
Inductive exn :=
  | RuntimeError (msg : string)
  | OSError (msg : string)
  | AttributeError (msg : string)
  | JSONDecodeError (msg : string).

Definition str_exn (e : exn) : string :=
  match e with
  | RuntimeError m | OSError m | AttributeError m | JSONDecodeError m => m
  end.

(** immich_api.py: [Asset] *)
Record Asset := mkAsset {
  id : string;
  original_file_name : string;
  original_path : string;
  original_mime_type : option string;
  type : string;
  device_asset_id : string;
  device_id : string;
  file_created_at : string;
  file_modified_at : string
}.

(** One HTTP request, as method, endpoint and payload.  [urljoin] of the
    base URL and the endpoint is left implicit. *)
Inductive request :=
  | ReqSearch (page size : Z) (asset_type : string)
      (with_archived with_deleted : bool)
      (taken_after taken_before : option string)  (* POST search/metadata *)
  | ReqDownload (asset_id : string)               (* GET  assets/{id}/original *)
  | ReqGetAsset (asset_id : string)               (* GET  assets/{id} *)
  | ReqUpload (asset_data : list byte)
      (device_asset_id device_id file_created_at file_modified_at : string)
      (filename : option string)                  (* POST assets *)
  | ReqCopy (source_id target_id : string)        (* PUT  assets/copy *)
  | ReqDelete (ids : list string).                (* DELETE assets *)

(** What the program reads from a [requests.Response]. *)
Inductive json_id :=
  | JsonInvalid (request_exception : bool) (msg : string)
      (* [response.json()] raises; depending on the version of [requests]
         the exception is a [RequestException] or not *)
  | JsonId (i : option string).     (* [response.json().get("id")] *)

Record response := Response {
  status_code : Z;
  resp_content : list byte;         (* bytes delivered by [iter_content] *)
  resp_stream_error : option string;(* [iter_content] raises after them *)
  resp_json_id : json_id;
  resp_items : option (list Asset); (* search items; [None]: decoding raises *)
  resp_message : string             (* the error text extracted from the body *)
}.

Inductive http_outcome :=
  | HttpResponse (r : response)
  | HttpException (msg : string).   (* [requests.RequestException] *)

(** Rationals stand for the Python floats that are only passed through
    (the JPEG XL distance) or reported (the savings percentage). *)
Abbreviation float := Q (only parsing).

(** One external process, as the argument vector that is built for it. *)
Inductive command :=
  | CmdCjxl (input output : string)
  | CmdMagick (input : string) (distance : float) (output : string)
  | CmdExiftool (source dest : string)
  | CmdFfprobeCodec (path : string)
  | CmdFfprobeDuration (path : string)
  | CmdFfmpeg (input : string) (crf : Z) (preset : string)
      (scale : option Z) (audio_bitrate : string) (output : string).

(** The file a tool writes, when it writes one. *)
Definition command_output (c : command) : option string :=
  match c with
  | CmdCjxl _ o | CmdMagick _ _ o | CmdFfmpeg _ _ _ _ _ o => Some o
  | CmdExiftool _ d => Some d
  | CmdFfprobeCodec _ | CmdFfprobeDuration _ => None
  end.

(** How [subprocess.run] ends. *)
Inductive proc_result :=
  | Exited (returncode : Z) (stdout stderr : string)
  | TimeoutExpired
  | FileNotFound                    (* the executable is missing *)
  | ProcOSError (msg : string).     (* any other [OSError], e.g. permissions *)

Record proc_outcome := ProcOutcome {
  p_result : proc_result;
  p_written : option (list byte)    (* new content of the tool's output file *)
}.

(** The environment: every interaction with the outside consults it once,
    at the current value of the interaction clock. *)
Record environment := Env {
  env_http : nat -> request -> http_outcome;
  env_proc : nat -> command -> proc_outcome;
  env_open_w : nat -> string -> bool;      (* [open(path, "wb")] succeeds *)
  env_remove : nat -> string -> bool;      (* [os.remove(path)] succeeds *)
  env_float_positive : string -> option bool
    (* [float(s) > 0]; [None] when [float(s)] raises [ValueError] *)
}.

(** transcode.py: [TranscodeResult] *)
Record TranscodeResult := mkTranscodeResult {
  success : bool;
  input_path : string;
  output_path : string;
  input_bytes : Z;
  output_bytes : Z;
  input_format : string;
  error : option string
}.

Abbreviation result_output_bytes := output_bytes (only parsing).

(** Calls made by the orchestrator.  The client methods never raise and are
    recorded together with what they returned; a transcode attempt is
    recorded when it starts. *)
Inductive call :=
  | CallDownload (asset_id path : string) (r : Z * option string)
  | CallUpload (file_path device_asset_id device_id : string)
      (file_created_at file_modified_at : string) (filename : option string)
      (r : option string * option string)
  | CallCopy (from_asset_id to_asset_id : string) (r : bool * option string)
  | CallGet (asset_id : string) (r : bool * option string)
  | CallDelete (asset_ids : list string) (r : bool * option string)
  | CallTranscode (input output : string) (distance : float)
  | CallTranscodeVideo (input output : string) (crf : Z).

(** The state threaded through the program. *)
Record world := World {
  w_fs : gmap string file;          (* the local file system *)
  w_clock : nat;                    (* interactions with the outside so far *)
  w_http : list request;            (* HTTP requests sent, oldest first *)
  w_procs : list command;           (* processes started, oldest first *)
  w_calls : list call               (* orchestrator-level calls, oldest first *)
}.

(** ** A state-and-exception monad *)

Inductive result (A : Type) :=
  | Ret (a : A)
  | Raise (e : exn).
Arguments Ret {A} a.
Arguments Raise {A} e.

Definition M (A : Type) : Type := world -> result A * world.

Definition ret {A} (a : A) : M A := fun w => (Ret a, w).
Definition raise {A} (e : exn) : M A := fun w => (Raise e, w).
Definition bind {A B} (m : M A) (k : A -> M B) : M B :=
  fun w => match m w with
           | (Ret a, w') => k a w'
           | (Raise e, w') => (Raise e, w')
           end.

(** [try: m except Exception as e: h e] *)
Definition try_except {A} (m : M A) (h : exn -> M A) : M A :=
  fun w => match m w with
           | (Ret a, w') => (Ret a, w')
           | (Raise e, w') => h e w'
           end.

(** [try: m finally: c]: [c] runs however [m] ends; an exception of [c]
    replaces the outcome of [m]. *)
Definition try_finally {A} (m : M A) (c : M unit) : M A :=
  fun w => match m w with
           | (r, w') =>
               match c w' with
               | (Ret _, w'') => (r, w'')
               | (Raise e, w'') => (Raise e, w'')
               end
           end.

Declare Scope m_scope.
Delimit Scope m_scope with M.
Notation "x <- m ;; k" := (bind m (fun x => k))
  (at level 100, m at next level, right associativity) : m_scope.
Notation "m ;;; k" := (bind m (fun _ => k))
  (at level 100, right associativity) : m_scope.
Open Scope m_scope.

Definition get_fs : M (gmap string file) := fun w => (Ret (w_fs w), w).

Definition set_fs (fs : gmap string file) : M unit := fun w =>
  (Ret tt, World fs (w_clock w) (w_http w) (w_procs w) (w_calls w)).

(** Read the clock and advance it. *)
Definition tick : M nat := fun w =>
  (Ret (w_clock w),
   World (w_fs w) (S (w_clock w)) (w_http w) (w_procs w) (w_calls w)).

Definition log_http (r : request) : M unit := fun w =>
  (Ret tt, World (w_fs w) (w_clock w) (w_http w ++ [r]) (w_procs w) (w_calls w)).

Definition log_proc (c : command) : M unit := fun w =>
  (Ret tt, World (w_fs w) (w_clock w) (w_http w) (w_procs w ++ [c]) (w_calls w)).

Definition log_call (c : call) : M unit := fun w =>
  (Ret tt, World (w_fs w) (w_clock w) (w_http w) (w_procs w) (w_calls w ++ [c])).

(** ** Python and [os] primitives *)

(** Truth value of a [str | None]. *)
Definition truthy (s : option string) : bool :=
  match s with
  | Some s => negb (String.eqb s "")
  | None => false
  end.

(** [os.path.exists] *)
Definition exists_ (fs : gmap string file) (path : string) : bool :=
  bool_decide (is_Some (fs !! path)).

Definition path_exists (path : string) : M bool :=
  fs <- get_fs ;; ret (exists_ fs path).

(** [os.path.getsize]: raises [OSError] on a missing file. *)
Definition getsize (path : string) : M Z :=
  fs <- get_fs ;;
  match fs !! path with
  | Some f => ret (len (f_data f))
  | None => raise (OSError ("No such file or directory: " +:+ path))
  end.

(** [os.path.getsize(p) if os.path.exists(p) else 0] *)
Definition getsize_or_0 (path : string) : M Z :=
  e <- path_exists path ;;
  if e then getsize path else ret 0.

(** [open(path, "rb").read(n)]: raises [OSError]. *)
Definition read_prefix (n : nat) (path : string) : M (list byte) :=
  fs <- get_fs ;;
  match fs !! path with
  | Some f =>
      if f_readable f then ret (take n (f_data f))
      else raise (OSError ("Permission denied: " +:+ path))
  | None => raise (OSError ("No such file or directory: " +:+ path))
  end.

(** [f.read()] of the whole file, for the upload form. *)
Definition read_file (path : string) : M (list byte) :=
  fs <- get_fs ;;
  match fs !! path with
  | Some f =>
      if f_readable f then ret (f_data f)
      else raise (OSError ("Permission denied: " +:+ path))
  | None => raise (OSError ("No such file or directory: " +:+ path))
  end.

(** [subprocess.run(cmd, ...)]: the process may write its output file
    whichever way it ends. *)
Definition subprocess_run (env : environment) (cmd : command) : M proc_result :=
  t <- tick ;;
  log_proc cmd ;;;
  let out := env_proc env t cmd in
  fs <- get_fs ;;
  match command_output cmd, p_written out with
  | Some path, Some data => set_fs (<[path := File data true]> fs)
  | _, _ => ret tt
  end ;;;
  ret (p_result out).

(** [str.strip()] on ASCII text: Python's ASCII white space is 0x09-0x0d,
    0x1c-0x1f and 0x20. *)
Definition is_space (c : ascii) : bool :=
  let n := N_of_ascii c in
  (((9 <=? n) && (n <=? 13)) || ((28 <=? n) && (n <=? 32)))%N.

Fixpoint lstrip (s : list ascii) : list ascii :=
  match s with
  | c :: s' => if is_space c then lstrip s' else s
  | [] => []
  end.

Definition strip (s : string) : string :=
  String.string_of_list_ascii
    (rev (lstrip (rev (lstrip (String.list_ascii_of_string s))))).

(** ** transcode.py: the transcode executor and the validators *)

Module Exec.
Import Transcode.

Section WithEnv.
Variable env : environment.

(** [detect_format]: an [OSError] of [open] or [read] becomes [None]. *)
Definition detect_format (path : string) : M (option string) :=
  try_except
    (header <- read_prefix 32 path ;; ret (detect_header header))
    (fun e => match e with
              | OSError _ => ret None
              | _ => raise e
              end).

(** [detect_video_codec] *)
Definition detect_video_codec (path : string) : M (option string) :=
  r <- subprocess_run env (CmdFfprobeCodec path) ;;
  match r with
  | Exited rc stdout _ =>
      if rc =? 0 then
        let codec := lower (strip stdout) in
        ret (if String.eqb codec "" then None else Some codec)
      else ret None
  | TimeoutExpired => ret None
  | FileNotFound => ret None
  | ProcOSError m => raise (OSError m)
  end.

(** [validate_output] *)
Definition validate_output (path expected_format : string) : M bool :=
  e <- path_exists path ;;
  if negb e then ret false else
  size <- getsize path ;;
  if size =? 0 then ret false else
  fmt <- detect_format path ;;
  ret (bool_decide (fmt = Some expected_format)).

(** [copy_metadata]: [check=True] turns a nonzero exit status into
    [CalledProcessError], which is caught here. *)
Definition copy_metadata (source_path dest_path : string) : M bool :=
  r <- subprocess_run env (CmdExiftool source_path dest_path) ;;
  match r with
  | Exited rc _ _ => ret (rc =? 0)
  | TimeoutExpired => ret false
  | FileNotFound => ret false
  | ProcOSError m => raise (OSError m)
  end.

Definition or_unknown (fmt : option string) : string :=
  match fmt with
  | Some f => if String.eqb f "" then "unknown" else f
  | None => "unknown"
  end.

(** [_transcode_with_magick] *)
Definition _transcode_with_magick (input_path output_path : string)
    (distance : float) : M TranscodeResult :=
  input_bytes <- getsize input_path ;;
  input_format <- detect_format input_path ;;
  let cmd := CmdMagick input_path distance output_path in
  r <- subprocess_run env cmd ;;
  match r with
  | Exited rc _ stderr =>
      if rc =? 0 then
        copy_metadata input_path output_path ;;;
        output_bytes <- getsize_or_0 output_path ;;
        ret (mkTranscodeResult true input_path output_path input_bytes
               output_bytes (or_unknown input_format) None)
      else
        ret (mkTranscodeResult false input_path output_path input_bytes 0
               (or_unknown input_format)
               (Some ("ImageMagick failed: " +:+ stderr)))
  | TimeoutExpired =>
      ret (mkTranscodeResult false input_path output_path input_bytes 0
             (or_unknown input_format)
             (Some ("ImageMagick timed out after "
                      +:+ pretty IMAGE_TIMEOUT +:+ "s")))
  | FileNotFound =>
      ret (mkTranscodeResult false input_path output_path input_bytes 0
             (or_unknown input_format) (Some "magick not found"))
  | ProcOSError m => raise (OSError m)
  end.

(** The body of [transcode] *)
Definition transcode_body (input_path output_path : string)
    (distance : float) : M TranscodeResult :=
  input_bytes <- getsize input_path ;;
  input_format <- detect_format input_path ;;
  match input_format with
  | None =>
      ret (mkTranscodeResult false input_path output_path input_bytes 0
             "unknown" (Some "Could not detect input format"))
  | Some input_format =>
      if String.eqb input_format "" then
        ret (mkTranscodeResult false input_path output_path input_bytes 0
               "unknown" (Some "Could not detect input format"))
      else if String.eqb input_format "jxl" then
        ret (mkTranscodeResult false input_path output_path input_bytes
               input_bytes input_format (Some "Already JXL"))
      else
        let is_jpeg := String.eqb input_format "jpg" in
        if is_jpeg then
          r <- subprocess_run env (CmdCjxl input_path output_path) ;;
          match r with
          | TimeoutExpired =>
              ret (mkTranscodeResult false input_path output_path
                     input_bytes 0 input_format
                     (Some ("cjxl timed out after "
                              +:+ pretty IMAGE_TIMEOUT +:+ "s")))
          | FileNotFound =>
              _transcode_with_magick input_path output_path distance
          | ProcOSError m => raise (OSError m)
          | Exited rc _ _ =>
              if rc =? 0 then
                output_bytes <- getsize_or_0 output_path ;;
                ret (mkTranscodeResult true input_path output_path
                       input_bytes output_bytes input_format None)
              else
                _transcode_with_magick input_path output_path distance
          end
        else
          _transcode_with_magick input_path output_path distance
  end.

(** [transcode], with the attempt recorded. *)
Definition transcode (input_path output_path : string) (distance : float)
  : M TranscodeResult :=
  log_call (CallTranscode input_path output_path distance) ;;;
  transcode_body input_path output_path distance.

(** The body of [transcode_video] *)
Definition transcode_video_body (input_path output_path : string) (crf : Z)
    (preset : string) (max_dimension : Z) (audio_bitrate : string)
  : M TranscodeResult :=
  input_bytes <- getsize input_path ;;
  current_codec <- detect_video_codec input_path ;;
  match current_codec with
  | None =>
      ret (mkTranscodeResult false input_path output_path input_bytes 0
             "unknown" (Some "Could not detect video codec"))
  | Some current_codec =>
      if String.eqb current_codec "av1" then
        ret (mkTranscodeResult false input_path output_path input_bytes
               input_bytes current_codec (Some "Already AV1"))
      else
        let scale := if 0 <? max_dimension then Some max_dimension else None in
        let cmd := CmdFfmpeg input_path crf preset scale audio_bitrate
                     output_path in
        r <- subprocess_run env cmd ;;
        match r with
        | Exited rc _ stderr =>
            if rc =? 0 then
              output_bytes <- getsize_or_0 output_path ;;
              ret (mkTranscodeResult true input_path output_path input_bytes
                     output_bytes current_codec None)
            else
              ret (mkTranscodeResult false input_path output_path
                     input_bytes 0 current_codec
                     (Some ("ffmpeg failed: " +:+ stderr)))
        | TimeoutExpired =>
            ret (mkTranscodeResult false input_path output_path input_bytes 0
                   current_codec
                   (Some ("ffmpeg timed out after "
                            +:+ pretty VIDEO_TIMEOUT +:+ "s")))
        | FileNotFound =>
            ret (mkTranscodeResult false input_path output_path input_bytes 0
                   current_codec (Some "ffmpeg not found"))
        | ProcOSError m => raise (OSError m)
        end
  end.

(** [transcode_video], with the attempt recorded. *)
Definition transcode_video (input_path output_path : string) (crf : Z)
    (preset : string) (max_dimension : Z) (audio_bitrate : string)
  : M TranscodeResult :=
  log_call (CallTranscodeVideo input_path output_path crf) ;;;
  transcode_video_body input_path output_path crf preset max_dimension
    audio_bitrate.

(** [validate_video_output] *)
Definition validate_video_output (path : string) : M bool :=
  e <- path_exists path ;;
  if negb e then ret false else
  size <- getsize path ;;
  if size =? 0 then ret false else
  r <- subprocess_run env (CmdFfprobeDuration path) ;;
  match r with
  | Exited _ stdout _ =>
      let duration := strip stdout in
      if String.eqb duration "N/A" then ret false
      else match env_float_positive env duration with
           | Some b => ret b
           | None => ret false
           end
  | TimeoutExpired => ret false
  | FileNotFound => ret false
  | ProcOSError m => raise (OSError m)
  end.

End WithEnv.
End Exec.

(** ** immich_api.py: the catalog client *)

Module Api.

Record ImmichClient := mkClient {
  api_base : string;
  api_key : string;
  retry_max : Z;
  retry_backoff : Z
}.

Section WithEnv.
Variable env : environment.
Variable self : ImmichClient.

(** [requests.request(...)]: one request on the wire. *)
Definition http_request (req : request) : M http_outcome :=
  t <- tick ;;
  log_http req ;;;
  ret (env_http env t req).

Definition retryable (status : Z) : bool :=
  (status =? 429) || (500 <=? status).

(** The loop [for attempt in range(self.retry_max + 1)] of
    [_request_with_retry]; [todo] iterations remain.  [time.sleep] has no
    effect on the state and is left out. *)
Fixpoint request_attempts (req : request) (attempt : Z) (todo : nat)
    (last_error : option string) : M (option response) :=
  match todo with
  | O =>
      match last_error with
      | Some e => raise (RuntimeError ("Request failed: " +:+ e))
      | None => ret None
      end
  | S todo' =>
      o <- http_request req ;;
      match o with
      | HttpResponse r =>
          if status_code r =? 401 then
            raise (RuntimeError "Authentication failed - check IMMICH_API_KEY")
          else if status_code r =? 403 then
            raise (RuntimeError
                     "Forbidden - API key lacks required permissions")
          else if status_code r =? 404 then ret (Some r)
          else if retryable (status_code r) && (attempt <? retry_max self)
          then request_attempts req (attempt + 1) todo' last_error
          else ret (Some r)
      | HttpException e =>
          if attempt <? retry_max self
          then request_attempts req (attempt + 1) todo' (Some e)
          else raise (RuntimeError ("Request failed: " +:+ e))
      end
  end.

(** [_request_with_retry] *)
Definition _request_with_retry (req : request) : M (option response) :=
  request_attempts req 0 (Z.to_nat (retry_max self + 1)) None.

(** [response.status_code] and the like on what [_request_with_retry]
    returned: on [None] the attribute access raises. *)
Definition the_response (o : option response) : M response :=
  match o with
  | Some r => ret r
  | None =>
      raise (AttributeError
               "'NoneType' object has no attribute 'status_code'")
  end.

(** [search_assets] *)
Definition search_assets (page size : Z) (asset_type : string)
    (with_archived with_deleted : bool)
    (taken_after taken_before : option string) : M (list Asset) :=
  let opt (s : option string) := if truthy s then s else None in
  o <- _request_with_retry
         (ReqSearch page size asset_type with_archived with_deleted
            (opt taken_after) (opt taken_before)) ;;
  response <- the_response o ;;
  if negb (status_code response =? 200) then
    raise (RuntimeError
             ("Search failed: HTTP " +:+ pretty (status_code response)))
  else match resp_items response with
       | Some items => ret items
       | None => raise (JSONDecodeError (resp_message response))
       end.

(** The [with open(output_path, "wb")] block of [download_original]. *)
Definition write_stream (output_path : string) (response : response)
  : M unit :=
  t <- tick ;;
  if negb (env_open_w env t output_path) then
    raise (OSError ("Permission denied: " +:+ output_path))
  else
    fs <- get_fs ;;
    set_fs (<[output_path := File (resp_content response) true]> fs) ;;;
    match resp_stream_error response with
    | Some e => raise (RuntimeError e)
    | None => ret tt
    end.

(** [download_original] *)
Definition download_original (asset_id output_path : string)
  : M (Z * option string) :=
  r <- try_except
         (o <- _request_with_retry (ReqDownload asset_id) ;;
          response <- the_response o ;;
          if negb (status_code response =? 200) then
            ret (0, Some ("Download failed: HTTP "
                            +:+ pretty (status_code response)))
          else
            write_stream output_path response ;;;
            size <- getsize output_path ;;
            ret (size, None))
         (fun e => ret (0, Some ("Download failed: " +:+ str_exn e))) ;;
  log_call (CallDownload asset_id output_path r) ;;;
  ret r.

(** [test_connection] *)
Definition test_connection : M (bool * option string) :=
  try_except
    (search_assets 1 1 "IMAGE" false false None None ;;; ret (true, None))
    (fun e => ret (false, Some (str_exn e))).

(** [get_asset] *)
Definition get_asset (asset_id : string) : M (bool * option string) :=
  r <- try_except
         (o <- _request_with_retry (ReqGetAsset asset_id) ;;
          response <- the_response o ;;
          if status_code response =? 200 then ret (true, None)
          else ret (false, Some ("Asset not found: HTTP "
                                   +:+ pretty (status_code response))))
         (fun e => ret (false, Some (str_exn e))) ;;
  log_call (CallGet asset_id r) ;;;
  ret r.

(** One iteration of the loop of [upload_asset]: either the function
    returns ([inr]), or the loop goes on to its next iteration with the
    given [last_error] ([inl]).  After a [RequestException] the loop goes on
    whether or not [attempt < retry_max]: when it is not, this was the last
    iteration. *)
Definition upload_attempt (file_path : string) (form : list byte -> request)
    (attempt : Z) (last_error : option string)
  : M (option string + (option string * option string)) :=
  try_except
    (asset_data <- read_file file_path ;;
     o <- http_request (form asset_data) ;;
     match o with
     | HttpResponse r =>
         if status_code r =? 401 then
           ret (inr (None,
                     Some "Authentication failed - check IMMICH_API_KEY"))
         else if status_code r =? 403 then
           ret (inr (None,
                     Some "Forbidden - API key lacks required permissions"))
         else if retryable (status_code r) && (attempt <? retry_max self)
         then ret (inl last_error)
         else if (status_code r =? 200) || (status_code r =? 201) then
           match resp_json_id r with
           | JsonId asset_id => ret (inr (asset_id, None))
           | JsonInvalid true m => ret (inl (Some m))
           | JsonInvalid false m => raise (JSONDecodeError m)
           end
         else
           ret (inr (None, Some ("Upload failed: HTTP "
                                   +:+ pretty (status_code r) +:+ " - "
                                   +:+ resp_message r)))
     | HttpException e => ret (inl (Some e))
     end)
    (fun e => ret (inr (None, Some (str_exn e)))).

(** The loop [for attempt in range(self.retry_max + 1)] of [upload_asset]
    and the [return] that follows it. *)
Fixpoint upload_attempts (file_path : string) (form : list byte -> request)
    (attempt : Z) (todo : nat) (last_error : option string)
  : M (option string * option string) :=
  match todo with
  | O =>
      ret (None, Some ("Upload failed after retries: "
                         +:+ default "None" last_error))
  | S todo' =>
      s <- upload_attempt file_path form attempt last_error ;;
      match s with
      | inl last_error' =>
          upload_attempts file_path form (attempt + 1) todo' last_error'
      | inr r => ret r
      end
  end.

(** [upload_asset] *)
Definition upload_asset (file_path device_asset_id device_id : string)
    (file_created_at file_modified_at : string) (filename : option string)
  : M (option string * option string) :=
  let form data :=
    ReqUpload data device_asset_id device_id file_created_at file_modified_at
      (if truthy filename then filename else None) in
  r <- upload_attempts file_path form 0 (Z.to_nat (retry_max self + 1)) None ;;
  log_call (CallUpload file_path device_asset_id device_id file_created_at
              file_modified_at filename r) ;;;
  ret r.

(** [copy_asset_data] *)
Definition copy_asset_data (from_asset_id to_asset_id : string)
  : M (bool * option string) :=
  r <- try_except
         (o <- _request_with_retry (ReqCopy from_asset_id to_asset_id) ;;
          response <- the_response o ;;
          if status_code response =? 204 then ret (true, None)
          else ret (false, Some ("Copy failed: HTTP "
                                   +:+ pretty (status_code response) +:+ " - "
                                   +:+ resp_message response)))
         (fun e => ret (false, Some (str_exn e))) ;;
  log_call (CallCopy from_asset_id to_asset_id r) ;;;
  ret r.

(** [delete_assets] *)
Definition delete_assets (asset_ids : list string) : M (bool * option string) :=
  r <- try_except
         (o <- _request_with_retry (ReqDelete asset_ids) ;;
          response <- the_response o ;;
          if status_code response =? 204 then ret (true, None)
          else ret (false, Some ("Delete failed: HTTP "
                                   +:+ pretty (status_code response))))
         (fun e => ret (false, Some (str_exn e))) ;;
  log_call (CallDelete asset_ids r) ;;;
  ret r.

End WithEnv.
End Api.

(** ** config.py: [Config] *)

Record Config := mkConfig {
  immich_api_base : string;
  immich_api_key : string;
  dry_run : bool;
  concurrency : Z;
  max_assets : Z;
  asset_types : list string;
  include_archived : bool;
  include_deleted : bool;
  filter_date_after : option string;
  filter_date_before : option string;
  image_distance : float;
  image_distance_retry : float;
  video_crf : Z;
  video_preset : string;
  video_max_dimension : Z;
  video_audio_bitrate : string;
  video_crf_retry : Z;
  enable_retry : bool;
  accept_retry_output : bool;
  allow_larger : bool;
  workdir : string
}.

Definition input_dir (self : Config) : string := workdir self +:+ "/in".
Definition output_dir (self : Config) : string := workdir self +:+ "/out".

(** ** [os.path] on POSIX *)

(** [s.rfind(c)], or [-1] *)
Fixpoint rfind_from (c : ascii) (s : list ascii) (i found : Z) : Z :=
  match s with
  | [] => found
  | x :: s' => rfind_from c s' (i + 1) (if Ascii.eqb x c then i else found)
  end.

Definition rfind (c : ascii) (s : list ascii) : Z := rfind_from c s 0 (-1).

(** [os.path.splitext]: the extension starts at the last dot of the last
    path component, leading dots of that component not counting. *)
Definition splitext (p : string) : string * string :=
  let l := String.list_ascii_of_string p in
  let sepIndex := rfind "/" l in
  let dotIndex := rfind "." l in
  if sepIndex <? dotIndex then
    let name := take (Z.to_nat (dotIndex - (sepIndex + 1)))
                  (drop (Z.to_nat (sepIndex + 1)) l) in
    if existsb (fun c => negb (Ascii.eqb c ".")) name then
      (String.string_of_list_ascii (take (Z.to_nat dotIndex) l),
       String.string_of_list_ascii (drop (Z.to_nat dotIndex) l))
    else (p, "")
  else (p, "").

(** [os.path.join(a, b)] *)
Definition path_join (a b : string) : string :=
  if String.prefix "/" b then b
  else if String.eqb a "" || String.eqb (String.substring (String.length a - 1) 1 a) "/"
  then a +:+ b
  else a +:+ "/" +:+ b.

(** ** main.py: the per-asset pipeline *)

Module Main.
Import Exec Api.

(** The [result_info] dict *)
Record ProcessingResult := mkResult {
  status : string;
  ri_input_bytes : Z;
  ri_output_bytes : Z;
  savings_pct : float
}.

Definition set_status (s : string) (r : ProcessingResult) : ProcessingResult :=
  mkResult s (ri_input_bytes r) (ri_output_bytes r) (savings_pct r).
Definition set_input_bytes (n : Z) (r : ProcessingResult) : ProcessingResult :=
  mkResult (status r) n (ri_output_bytes r) (savings_pct r).
Definition set_output_bytes (n : Z) (r : ProcessingResult) : ProcessingResult :=
  mkResult (status r) (ri_input_bytes r) n (savings_pct r).
Definition set_savings_pct (q : float) (r : ProcessingResult) : ProcessingResult :=
  mkResult (status r) (ri_input_bytes r) (ri_output_bytes r) q.

(** [_get_target_format] *)
Definition _get_target_format (asset : Asset) : string :=
  if String.eqb (type asset) "VIDEO" then "mp4" else "jxl".

(** [_should_skip_by_mime_type].  [str.lower()] is modelled on ASCII; no
    other character lower-cases to a character of the two literals that
    the results are compared with. *)
Definition _should_skip_by_mime_type (asset : Asset) : bool :=
  if negb (String.eqb (type asset) "IMAGE") then false
  else
    let mime_type :=
      if truthy (original_mime_type asset)
      then lower <$> original_mime_type asset else None in
    if bool_decide (mime_type = Some "image/jxl") then true
    else
      let ext := lower (snd (splitext (original_file_name asset))) in
      String.eqb ext ".jxl".

Section WithEnv.
Variable env : environment.
Variable client : ImmichClient.
Variable config : Config.

(** The first transcode and validation (lines 107-119), and the retry
    (lines 145-169) with the retry parameters. *)
Definition transcode_and_validate (is_video retry : bool)
    (input_path output_path : string) : M (TranscodeResult * bool) :=
  if is_video then
    result <- transcode_video env input_path output_path
                (if retry then video_crf_retry config else video_crf config)
                (video_preset config) (video_max_dimension config)
                (video_audio_bitrate config) ;;
    is_valid <- validate_video_output env output_path ;;
    ret (result, is_valid)
  else
    result <- transcode env input_path output_path
                (if retry then image_distance_retry config
                 else image_distance config) ;;
    is_valid <- validate_output output_path "jxl" ;;
    ret (result, is_valid).

(** "Handle larger output with retry logic" (lines 138-193): either the
    function returns [result_info] ([inl]), or execution goes on with the
    current [result_info] and [output_bytes] ([inr]). *)
Definition handle_larger_output (is_video : bool)
    (input_path output_path : string) (input_bytes output_bytes : Z)
    (result_info : ProcessingResult)
  : M (ProcessingResult + (ProcessingResult * Z)) :=
  if input_bytes <? output_bytes then
    if allow_larger config then ret (inr (result_info, output_bytes))
    else if enable_retry config then
      rv <- transcode_and_validate is_video true input_path output_path ;;
      let result := fst rv in
      let is_valid := snd rv in
      if negb (success result) || negb is_valid then
        ret (inl (set_status "skipped" result_info))
      else
        let output_bytes := result_output_bytes result in
        let result_info := set_output_bytes output_bytes result_info in
        if (input_bytes <? output_bytes) && negb (accept_retry_output config)
        then ret (inl (set_status "skipped" result_info))
        else ret (inr (result_info, output_bytes))
    else ret (inl (set_status "skipped" result_info))
  else ret (inr (result_info, output_bytes)).

(** "Replace: upload -> copy metadata -> verify -> delete original"
    (lines 200-255). *)
Definition replace (asset : Asset) (target_format output_path : string)
    (result_info : ProcessingResult) : M ProcessingResult :=
  let base_name := fst (splitext (original_file_name asset)) in
  let new_filename := base_name +:+ "." +:+ target_format in
  let new_device_asset_id := id asset +:+ "-" +:+ target_format in
  up <- upload_asset env client output_path new_device_asset_id
          (device_id asset) (file_created_at asset) (file_modified_at asset)
          (Some new_filename) ;;
  match up with
  | (Some new_asset_id, error) =>
      if truthy error || String.eqb new_asset_id "" then
        ret (set_status "failed_upload" result_info)
      else
        cp <- copy_asset_data env client (id asset) new_asset_id ;;
        if negb (fst cp) then
          delete_assets env client [new_asset_id] ;;;
          ret (set_status "failed_copy" result_info)
        else
          vf <- get_asset env client new_asset_id ;;
          if negb (fst vf) then
            delete_assets env client [new_asset_id] ;;;
            ret (set_status "failed_verification" result_info)
          else
            dl <- delete_assets env client [id asset] ;;
            if negb (fst dl) then
              ret (set_status "partial_success" result_info)
            else ret (set_status "success" result_info)
  | (None, _) => ret (set_status "failed_upload" result_info)
  end.

(** The body of the [try] block of [process_asset] (lines 66-255). *)
Definition process_asset_try (asset : Asset) (is_video : bool)
    (target_format input_path output_path : string)
    (result_info : ProcessingResult) : M ProcessingResult :=
  if dry_run config && negb is_video then
    ret (set_status "dry_run_skip" result_info)
  else
    dl <- download_original env client (id asset) input_path ;;
    let input_bytes := fst dl in
    if truthy (snd dl) then ret (set_status "failed_download" result_info)
    else
      let result_info := set_input_bytes input_bytes result_info in
      if dry_run config && is_video then
        codec <- detect_video_codec env input_path ;;
        if bool_decide (codec = Some "av1")
        then ret (set_status "skipped" result_info)
        else ret (set_status "dry_run_skip" result_info)
      else
        rv <- transcode_and_validate is_video false input_path output_path ;;
        let result := fst rv in
        let is_valid := snd rv in
        if negb (success result) then
          if match error result with
             | Some e => String.prefix "Already " e
             | None => false
             end
          then ret (set_status "skipped" result_info)
          else ret (set_status "failed_transcode" result_info)
        else if negb is_valid then
          ret (set_status "failed_transcode" result_info)
        else
          let output_bytes := result_output_bytes result in
          let result_info := set_output_bytes output_bytes result_info in
          h <- handle_larger_output is_video input_path output_path
                 input_bytes output_bytes result_info ;;
          match h with
          | inl result_info => ret result_info
          | inr (result_info, output_bytes) =>
              let result_info :=
                if 0 <? input_bytes then
                  let savings := input_bytes - output_bytes in
                  set_savings_pct
                    (inject_Z savings / inject_Z input_bytes * 100)%Q
                    result_info
                else result_info in
              replace asset target_format output_path result_info
          end.

(** One turn of the loop of the [finally] block (lines 258-263): a failed
    [os.remove] is logged and otherwise ignored. *)
Definition cleanup_path (path : string) : M unit :=
  e <- path_exists path ;;
  if negb (String.eqb path "") && e then
    t <- tick ;;
    if env_remove env t path then
      fs <- get_fs ;; set_fs (delete path fs)
    else ret tt
  else ret tt.

(** [process_asset] *)
Definition process_asset (asset : Asset) : M ProcessingResult :=
  let result_info := mkResult "unknown" 0 0 0%Q in
  let is_video := String.eqb (type asset) "VIDEO" in
  let target_format := _get_target_format asset in
  if negb is_video && _should_skip_by_mime_type asset then
    ret (set_status "skipped" result_info)
  else
    let input_path := path_join (input_dir config) (id asset +:+ ".bin") in
    let output_path :=
      path_join (output_dir config) (id asset +:+ "." +:+ target_format) in
    try_finally
      (process_asset_try asset is_video target_format input_path output_path
         result_info)
      (cleanup_path input_path ;;; cleanup_path output_path).

(** The loop over the futures (lines 359-381), for a pool of one worker:
    the assets are processed one after the other in the order of
    submission, and an exception that escapes [process_asset] becomes an
    ["error"] result. *)
Definition error_result : ProcessingResult := mkResult "error" 0 0 0%Q.

Fixpoint run_pool (assets : list Asset) : M (list ProcessingResult) :=
  match assets with
  | [] => ret []
  | asset :: assets' =>
      r <- try_except (process_asset asset) (fun _ => ret error_result) ;;
      rs <- run_pool assets' ;;
      ret (r :: rs)
  end.

(** The [while True] loop that scans one asset type (lines 327-347).  The
    loop ends only when the server lets it; [None] means that [fuel] pages
    were not enough. *)
Fixpoint scan_pages (fuel : nat) (atype : string) (page : Z)
    (assets : list Asset) : M (option (list Asset)) :=
  match fuel with
  | O => ret None
  | S fuel' =>
      r <- try_except
             (page_assets <-
                search_assets env client page 500 atype
                  (include_archived config) (include_deleted config)
                  (filter_date_after config) (filter_date_before config) ;;
              ret (Some page_assets))
             (fun _ => ret None) ;;
      match r with
      | None => ret (Some assets)
      | Some [] => ret (Some assets)
      | Some page_assets =>
          let assets := assets ++ page_assets in
          if negb (max_assets config =? 0)
             && (max_assets config <=? Z.of_nat (length assets))
          then ret (Some assets)
          else scan_pages fuel' atype (page + 1) assets
      end
  end.

(** [for atype in config.asset_types] (line 326) *)
Fixpoint scan_types (fuel : nat) (atypes : list string) (assets : list Asset)
  : M (option (list Asset)) :=
  match atypes with
  | [] => ret (Some assets)
  | atype :: atypes' =>
      r <- scan_pages fuel atype 1 assets ;;
      match r with
      | Some assets => scan_types fuel atypes' assets
      | None => ret None
      end
  end.

(** [main], from the connection test on: the exit status and the results
    that the summary is computed from. *)
Definition main (fuel : nat) : M (option (Z * list ProcessingResult)) :=
  t <- test_connection env client ;;
  if negb (fst t) then ret (Some (1, []))
  else
    r <- scan_types fuel (asset_types config) [] ;;
    match r with
    | None => ret None
    | Some assets =>
        let assets :=
          if negb (max_assets config =? 0)
             && (max_assets config <? Z.of_nat (length assets))
          then take (Z.to_nat (max_assets config)) assets else assets in
        if Z.of_nat (length assets) =? 0 then ret (Some (0, []))
        else results <- run_pool assets ;; ret (Some (0, results))
    end.

End WithEnv.
End Main.

(** ** main.py: the summary of a run (lines 388-395) *)

Module Summary.
Import Main.

(** [sum(r["input_bytes"] for r in results)] *)
Definition total_input (results : list ProcessingResult) : Z :=
  foldl (fun acc r => acc + ri_input_bytes r) 0 results.

(** [sum(r["output_bytes"] for r in results)] *)
Definition total_output (results : list ProcessingResult) : Z :=
  foldl (fun acc r => acc + ri_output_bytes r) 0 results.

Definition total_savings (results : list ProcessingResult) : Z :=
  total_input results - total_output results.

(** [status_counts[status] = status_counts.get(status, 0) + 1] *)
Definition count_status (counts : gmap string Z) (r : ProcessingResult)
  : gmap string Z :=
  <[status r := default 0 (counts !! status r) + 1]> counts.

(** The loop [for r in results] over the empty dict *)
Definition status_counts (results : list ProcessingResult) : gmap string Z :=
  foldl count_status ∅ results.

End Summary.

(** ** config.py: the integer settings *)

(** [needle in s] on strings *)
Fixpoint str_contains (needle s : string) : bool :=
  String.prefix needle s
  || match s with
     | EmptyString => false
     | String _ s' => str_contains needle s'
     end.

Module Settings.

Section WithPython.
(** The interpreter's [str.strip] and [int]; [int] gives the number, or the
    message of the [ValueError] that it raises. *)
Variable py_strip : string -> string.
Variable py_int : string -> string + Z.
(** [os.environ] *)
Variable environ : gmap string string.

(** The [except ValueError as e] clause of [_parse_int]: the message of the
    [ValueError] that leaves the function. *)
Definition reraised (name value msg : string) : string :=
  if str_contains "invalid literal" msg
  then "Invalid integer value for " +:+ name +:+ ": " +:+ value
  else msg.

(** [_parse_int]; [inl] carries the message of the [ValueError] raised. *)
Definition _parse_int (name : string) (default : Z) (min max : option Z)
  : string + Z :=
  match environ !! name with
  | None => inr default
  | Some value =>
      if String.eqb (py_strip value) "" then inr default
      else
        match py_int value with
        | inl msg => inl (reraised name value msg)
        | inr int_value =>
            match min with
            | Some m =>
                if int_value <? m then
                  inl (reraised name value
                         (name +:+ " must be >= " +:+ pretty m +:+ ", got "
                            +:+ pretty int_value))
                else
                  match max with
                  | Some m' =>
                      if m' <? int_value then
                        inl (reraised name value
                               (name +:+ " must be <= " +:+ pretty m'
                                  +:+ ", got " +:+ pretty int_value))
                      else inr int_value
                  | None => inr int_value
                  end
            | None =>
                match max with
                | Some m' =>
                    if m' <? int_value then
                      inl (reraised name value
                             (name +:+ " must be <= " +:+ pretty m'
                                +:+ ", got " +:+ pretty int_value))
                    else inr int_value
                | None => inr int_value
                end
            end
        end
  end.

End WithPython.

(** The integer settings that [Config.from_env] reads, with their defaults
    and bounds (lines 65-66 and 91-95). *)
Definition INTEGER_SETTINGS : list (string * Z * option Z * option Z) :=
  [ ("CONCURRENCY", 1, Some 1, None);
    ("MAX_ASSETS", 0, Some 0, None);
    ("VIDEO_CRF", 36, Some 0, Some 63);
    ("VIDEO_PRESET", 4, Some 0, Some 13);
    ("VIDEO_MAX_DIMENSION", 0, Some 0, None);
    ("VIDEO_CRF_RETRY", 40, Some 0, Some 63) ].

End Settings.

(** * Vocabulary of the properties *)

Import Transcode Exec Api Main.

(** File system after a process has run. *)
Definition fs_after_proc (cmd : command) (out : proc_outcome)
    (fs : gmap string file) : gmap string file :=
  match command_output cmd, p_written out with
  | Some path, Some data => <[path := File data true]> fs
  | _, _ => fs
  end.

(** A computation that records no orchestrator-level call. *)
Definition keeps_calls {A} (m : M A) : Prop :=
  forall w, w_calls (snd (m w)) = w_calls w.

(** A computation that always returns. *)
Definition never_raises {A} (m : M A) : Prop :=
  forall w, exists a, fst (m w) = Ret a.

(** What [process_asset] takes for a successful upload. *)
Definition upload_ok (r : option string * option string) : bool :=
  match r with
  | (Some new_asset_id, error) =>
      negb (truthy error || String.eqb new_asset_id "")
  | (None, _) => false
  end.

(** The calls of the replace protocol, by terminal status. *)
Inductive replace_calls (asset_id : string) : string -> list call -> Prop :=
  | replace_failed_upload fp da di fc fm fn r :
      upload_ok r = false ->
      replace_calls asset_id "failed_upload" [CallUpload fp da di fc fm fn r]
  | replace_failed_copy fp da di fc fm fn n e c d :
      upload_ok (Some n, e) = true -> fst c = false ->
      replace_calls asset_id "failed_copy"
        [CallUpload fp da di fc fm fn (Some n, e); CallCopy asset_id n c;
         CallDelete [n] d]
  | replace_failed_verification fp da di fc fm fn n e c g d :
      upload_ok (Some n, e) = true -> fst c = true -> fst g = false ->
      replace_calls asset_id "failed_verification"
        [CallUpload fp da di fc fm fn (Some n, e); CallCopy asset_id n c;
         CallGet n g; CallDelete [n] d]
  | replace_partial_success fp da di fc fm fn n e c g d :
      upload_ok (Some n, e) = true -> fst c = true -> fst g = true ->
      fst d = false ->
      replace_calls asset_id "partial_success"
        [CallUpload fp da di fc fm fn (Some n, e); CallCopy asset_id n c;
         CallGet n g; CallDelete [asset_id] d]
  | replace_success fp da di fc fm fn n e c g d :
      upload_ok (Some n, e) = true -> fst c = true -> fst g = true ->
      fst d = true ->
      replace_calls asset_id "success"
        [CallUpload fp da di fc fm fn (Some n, e); CallCopy asset_id n c;
         CallGet n g; CallDelete [asset_id] d].

(** Calls that fetch or convert, and change nothing in the catalog. *)
Definition is_preparation (c : call) : bool :=
  match c with
  | CallDownload _ _ _ | CallTranscode _ _ _ | CallTranscodeVideo _ _ _ => true
  | _ => false
  end.

(** The transcode attempt that [process_asset] records, first or retry. *)
Definition attempt_call (config : Config) (is_video retry : bool)
    (input_path output_path : string) : call :=
  if is_video then
    CallTranscodeVideo input_path output_path
      (if retry then video_crf_retry config else video_crf config)
  else
    CallTranscode input_path output_path
      (if retry then image_distance_retry config else image_distance config).

(** The scratch files of an asset *)
Definition scratch_input (config : Config) (asset : Asset) : string :=
  path_join (input_dir config) (id asset +:+ ".bin").
Definition scratch_output (config : Config) (asset : Asset) : string :=
  path_join (output_dir config)
    (id asset +:+ "." +:+ _get_target_format asset).

(** The orchestrator-level calls recorded between two worlds *)
Definition issued (w w' : world) : list call :=
  drop (length (w_calls w)) (w_calls w').

(** The pre-filter of [process_asset] (line 60) *)
Definition prefiltered (asset : Asset) : bool :=
  negb (String.eqb (type asset) "VIDEO") && _should_skip_by_mime_type asset.

(** An HTTP 401 or 403 response *)
Definition auth_failure (o : http_outcome) : bool :=
  match o with
  | HttpResponse r => (status_code r =? 401) || (status_code r =? 403)
  | HttpException _ => false
  end.

(** The world after [n] requests [req] and nothing else *)
Definition after_requests (n : nat) (req : request) (w : world) : world :=
  World (w_fs w) (w_clock w + n)%nat (w_http w ++ replicate n req) (w_procs w)
    (w_calls w).

(** The request that [process_asset] has [upload_asset] send *)
Definition upload_request (asset : Asset) (data : list byte) : request :=
  let target_format := _get_target_format asset in
  let new_filename :=
    Some (fst (splitext (original_file_name asset)) +:+ "." +:+ target_format)
  in
  ReqUpload data (id asset +:+ "-" +:+ target_format) (device_id asset)
    (file_created_at asset) (file_modified_at asset)
    (if truthy new_filename then new_filename else None).

(** The request of [test_connection] *)
Definition probe_request : request :=
  ReqSearch 1 1 "IMAGE" false false None None.

(** What the upload form carries: the bytes of the file, when it can be
    read. *)
Definition readable_data (fs : gmap string file) (path : string)
  : option (list byte) :=
  match fs !! path with
  | Some f => if f_readable f then Some (f_data f) else None
  | None => None
  end.

(** ** Vocabulary of the further properties *)

Import Summary Settings.

(** An outcome that [_request_with_retry] answers with another attempt while
    attempts remain: HTTP 429, HTTP 5xx, or a [RequestException]. *)
Definition transient (o : http_outcome) : bool :=
  match o with
  | HttpResponse r => retryable (status_code r)
  | HttpException _ => true
  end.

(** The processes started between two worlds *)
Definition started (w w' : world) : list command :=
  drop (length (w_procs w)) (w_procs w').

(** The HTTP requests sent between two worlds *)
Definition sent (w w' : world) : list request :=
  drop (length (w_http w)) (w_http w').


(** What [_request_with_retry] makes of the outcome of its last request *)
Definition answer (o : http_outcome) : result (option response) :=
  match o with
  | HttpResponse r =>
      if status_code r =? 401 then
        Raise (RuntimeError "Authentication failed - check IMMICH_API_KEY")
      else if status_code r =? 403 then
        Raise (RuntimeError "Forbidden - API key lacks required permissions")
      else Ret (Some r)
  | HttpException e => Raise (RuntimeError ("Request failed: " +:+ e))
  end.

(** The number of results with a given status *)
Definition occurrences (s : string) (results : list ProcessingResult) : Z :=
  Z.of_nat (length (filter (fun r => status r = s) results)).

(** The sum of the values of a dict of counters *)
Definition sum_of_counts (counts : gmap string Z) : Z :=
  map_fold (fun _ n acc => n + acc) 0 counts.

(** A value within optional bounds *)
Definition within (min max : option Z) (v : Z) : Prop :=
  (forall m, min = Some m -> m <= v) /\ (forall m, max = Some m -> v <= m).

(** A computation whose final world is related to its initial world *)
Definition respects (R : relation world) {A} (m : M A) : Prop :=
  forall w, R w (snd (m w)).

(** Worlds that agree on every file outside [paths] *)
Definition same_files_but (paths : list string) : relation world :=
  fun w w' => forall p, p ∉ paths -> w_fs w' !! p = w_fs w !! p.

(** Worlds of which the second has seen more requests, all of them in [P] *)
Definition sending (P : request -> Prop) : relation world :=
  fun w w' => exists l, w_http w' = w_http w ++ l /\ Forall P l.

(** What the validators accept: a file that is there and not empty and,
    for an image, starts like a JPEG XL file. *)
Definition acceptable (is_video : bool) (data : list byte) : Prop :=
  data <> [] /\ (is_video = false -> detect_header data = Some "jxl").

Definition validated (is_video : bool) (path : string) (w : world) : Prop :=
  exists f, w_fs w !! path = Some f /\ acceptable is_video (f_data f).

(** Requests whose uploads all carry acceptable data *)
Definition acceptable_upload (is_video : bool) (r : request) : Prop :=
  match r with
  | ReqUpload data _ _ _ _ _ => acceptable is_video data
  | _ => True
  end.

(** ** Concrete runs

    A catalog, a tool box and two assets to run the pipeline on. *)

Module Scenario.
Import Api Main.

Definition client : ImmichClient := mkClient "http://immich/api/" "key" 3 2.

Definition config : Config :=
  mkConfig "http://immich/api/" "key" false 1 0 ["IMAGE"; "VIDEO"] false false
    None None 1%Q 2%Q 36 "4" 0 "64k" 40 true false false "/work".

Definition photo : Asset :=
  mkAsset "a1" "photo.jpg" "/library/photo.jpg" (Some "image/jpeg") "IMAGE"
    "d1" "phone" "2020-01-01T00:00:00.000Z" "2020-01-02T00:00:00.000Z".

Definition drawing : Asset :=
  mkAsset "a2" "drawing.png" "/library/drawing.png" (Some "image/png") "IMAGE"
    "d2" "phone" "2021-01-01T00:00:00.000Z" "2021-01-02T00:00:00.000Z".

Definition jpeg_bytes : list byte := [xff; xd8; xff; xe0; x00; x10; x4a; x46].
Definition png_bytes : list byte := [x89; x50; x4e; x47; x0d; x0a; x1a; x0a].
Definition jxl_bytes : list byte := [xff; x0a; x00].
Definition jxl_large : list byte :=
  [xff; x0a; x00; x00; x00; x00; x00; x00; x00; x00; x00; x00].
Definition mkv_bytes : list byte := [x1a; x45; xdf; xa3; x00; x00; x00; x00].

(** The scratch files of [photo] *)
Definition inp : string := "/work/in/a1.bin".
Definition outp : string := "/work/out/a1.jxl".

Definition empty_world : world := World ∅ 0 [] [] [].

Definition world_with (path : string) (data : list byte) : world :=
  World {[path := File data true]} 0 [] [] [].

Definition reply (status : Z) : http_outcome :=
  HttpResponse (Response status [] None (JsonId None) None "").

(** A catalog that lists the two assets, serves [body] as every original,
    stores every upload under the id ["n1"] and answers deletions with
    [delete_status]. *)
Definition catalog (body : list byte) (delete_status : Z) (_ : nat)
    (r : request) : http_outcome :=
  match r with
  | ReqSearch page _ atype _ _ _ _ =>
      HttpResponse
        (Response 200 [] None (JsonId None)
           (Some (if (page =? 1) && String.eqb atype "IMAGE"
                  then [photo; drawing] else []))
           "")
  | ReqDownload _ => HttpResponse (Response 200 body None (JsonId None) None "")
  | ReqGetAsset _ => reply 200
  | ReqUpload _ _ _ _ _ _ =>
      HttpResponse (Response 201 [] None (JsonId (Some "n1")) None "")
  | ReqCopy _ _ => reply 204
  | ReqDelete _ => reply delete_status
  end.

(** A catalog that lists the assets and then refuses every other request
    with HTTP 401. *)
Definition catalog_unauthorized (t : nat) (r : request) : http_outcome :=
  match r with
  | ReqSearch _ _ _ _ _ _ _ => catalog [] 204 t r
  | _ => reply 401
  end.

(** Tools: [cjxl] ends with [cjxl_result]; ImageMagick writes a large file
    at distance 1 and a small one otherwise; [exiftool] and the video tools
    are not installed. *)
Definition tools (cjxl_result : proc_result) (_ : nat) (c : command)
  : proc_outcome :=
  match c with
  | CmdCjxl _ _ =>
      ProcOutcome cjxl_result
        match cjxl_result with
        | Exited 0 _ _ => Some jxl_bytes
        | _ => None
        end
  | CmdMagick _ d _ =>
      ProcOutcome (Exited 0 "" "")
        (Some (if Qeq_bool d 1 then jxl_large else jxl_bytes))
  | _ => ProcOutcome FileNotFound None
  end.

Definition env_ok : environment :=
  Env (catalog jpeg_bytes 204) (tools (Exited 0 "" "")) (fun _ _ => true)
    (fun _ _ => true) (fun _ => None).



Definition env_delete_refused : environment :=
  Env (catalog jpeg_bytes 400) (tools (Exited 0 "" "")) (fun _ _ => true)
    (fun _ _ => true) (fun _ => None).

Definition env_remove_fails : environment :=
  Env (catalog jpeg_bytes 204) (tools (Exited 0 "" "")) (fun _ _ => true)
    (fun _ _ => false) (fun _ => None).

Definition env_unauthorized : environment :=
  Env catalog_unauthorized (tools (Exited 0 "" "")) (fun _ _ => true)
    (fun _ _ => true) (fun _ => None).

Definition env_png : environment :=
  Env (catalog png_bytes 204) (tools FileNotFound) (fun _ _ => true)
    (fun _ _ => true) (fun _ => None).

End Scenario.

(** ** More concrete runs *)

Module Cases.
Import Api Main Scenario.

(** A catalog that is overloaded when the first two requests arrive. *)
Definition catalog_busy (t : nat) (r : request) : http_outcome :=
  if (t <? 2)%nat then reply 503 else catalog jpeg_bytes 204 t r.

Definition env_busy : environment :=
  Env catalog_busy (tools (Exited 0 "" "")) (fun _ _ => true)
    (fun _ _ => true) (fun _ => None).

(** A catalog that refuses to copy the relations. *)
Definition catalog_no_copy (t : nat) (r : request) : http_outcome :=
  match r with
  | ReqCopy _ _ => reply 400
  | _ => catalog jpeg_bytes 204 t r
  end.

Definition env_no_copy : environment :=
  Env catalog_no_copy (tools (Exited 0 "" "")) (fun _ _ => true)
    (fun _ _ => true) (fun _ => None).

Definition config_dry_run : Config :=
  mkConfig "http://immich/api/" "key" true 1 0 ["IMAGE"; "VIDEO"] false false
    None None 1%Q 2%Q 36 "4" 0 "64k" 40 true false false "/work".

Definition config_capped : Config :=
  mkConfig "http://immich/api/" "key" false 1 1 ["IMAGE"; "VIDEO"] false false
    None None 1%Q 2%Q 36 "4" 0 "64k" 40 true false false "/work".

(** Two files that differ after their first 32 bytes only *)
Definition long_png (tail : list byte) : list byte :=
  png_bytes ++ replicate 24 x00 ++ tail.

(** A file of the library, outside the work directory *)
Definition library_file : string := "/library/photo.jpg".

Definition converted : ProcessingResult := mkResult "success" 8 3 (500 # 8)%Q.
Definition failed : ProcessingResult := mkResult "failed_download" 0 0 0%Q.

(** An environment that sets the video quality, and an [int] that reads
    it. *)
Definition environ_crf : gmap string string := {["VIDEO_CRF" := "30"]}.

Definition int_of_30 (s : string) : string + Z :=
  if String.eqb s "30" then inr 30
  else inl ("invalid literal for int() with base 10: '" +:+ s +:+ "'").

End Cases.

(** * Properties *)

(** Case analysis on membership in an explicit list. *)
Ltac in_cases H :=
  repeat (apply elem_of_cons in H as [H|H];
          [try discriminate H; try (injection H as H; subst)|]);
  try (by apply elem_of_nil in H).

(** Run the monadic operations and the file primitives of the goal. *)
Ltac mrun :=
  cbv beta iota zeta delta
    [bind ret raise try_except try_finally get_fs set_fs tick log_http
     log_proc log_call path_exists getsize getsize_or_0 read_prefix
     read_file];
  cbn [w_fs w_clock w_http w_procs w_calls f_data f_readable fst snd].

Section Sniffing.

Lemma startswith_app (magic rest : list byte) :
  startswith (magic ++ rest) magic = true.
Proof.
  induction magic as [|m magic IH]; simpl; [done|].
  by rewrite decide_True.
Qed.

Lemma startswith_inv (magic header : list byte) :
  startswith header magic = true -> exists rest, header = magic ++ rest.
Proof.
  revert header. induction magic as [|m magic IH]; intros header H.
  - by exists header.
  - destruct header as [|h header]; simpl in H; [done|].
    destruct (decide (h = m)) as [->|]; [|done].
    destruct (IH _ H) as [rest ->]. by exists rest.
Qed.

Lemma startswith_take (n : nat) (magic data : list byte) :
  (length magic <= n)%nat ->
  startswith (take n data) magic = startswith data magic.
Proof.
  revert n data. induction magic as [|m magic IH]; intros n data Hn.
  - by destruct (take n data).
  - simpl in Hn. destruct n as [|n]; [lia|].
    destruct data as [|h data]; simpl; [done|].
    destruct (decide (h = m)); [|done]. apply IH. lia.
Qed.

Lemma slice_take (lo hi n : nat) (data : list byte) :
  (hi <= n)%nat -> slice lo hi (take n data) = slice lo hi data.
Proof.
  intros Hn. unfold slice.
  rewrite skipn_firstn_comm, take_take. f_equal. lia.
Qed.

Lemma len_take_ge (k : Z) (n : nat) (data : list byte) :
  k <= Z.of_nat n ->
  (k <=? len (take n data)) = (k <=? len data).
Proof.
  intros Hk. unfold len. rewrite length_take.
  destruct (Z.leb_spec k (Z.of_nat (length data)));
    [apply Z.leb_le | apply Z.leb_gt]; lia.
Qed.



(** Reading 32 bytes is enough: no rule looks further than byte 12. *)
Lemma match_magic_take (data : list byte) :
  match_magic MAGIC_BYTES (take 32 data) = match_magic MAGIC_BYTES data.
Proof.
  unfold MAGIC_BYTES, match_magic.
  by rewrite !startswith_take by (simpl; lia).
Qed.

Lemma detect_quicktime_take (data : list byte) :
  detect_quicktime (take 32 data) = detect_quicktime data.
Proof.
  unfold detect_quicktime.
  by rewrite len_take_ge, slice_take by lia.
Qed.

Lemma detect_ftyp_take (data : list byte) :
  detect_ftyp (take 32 data) = detect_ftyp data.
Proof.
  unfold detect_ftyp.
  by rewrite len_take_ge, !slice_take, detect_quicktime_take by lia.
Qed.

Lemma detect_matroska_take (data : list byte) :
  detect_matroska (take 32 data) = detect_matroska data.
Proof.
  unfold detect_matroska.
  by rewrite startswith_take, detect_ftyp_take by (simpl; lia).
Qed.

Lemma detect_riff_take (data : list byte) :
  detect_riff (take 32 data) = detect_riff data.
Proof.
  unfold detect_riff.
  by rewrite startswith_take, len_take_ge, !slice_take, detect_matroska_take
    by (simpl; lia).
Qed.

Lemma detect_header_take (data : list byte) :
  detect_header (take 32 data) = detect_header data.
Proof.
  unfold detect_header. by rewrite match_magic_take, detect_riff_take.
Qed.

(** A signature of the table decides the result when no earlier entry of
    the table can match the same bytes. *)
Ltac by_signature H :=
  destruct (startswith_inv _ _ H) as [rest ->]; vm_compute; reflexivity.


Lemma ebml_no_magic (data : list byte) :
  startswith data EBML = true -> match_magic MAGIC_BYTES data = None.
Proof. intros H. by_signature H. Qed.

Lemma ebml_not_riff (data : list byte) :
  startswith data EBML = true -> startswith data RIFF = false.
Proof. intros H. by_signature H. Qed.


Lemma detect_format_spec (path : string) (w : world) :
  detect_format path w =
  (Ret match w_fs w !! path with
       | Some (File data true) => detect_header data
       | _ => None
       end, w).
Proof.
  destruct w as [fs clk http procs calls]. unfold detect_format. mrun.
  destruct (fs !! path) as [[data [|]]|]; mrun; [|done..].
  by rewrite detect_header_take.
Qed.




(** C10.  A readable file whose first four bytes are [1A 45 DF A3] is
    classified "mkv". *)
Theorem detect_format_matroska (path : string) (w : world) (data : list byte) :
  w_fs w !! path = Some (File data true) ->
  startswith data [x1a; x45; xdf; xa3] = true ->
  detect_format path w = (Ret (Some "mkv"), w).
Proof.
  intros Hf Hs. change (startswith data EBML = true) in Hs.
  rewrite detect_format_spec, Hf. do 2 f_equal.
  unfold detect_header. rewrite (ebml_no_magic _ Hs).
  unfold detect_riff. rewrite (ebml_not_riff _ Hs). cbn [andb].
  unfold detect_matroska. by rewrite Hs.
Qed.

Lemma validate_output_run (path expected : string) (w : world) :
  validate_output path expected w =
  (Ret match w_fs w !! path with
       | Some f =>
           if len (f_data f) =? 0 then false
           else bool_decide
                  ((if f_readable f then detect_header (f_data f) else None)
                   = Some expected)
       | None => false
       end, w).
Proof.
  pose proof (detect_format_spec path w) as Hd.
  destruct w as [fs clk http procs calls]. unfold validate_output.
  cbn [w_fs] in *. mrun. unfold exists_.
  destruct (fs !! path) as [f|] eqn:Hf.
  - rewrite (bool_decide_eq_true_2 _ (mk_is_Some _ _ eq_refl)).
    cbn [negb]. mrun. rewrite Hf. mrun.
    destruct (len (f_data f) =? 0); [done|].
    rewrite Hd. mrun. by destruct f as [data [|]].
  - rewrite bool_decide_eq_false_2; [done|]. by intros [? ?].
Qed.

(** C8.  [validate_output] returns and leaves the world as it was; it
    returns true exactly when the file exists, is not empty and sniffs to
    the expected format; a missing file, an empty file and a different
    sniffed format each give false. *)
Theorem validate_output_spec (path expected_format : string) (w : world) :
  exists b,
    validate_output path expected_format w = (Ret b, w) /\
    (b = true <->
       exists f, w_fs w !! path = Some f /\ f_data f <> [] /\
                 fst (detect_format path w) = Ret (Some expected_format)) /\
    (w_fs w !! path = None -> b = false) /\
    (forall f, w_fs w !! path = Some f -> f_data f = [] -> b = false) /\
    (forall fmt, fst (detect_format path w) = Ret fmt ->
                 fmt <> Some expected_format -> b = false).
Proof.
  eexists. split; [apply validate_output_run|].
  rewrite detect_format_spec. cbn [fst].
  destruct (w_fs w !! path) as [[data r]|] eqn:Hf; cbn [f_data f_readable].
  - destruct data as [|x data].
    + change (len [] =? 0) with true. cbn iota.
      split_and!; try done.
      split; [done|]. by intros (f' & [= <-] & Hne & _).
    + change (len (x :: data) =? 0) with false. cbn iota.
      split_and!.
      * split.
        -- intros Hb%bool_decide_eq_true. eexists.
           split; [done|]. split; [done|]. by rewrite Hb.
        -- intros (f' & [= <-] & _ & [= Hb]). by apply bool_decide_eq_true_2.
      * done.
      * by intros f' [= <-] [=].
      * intros fmt [= Hfmt] Hne. apply bool_decide_eq_false_2. congruence.
  - split_and!; try done. split; [done|]. by intros (f & [=] & _).
Qed.

End Sniffing.

(** Run the monadic operations only; the file primitives are rewritten
    with their equations. *)
Ltac mcore :=
  cbv beta iota zeta delta
    [bind ret raise try_except try_finally get_fs set_fs tick log_http
     log_proc log_call];
  cbn [w_fs w_clock w_http w_procs w_calls f_data f_readable fst snd].

Section Executor.
Variable env : environment.

Lemma getsize_eq path fs clk http procs calls :
  getsize path (World fs clk http procs calls) =
  (match fs !! path with
   | Some f => Ret (len (f_data f))
   | None => Raise (OSError ("No such file or directory: " +:+ path))
   end, World fs clk http procs calls).
Proof. mrun. by destruct (fs !! path). Qed.

Lemma subprocess_run_eq cmd fs clk http procs calls :
  subprocess_run env cmd (World fs clk http procs calls) =
  (Ret (p_result (env_proc env clk cmd)),
   World (fs_after_proc cmd (env_proc env clk cmd) fs) (S clk) http
     (procs ++ [cmd]) calls).
Proof.
  unfold subprocess_run, fs_after_proc. mrun.
  destruct (command_output cmd) as [path|]; [|done].
  by destruct (p_written (env_proc env clk cmd)).
Qed.


Lemma copy_metadata_eq source dest fs clk http procs calls :
  let out := env_proc env clk (CmdExiftool source dest) in
  copy_metadata env source dest (World fs clk http procs calls) =
  (match p_result out with
   | Exited rc _ _ => Ret (rc =? 0)
   | TimeoutExpired | FileNotFound => Ret false
   | ProcOSError m => Raise (OSError m)
   end,
   World (fs_after_proc (CmdExiftool source dest) out fs) (S clk) http
     (procs ++ [CmdExiftool source dest]) calls).
Proof.
  intros out. unfold copy_metadata. mrun. rewrite subprocess_run_eq.
  fold out. by destruct (p_result out).
Qed.

Lemma getsize_or_0_eq path fs clk http procs calls :
  getsize_or_0 path (World fs clk http procs calls) =
  (Ret (from_option (fun f => len (f_data f)) 0 (fs !! path)),
   World fs clk http procs calls).
Proof.
  mrun. unfold exists_.
  destruct (fs !! path) as [f|] eqn:Hf.
  - rewrite (bool_decide_eq_true_2 _ (mk_is_Some _ _ eq_refl)). mrun.
    by rewrite Hf.
  - rewrite bool_decide_eq_false_2; [done|]. by intros [? ?].
Qed.

Ltac mstep :=
  first [ rewrite subprocess_run_eq
        | rewrite copy_metadata_eq
        | rewrite getsize_or_0_eq
        | rewrite getsize_eq
        | rewrite detect_format_spec
        | progress mcore ].


(** [transcode] on a JPEG input, one case per way [cjxl] can end. *)
Lemma transcode_jpeg_eq inp outp distance fs clk http procs calls data :
  fs !! inp = Some (File data true) ->
  detect_header data = Some "jpg" ->
  let cjxl := CmdCjxl inp outp in
  let out := env_proc env clk cjxl in
  let w1 := World (fs_after_proc cjxl out fs) (S clk) http (procs ++ [cjxl])
              (calls ++ [CallTranscode inp outp distance]) in
  transcode env inp outp distance (World fs clk http procs calls) =
  match p_result out with
  | Exited rc _ _ =>
      if rc =? 0 then
        (Ret (mkTranscodeResult true inp outp (len data)
                (from_option (fun f => len (f_data f)) 0 (w_fs w1 !! outp))
                "jpg" None), w1)
      else _transcode_with_magick env inp outp distance w1
  | TimeoutExpired =>
      (Ret (mkTranscodeResult false inp outp (len data) 0 "jpg"
              (Some "cjxl timed out after 600s")), w1)
  | FileNotFound => _transcode_with_magick env inp outp distance w1
  | ProcOSError m => (Raise (OSError m), w1)
  end.
Proof.
  intros Hf Hjpg cjxl out w1.
  unfold transcode, transcode_body. repeat mstep. rewrite Hf.
  repeat mstep. rewrite ?Hf, Hjpg. cbn [String.eqb Ascii.eqb Bool.eqb].
  repeat mstep. fold cjxl out w1.
  destruct (p_result out) as [rc so se| | |m]; try done.
  destruct (rc =? 0); [|done]. subst w1. by repeat mstep.
Qed.


(** C5 (as the code has it).  After a successful ImageMagick conversion
    [exiftool] is started from input to output, and however it ends (other
    than by an operating-system error that nothing catches) the result has
    [success = true].  The [cjxl] path returns its success without starting
    [exiftool]. *)
Theorem metadata_copy_best_effort inp outp distance w f :
  w_fs w !! inp = Some f ->
  let t := w_clock w in
  let magick := CmdMagick inp distance outp in
  let exiftool := CmdExiftool inp outp in
  let cjxl := CmdCjxl inp outp in
  (forall so se, p_result (env_proc env t magick) = Exited 0 so se ->
     let r := _transcode_with_magick env inp outp distance w in
     w_procs (snd r) = w_procs w ++ [magick; exiftool] /\
     ((forall m, p_result (env_proc env (S t) exiftool) <> ProcOSError m) ->
      exists tr, fst r = Ret tr /\ success tr = true)) /\
  (f_readable f = true -> detect_header (f_data f) = Some "jpg" ->
   forall so se, p_result (env_proc env t cjxl) = Exited 0 so se ->
     let r := transcode env inp outp distance w in
     w_procs (snd r) = w_procs w ++ [cjxl] /\
     exists tr, fst r = Ret tr /\ success tr = true).
Proof.
  intros Hf t magick exiftool cjxl.
  destruct w as [fs clk http procs calls]. cbn [w_fs w_clock w_procs] in *.
  subst t. split.
  - intros so se Hm.
    unfold _transcode_with_magick. repeat mstep. rewrite Hf.
    repeat mstep. fold magick. rewrite Hm. cbn [Z.eqb]. repeat mstep.
    fold exiftool. rewrite <- app_assoc. cbn [app].
    destruct (p_result (env_proc env (S clk) exiftool)) as [rc so' se'| | |m];
      repeat mstep; (split; [done|]); eauto.
    intros Hno. by destruct (Hno m).
  - intros Hr Hjpg so se Hc. destruct f as [data rd].
    cbn [f_readable f_data] in *. subst rd.
    rewrite (transcode_jpeg_eq _ _ _ _ _ _ _ _ data) by done.
    fold cjxl. rewrite Hc. cbn [Z.eqb fst snd w_procs]. eauto.
Qed.

End Executor.

Section Frames.

Lemma keeps_ret {A} (a : A) : keeps_calls (ret a).
Proof. by intros w. Qed.

Lemma keeps_raise {A} (e : exn) : keeps_calls (@raise A e).
Proof. by intros w. Qed.

Lemma keeps_bind {A B} (m : M A) (k : A -> M B) :
  keeps_calls m -> (forall a, keeps_calls (k a)) -> keeps_calls (bind m k).
Proof.
  intros Hm Hk w. unfold bind. specialize (Hm w).
  destruct (m w) as [[a|e] w']; cbn [snd] in *; [|done].
  by rewrite Hk.
Qed.

Lemma keeps_try_except {A} (m : M A) (h : exn -> M A) :
  keeps_calls m -> (forall e, keeps_calls (h e)) ->
  keeps_calls (try_except m h).
Proof.
  intros Hm Hh w. unfold try_except. specialize (Hm w).
  destruct (m w) as [[a|e] w']; cbn [snd] in *; [done|].
  by rewrite Hh.
Qed.

Lemma keeps_try_finally {A} (m : M A) (c : M unit) :
  keeps_calls m -> keeps_calls c -> keeps_calls (try_finally m c).
Proof.
  intros Hm Hc w. unfold try_finally. specialize (Hm w).
  destruct (m w) as [r w']. specialize (Hc w').
  destruct (c w') as [[]]; cbn [snd] in *; congruence.
Qed.

Lemma keeps_get_fs : keeps_calls get_fs.
Proof. by intros w. Qed.
Lemma keeps_set_fs fs : keeps_calls (set_fs fs).
Proof. by intros w. Qed.
Lemma keeps_tick : keeps_calls tick.
Proof. by intros w. Qed.
Lemma keeps_log_http r : keeps_calls (log_http r).
Proof. by intros w. Qed.
Lemma keeps_log_proc c : keeps_calls (log_proc c).
Proof. by intros w. Qed.

End Frames.

Create HintDb keeps discriminated.
#[export] Hint Resolve keeps_ret keeps_raise keeps_get_fs keeps_set_fs
  keeps_tick keeps_log_http keeps_log_proc : keeps.

(** Decompose a computation along its binds and case distinctions. *)
Ltac keeps :=
  repeat first
    [ progress intros
    | apply keeps_bind
    | apply keeps_try_except
    | apply keeps_try_finally
    | solve [eauto with keeps]
    | match goal with
      | |- keeps_calls (match ?x with _ => _ end) => destruct x
      | |- keeps_calls (let _ := _ in _) => cbv zeta
      end ].

Section FramesOfPrimitives.
Variable env : environment.

Lemma keeps_path_exists p : keeps_calls (path_exists p).
Proof. unfold path_exists. keeps. Qed.
Lemma keeps_getsize p : keeps_calls (getsize p).
Proof. unfold getsize. keeps. Qed.
Lemma keeps_getsize_or_0 p : keeps_calls (getsize_or_0 p).
Proof. unfold getsize_or_0. keeps; auto using keeps_path_exists, keeps_getsize. Qed.
Lemma keeps_read_prefix n p : keeps_calls (read_prefix n p).
Proof. unfold read_prefix. keeps. Qed.
Lemma keeps_read_file p : keeps_calls (read_file p).
Proof. unfold read_file. keeps. Qed.
Lemma keeps_subprocess_run c : keeps_calls (subprocess_run env c).
Proof. unfold subprocess_run. keeps. Qed.

End FramesOfPrimitives.

#[export] Hint Resolve keeps_path_exists keeps_getsize keeps_getsize_or_0
  keeps_read_prefix keeps_read_file keeps_subprocess_run : keeps.

Section FramesOfExec.
Variable env : environment.

Lemma keeps_detect_format p : keeps_calls (detect_format p).
Proof. unfold detect_format. keeps. Qed.
Lemma keeps_detect_video_codec p : keeps_calls (detect_video_codec env p).
Proof. unfold detect_video_codec. keeps. Qed.
Lemma keeps_validate_output p e : keeps_calls (validate_output p e).
Proof. unfold validate_output. keeps. Qed.
Lemma keeps_copy_metadata s d : keeps_calls (copy_metadata env s d).
Proof. unfold copy_metadata. keeps. Qed.
Lemma keeps_transcode_with_magick i o d :
  keeps_calls (_transcode_with_magick env i o d).
Proof.
  unfold _transcode_with_magick.
  keeps; auto using keeps_detect_format, keeps_copy_metadata.
Qed.
Lemma keeps_transcode_body i o d : keeps_calls (transcode_body env i o d).
Proof.
  unfold transcode_body.
  keeps; auto using keeps_detect_format, keeps_transcode_with_magick.
Qed.
Lemma keeps_transcode_video_body i o c p m a :
  keeps_calls (transcode_video_body env i o c p m a).
Proof.
  unfold transcode_video_body. keeps; auto using keeps_detect_video_codec.
Qed.
Lemma keeps_validate_video_output p :
  keeps_calls (validate_video_output env p).
Proof. unfold validate_video_output. keeps. Qed.

End FramesOfExec.

Section FramesOfApi.
Variable env : environment.
Variable self : ImmichClient.

Lemma keeps_http_request r : keeps_calls (http_request env r).
Proof. unfold http_request. keeps. Qed.

Lemma keeps_request_attempts r a todo l :
  keeps_calls (request_attempts env self r a todo l).
Proof.
  revert a l. induction todo as [|todo IH]; intros a l; cbn [request_attempts].
  - keeps.
  - keeps; auto using keeps_http_request.
Qed.

Lemma keeps_request_with_retry r : keeps_calls (_request_with_retry env self r).
Proof. apply keeps_request_attempts. Qed.

Lemma keeps_the_response o : keeps_calls (the_response o).
Proof. unfold the_response. keeps. Qed.

Lemma keeps_write_stream p r : keeps_calls (write_stream env p r).
Proof. unfold write_stream. keeps. Qed.

Lemma keeps_upload_attempt p f a l :
  keeps_calls (upload_attempt env self p f a l).
Proof. unfold upload_attempt. keeps; auto using keeps_http_request. Qed.

Lemma keeps_upload_attempts p f a todo l :
  keeps_calls (upload_attempts env self p f a todo l).
Proof.
  revert a l. induction todo as [|todo IH]; intros a l; cbn [upload_attempts].
  - keeps.
  - keeps; auto using keeps_upload_attempt.
Qed.

Lemma never_raises_handled {A} (m : M A) (h : exn -> A) :
  never_raises (try_except m (fun e => ret (h e))).
Proof.
  intros w. unfold try_except. destruct (m w) as [[a|e] w']; cbn; eauto.
Qed.

Lemma never_raises_upload_attempt p f a l :
  never_raises (upload_attempt env self p f a l).
Proof.
  apply (never_raises_handled _ (fun e => inr (None, Some (str_exn e)))).
Qed.

Lemma never_raises_upload_attempts p f a todo l :
  never_raises (upload_attempts env self p f a todo l).
Proof.
  revert a l. induction todo as [|todo IH]; intros a l w;
    cbn [upload_attempts].
  - cbn. eauto.
  - unfold bind.
    destruct (never_raises_upload_attempt p f a l w) as [s Hs].
    destruct (upload_attempt env self p f a l w) as [r w'].
    cbn [fst] in Hs. subst r. destruct s as [l'|r]; [apply IH|cbn; eauto].
Qed.

(** A client method of the form
    [r <- try_except body handler ;; log_call (ev r) ;;; ret r]. *)
Lemma logged_call {A} (m : M A) (ev : A -> call) (w : world) :
  keeps_calls m -> never_raises m ->
  exists r w',
    (r <- m ;; log_call (ev r) ;;; ret r) w = (Ret r, w') /\
    w_calls w' = w_calls w ++ [ev r].
Proof.
  intros Hk Hn. specialize (Hk w). destruct (Hn w) as [r Hr].
  unfold bind. destruct (m w) as [r' w'].
  cbn [fst snd] in *. subst r'. cbn. rewrite <- Hk. eauto.
Qed.

Lemma download_original_calls asset_id path w :
  exists r w',
    download_original env self asset_id path w = (Ret r, w') /\
    w_calls w' = w_calls w ++ [CallDownload asset_id path r].
Proof.
  apply (logged_call _ (CallDownload asset_id path)).
  - keeps; auto using keeps_request_with_retry, keeps_the_response,
      keeps_write_stream.
  - apply (never_raises_handled _
             (fun e => (0, Some ("Download failed: " +:+ str_exn e)))).
Qed.

Lemma get_asset_calls asset_id w :
  exists r w',
    get_asset env self asset_id w = (Ret r, w') /\
    w_calls w' = w_calls w ++ [CallGet asset_id r].
Proof.
  apply (logged_call _ (CallGet asset_id)).
  - keeps; auto using keeps_request_with_retry, keeps_the_response.
  - apply (never_raises_handled _ (fun e => (false, Some (str_exn e)))).
Qed.

Lemma copy_asset_data_calls from to w :
  exists r w',
    copy_asset_data env self from to w = (Ret r, w') /\
    w_calls w' = w_calls w ++ [CallCopy from to r].
Proof.
  apply (logged_call _ (CallCopy from to)).
  - keeps; auto using keeps_request_with_retry, keeps_the_response.
  - apply (never_raises_handled _ (fun e => (false, Some (str_exn e)))).
Qed.

Lemma delete_assets_calls ids w :
  exists r w',
    delete_assets env self ids w = (Ret r, w') /\
    w_calls w' = w_calls w ++ [CallDelete ids r].
Proof.
  apply (logged_call _ (CallDelete ids)).
  - keeps; auto using keeps_request_with_retry, keeps_the_response.
  - apply (never_raises_handled _ (fun e => (false, Some (str_exn e)))).
Qed.

Lemma upload_asset_calls fp da di fc fm fn w :
  exists r w',
    upload_asset env self fp da di fc fm fn w = (Ret r, w') /\
    w_calls w' = w_calls w ++ [CallUpload fp da di fc fm fn r].
Proof.
  apply (logged_call _ (CallUpload fp da di fc fm fn)).
  - apply keeps_upload_attempts.
  - apply never_raises_upload_attempts.
Qed.

End FramesOfApi.

Section Pipeline.
Variable env : environment.
Variable client : ImmichClient.
Variable config : Config.

Lemma log_then_keeps {A} (c : call) (m : M A) (w : world) :
  keeps_calls m ->
  w_calls (snd ((log_call c ;;; m) w)) = w_calls w ++ [c].
Proof.
  intros Hk. destruct w as [fs clk http procs calls]. mcore.
  by rewrite Hk.
Qed.

Lemma transcode_and_validate_calls is_video retry input_path output_path w :
  exists res w',
    transcode_and_validate env config is_video retry input_path output_path w
    = (res, w') /\
    w_calls w'
    = w_calls w ++ [attempt_call config is_video retry input_path output_path].
Proof.
  eexists _, _. split; [apply surjective_pairing|].
  unfold transcode_and_validate, attempt_call.
  destruct is_video.
  - unfold transcode_video.
    match goal with
    | |- context [log_call ?c ;;; ?m] =>
        pose proof (log_then_keeps c m w
                      (keeps_transcode_video_body env _ _ _ _ _ _)) as Hl
    end.
    unfold bind at 1.
    destruct ((log_call _ ;;; _) w) as [[result|e] w1]; cbn [snd] in *;
      [|done].
    pose proof (keeps_validate_video_output env output_path w1) as Hv.
    unfold bind.
    destruct (validate_video_output env output_path w1) as [[b|e] w2];
      cbn [snd ret] in *; congruence.
  - unfold transcode.
    match goal with
    | |- context [log_call ?c ;;; ?m] =>
        pose proof (log_then_keeps c m w (keeps_transcode_body env _ _ _))
          as Hl
    end.
    unfold bind at 1.
    destruct ((log_call _ ;;; _) w) as [[result|e] w1]; cbn [snd] in *;
      [|done].
    pose proof (keeps_validate_output output_path "jxl" w1) as Hv.
    unfold bind.
    destruct (validate_output output_path "jxl" w1) as [[b|e] w2];
      cbn [snd ret] in *; congruence.
Qed.

(** Run the next client call of the goal with its specification. *)
Ltac run_call lem r w' Hc :=
  let Heq := fresh "Heq" in
  destruct lem as (r & w' & Heq & Hc);
  unfold bind at 1; rewrite Heq; clear Heq; cbv beta iota.

Lemma replace_spec asset target_format output_path result_info w :
  exists st tr w',
    replace env client asset target_format output_path result_info w
    = (Ret (set_status st result_info), w') /\
    replace_calls (id asset) st tr /\
    w_calls w' = w_calls w ++ tr.
Proof.
  unfold replace. cbv zeta.
  match goal with
  | |- context [upload_asset env client ?a ?b ?c ?d ?e ?f] =>
      run_call (upload_asset_calls env client a b c d e f w) up w1 Hup
  end.
  destruct up as [[n|] e].
  2: { eexists _, _, _. split; [reflexivity|]. split; cycle 1.
       - exact Hup.
       - by eapply replace_failed_upload. }
  destruct (truthy e || String.eqb n "") eqn:Hok.
  { eexists _, _, _. split; [reflexivity|]. split; cycle 1.
    - exact Hup.
    - eapply replace_failed_upload. cbn. by rewrite Hok. }
  assert (upload_ok (Some n, e) = true) as Hok' by (cbn; by rewrite Hok).
  run_call (copy_asset_data_calls env client (id asset) n w1) cp w2 Hcp.
  destruct (fst cp) eqn:Hcpok; cbn [negb].
  2: { run_call (delete_assets_calls env client [n] w2) dl w3 Hdl.
       eexists _, _, _. split; [reflexivity|]. split; cycle 1.
       - rewrite Hdl, Hcp, Hup, <- !app_assoc. reflexivity.
       - by eapply replace_failed_copy. }
  run_call (get_asset_calls env client n w2) vf w3 Hvf.
  destruct (fst vf) eqn:Hvfok; cbn [negb].
  2: { run_call (delete_assets_calls env client [n] w3) dl w4 Hdl.
       eexists _, _, _. split; [reflexivity|]. split; cycle 1.
       - rewrite Hdl, Hvf, Hcp, Hup, <- !app_assoc. reflexivity.
       - by eapply replace_failed_verification. }
  run_call (delete_assets_calls env client [id asset] w3) dl w4 Hdl.
  destruct (fst dl) eqn:Hdlok; cbn [negb].
  - eexists _, _, _. split; [reflexivity|]. split; cycle 1.
    + rewrite Hdl, Hvf, Hcp, Hup, <- !app_assoc. reflexivity.
    + by eapply replace_success.
  - eexists _, _, _. split; [reflexivity|]. split; cycle 1.
    + rewrite Hdl, Hvf, Hcp, Hup, <- !app_assoc. reflexivity.
    + by eapply replace_partial_success.
Qed.

Lemma handle_larger_output_calls is_video input_path output_path
    in_bytes out_bytes result_info w :
  exists res w',
    handle_larger_output env config is_video input_path output_path in_bytes
      out_bytes result_info w = (res, w') /\
    (w_calls w' = w_calls w \/
     w_calls w'
     = w_calls w ++ [attempt_call config is_video true input_path output_path]).
Proof.
  unfold handle_larger_output.
  destruct (in_bytes <? out_bytes); [|by eexists _, _; split; [|left]].
  destruct (allow_larger config); [by eexists _, _; split; [|left]|].
  destruct (enable_retry config); [|by eexists _, _; split; [|left]].
  destruct (transcode_and_validate_calls is_video true input_path
              output_path w) as (res & w1 & Heq & Hc).
  unfold bind. rewrite Heq. destruct res as [[result is_valid]|e].
  - cbn [fst snd].
    destruct (negb (success result) || negb is_valid);
      [by eexists _, _; split; [|right]|].
    destruct ((in_bytes <? result_output_bytes result)
              && negb (accept_retry_output config));
      by eexists _, _; split; [|right].
  - by eexists _, _; split; [|right].
Qed.

(** Everything [process_asset] records before the replace protocol is a
    download or a transcode attempt; what follows is the replace protocol,
    whose terminal status is the status of the asset. *)
Lemma process_asset_try_calls asset is_video target_format input_path
    output_path result_info w :
  exists r w' pre tr,
    process_asset_try env client config asset is_video target_format
      input_path output_path result_info w = (r, w') /\
    w_calls w' = w_calls w ++ pre ++ tr /\
    forallb is_preparation pre = true /\
    (tr = [] \/
     exists st ri, replace_calls (id asset) st tr /\ r = Ret ri /\
                   status ri = st).
Proof.
  unfold process_asset_try.
  destruct (dry_run config && negb is_video).
  { exists (Ret (set_status "dry_run_skip" result_info)), w, [], [].
    rewrite !app_nil_r. auto. }
  run_call (download_original_calls env client (id asset) input_path w)
    dl w1 Hdl.
  destruct (truthy (snd dl)).
  { eexists _, _, [_], []. split; [reflexivity|].
    split; [exact Hdl|]. auto. }
  destruct (dry_run config && is_video).
  { pose proof (keeps_detect_video_codec env input_path w1) as Hk.
    rewrite Hdl in Hk. unfold bind.
    destruct (detect_video_codec env input_path w1) as [[codec|e] w2];
      cbn [snd] in Hk.
    - destruct (bool_decide (codec = Some "av1"));
        eexists _, _, [_], []; (split; [reflexivity|]);
        (split; [exact Hk|]); auto.
    - eexists _, _, [_], []. split; [reflexivity|].
      split; [exact Hk|]. auto. }
  destruct (transcode_and_validate_calls is_video false input_path
              output_path w1) as (rv & w2 & Heq & Hc).
  rewrite Hdl, <- app_assoc in Hc. cbn [app] in Hc.
  assert (forallb is_preparation
            [CallDownload (id asset) input_path dl;
             attempt_call config is_video false input_path output_path]
          = true) as Hprep by (by destruct is_video).
  unfold bind at 1. rewrite Heq. destruct rv as [[result is_valid]|e].
  2: { eexists _, _, [_; _], []. split; [reflexivity|].
       split; [exact Hc|]. auto. }
  cbn [fst snd].
  destruct (negb (success result)).
  { destruct (match error result with Some e => _ | None => _ end);
      eexists _, _, [_; _], []; (split; [reflexivity|]);
      (split; [exact Hc|]); auto. }
  destruct (negb is_valid).
  { eexists _, _, [_; _], []. split; [reflexivity|].
    split; [exact Hc|]. auto. }
  match goal with
  | |- context [handle_larger_output env config ?a ?b ?c ?d ?e ?f] =>
      destruct (handle_larger_output_calls a b c d e f w2)
        as (h & w3 & Hh & Hhc)
  end.
  unfold bind at 1. rewrite Hh.
  assert (exists pre, w_calls w3 = w_calls w ++ pre /\
                      forallb is_preparation pre = true)
    as (pre & Hpre & Hprep').
  { destruct Hhc as [Hhc|Hhc]; rewrite Hhc, Hc, <- ?app_assoc.
    - eauto.
    - eexists. split; [reflexivity|]. cbn. by destruct is_video. }
  destruct h as [[ri|[ri ob]]|e].
  - exists (Ret ri), w3, pre, []. rewrite app_nil_r. auto.
  - match goal with
    | |- context [replace env client ?a ?b ?c ?d] =>
        destruct (replace_spec a b c d w3)
          as (st & tr & w4 & Hrep & Hrc & Hw)
    end.
    rewrite Hrep. eexists _, _, pre, tr. split; [reflexivity|].
    rewrite Hw, Hpre, <- app_assoc. split; [done|]. split; [done|].
    right. by eexists _, _.
  - exists (Raise e), w3, pre, []. rewrite app_nil_r. auto.
Qed.

End Pipeline.

Section Orchestrator.
Variable env : environment.
Variable client : ImmichClient.
Variable config : Config.

Lemma cleanup_path_eq path fs clk http procs calls :
  cleanup_path env path (World fs clk http procs calls) =
  if negb (String.eqb path "") && exists_ fs path then
    (Ret tt,
     World (if env_remove env clk path then delete path fs else fs) (S clk)
       http procs calls)
  else (Ret tt, World fs clk http procs calls).
Proof.
  unfold cleanup_path. mrun.
  destruct (negb (String.eqb path "") && exists_ fs path); [|done].
  mrun. by destruct (env_remove env clk path).
Qed.

Lemma cleanup_keeps_calls p q :
  keeps_calls (cleanup_path env p ;;; cleanup_path env q).
Proof. unfold cleanup_path. keeps. Qed.

Lemma cleanup_returns p q w :
  exists w', (cleanup_path env p ;;; cleanup_path env q) w = (Ret tt, w').
Proof.
  destruct w as [fs clk http procs calls]. unfold bind.
  rewrite cleanup_path_eq.
  destruct (negb (String.eqb p "") && exists_ fs p);
    rewrite cleanup_path_eq;
    match goal with |- context [if ?c then _ else _] => destruct c end; eauto.
Qed.

(** The result and the recorded calls of [process_asset] are those of its
    [try] block. *)
Lemma process_asset_calls asset w :
  exists r w' pre tr,
    process_asset env client config asset w = (r, w') /\
    issued w w' = pre ++ tr /\
    forallb is_preparation pre = true /\
    (tr = [] \/
     exists st ri, replace_calls (id asset) st tr /\ r = Ret ri /\
                   status ri = st).
Proof.
  unfold process_asset, issued.
  destruct (negb (String.eqb (type asset) "VIDEO")
            && _should_skip_by_mime_type asset).
  { eexists _, w, [], []. split; [reflexivity|].
    rewrite drop_all. auto. }
  match goal with
  | |- context [process_asset_try env client config ?a ?v ?t ?i ?o ?ri] =>
      destruct (process_asset_try_calls env client config a v t i o ri w)
        as (r & w1 & pre & tr & Heq & Hc & Hpre & Htr)
  end.
  cbv zeta. unfold try_finally. rewrite Heq.
  match goal with
  | |- context [(cleanup_path env ?p ;;; cleanup_path env ?q) w1] =>
      destruct (cleanup_returns p q w1) as [w2 Hcl];
      pose proof (cleanup_keeps_calls p q w1) as Hk
  end.
  rewrite Hcl in Hk |- *. cbn [snd] in Hk.
  exists r, w2, pre, tr. split; [done|].
  by rewrite Hk, Hc, drop_app_length.
Qed.

Lemma preparation_elem (pre : list call) (x : call) :
  forallb is_preparation pre = true -> x ∈ pre -> is_preparation x = true.
Proof.
  intros Hall Hx. rewrite forallb_forall in Hall.
  apply Hall. by apply list_elem_of_In.
Qed.



(** C7.  When the upload, the copy of the relations and the verification
    have succeeded and the delete of the original has failed, the status is
    partial_success and that failed delete is the only delete call of the
    pipeline: none is issued for the new asset. *)
Theorem partial_success_keeps_new_asset asset w :
  let r := process_asset env client config asset w in
  let calls := issued w (snd r) in
  forall fp da di fc fm fn n e c g d,
    CallUpload fp da di fc fm fn (Some n, e) ∈ calls ->
    upload_ok (Some n, e) = true ->
    CallCopy (id asset) n c ∈ calls -> fst c = true ->
    CallGet n g ∈ calls -> fst g = true ->
    CallDelete [id asset] d ∈ calls -> fst d = false ->
    (exists ri, fst r = Ret ri /\ status ri = "partial_success") /\
    (forall ids d', CallDelete ids d' ∈ calls ->
                    ids = [id asset] /\ d' = d).
Proof.
  intros r calls fp da di fc fm fn n e c g d Hu Huok Hcp Hcpok Hg Hgok Hd Hdf.
  subst r calls.
  destruct (process_asset_calls asset w)
    as (r & w' & pre' & tr & Heq & Hc & Hpre & Htr).
  rewrite Heq in *. cbn [fst snd] in *. rewrite Hc in *. clear Heq Hc.
  assert (forall x, is_preparation x = false -> x ∈ pre' ++ tr -> x ∈ tr)
    as Htail.
  { intros x Hx [Hin|Hin]%elem_of_app; [|done].
    apply (preparation_elem _ _ Hpre) in Hin. congruence. }
  apply Htail in Hcp, Hg, Hd; try done.
  destruct Htr as [->|(st & ri & Hrc & -> & Hst)];
    [by apply elem_of_nil in Hd|].
  destruct Hrc; in_cases Hd; in_cases Hcp; in_cases Hg;
    cbn [fst] in *; try congruence.
  split; [by eexists|]. intros ids d' Hd'%Htail; [|done]. by in_cases Hd'.
Qed.

End Orchestrator.

Section Cleanup.
Variable env : environment.
Variable client : ImmichClient.
Variable config : Config.

Lemma append_nonempty (a b : string) : b <> "" -> a +:+ b <> "".
Proof. intros Hb. destruct a; [done|discriminate]. Qed.

Lemma path_join_nonempty (a b : string) : b <> "" -> path_join a b <> "".
Proof.
  intros Hb. unfold path_join.
  destruct (String.prefix "/" b); [done|].
  destruct (_ || _); by repeat apply append_nonempty.
Qed.

Lemma scratch_input_nonempty asset : scratch_input config asset <> "".
Proof. apply path_join_nonempty, append_nonempty. discriminate. Qed.

Lemma scratch_output_nonempty asset : scratch_output config asset <> "".
Proof. apply path_join_nonempty, append_nonempty, append_nonempty.
       unfold _get_target_format. by destruct (String.eqb _ _). Qed.

Lemma cleanup_removes (p q : string) (w : world) :
  (forall t x, env_remove env t x = true) -> p <> "" -> q <> "" ->
  let w' := snd ((cleanup_path env p ;;; cleanup_path env q) w) in
  w_fs w' !! p = None /\ w_fs w' !! q = None.
Proof.
  intros Hrm Hp Hq. destruct w as [fs clk http procs calls].
  unfold bind. rewrite cleanup_path_eq.
  apply String.eqb_neq in Hp, Hq. rewrite Hp. cbn [negb andb].
  unfold exists_.
  destruct (decide (is_Some (fs !! p))) as [Hsp|Hnp].
  - rewrite (bool_decide_eq_true_2 _ Hsp), Hrm, cleanup_path_eq, Hq.
    cbn [negb andb]. unfold exists_.
    destruct (decide (is_Some (delete p fs !! q))) as [Hsq|Hnq].
    + rewrite (bool_decide_eq_true_2 _ Hsq), Hrm. cbn [snd w_fs].
      split; [|apply lookup_delete_eq].
      destruct (decide (p = q)) as [->|Hne]; [apply lookup_delete_eq|].
      rewrite lookup_delete_ne by done. apply lookup_delete_eq.
    + rewrite (bool_decide_eq_false_2 _ Hnq). cbn [snd w_fs].
      split; [apply lookup_delete_eq|].
      by apply eq_None_not_Some.
  - rewrite (bool_decide_eq_false_2 _ Hnp), cleanup_path_eq, Hq.
    cbn [negb andb]. unfold exists_.
    apply eq_None_not_Some in Hnp.
    destruct (decide (is_Some (fs !! q))) as [Hsq|Hnq].
    + rewrite (bool_decide_eq_true_2 _ Hsq), Hrm. cbn [snd w_fs].
      split; [|apply lookup_delete_eq].
      destruct (decide (q = p)) as [->|Hne]; [apply lookup_delete_eq|].
      by rewrite lookup_delete_ne.
    + rewrite (bool_decide_eq_false_2 _ Hnq). cbn [snd w_fs].
      split; [done|]. by apply eq_None_not_Some.
Qed.

(** C6 (as the code has it).  Provided every [os.remove] that the cleanup
    attempts succeeds (and, for an asset that the pre-filter skips before
    any file is touched, provided no scratch file of it was there
    already), neither scratch file of the asset exists when [process_asset]
    has returned or raised. *)
Theorem scratch_files_removed asset w :
  (forall t p, env_remove env t p = true) ->
  (prefiltered asset = true ->
   w_fs w !! scratch_input config asset = None /\
   w_fs w !! scratch_output config asset = None) ->
  let w' := snd (process_asset env client config asset w) in
  w_fs w' !! scratch_input config asset = None /\
  w_fs w' !! scratch_output config asset = None.
Proof.
  intros Hrm Hpre. unfold process_asset. fold (prefiltered asset).
  destruct (prefiltered asset); [by apply Hpre|].
  cbv zeta. fold (scratch_input config asset) (scratch_output config asset).
  unfold try_finally.
  destruct (process_asset_try _ _ _ _ _ _ _ _ _ w) as [r w1].
  pose proof (cleanup_removes (scratch_input config asset)
                (scratch_output config asset) w1 Hrm
                (scratch_input_nonempty asset)
                (scratch_output_nonempty asset)) as Hcl.
  cbv zeta in Hcl.
  by destruct ((cleanup_path env _ ;;; cleanup_path env _) w1) as [[[]|e] w2].
Qed.

End Cleanup.

Section Retry.
Variable env : environment.
Variable client : ImmichClient.
Variable config : Config.

(** Outside the pre-filter, the result and the recorded calls of
    [process_asset] are those of its [try] block. *)
Lemma process_asset_of_try asset w :
  prefiltered asset = false ->
  let body :=
    process_asset_try env client config asset
      (String.eqb (type asset) "VIDEO") (_get_target_format asset)
      (scratch_input config asset) (scratch_output config asset)
      (mkResult "unknown" 0 0 0%Q) w in
  let r := process_asset env client config asset w in
  fst r = fst body /\ w_calls (snd r) = w_calls (snd body).
Proof.
  intros Hpre. unfold process_asset. fold (prefiltered asset).
  rewrite Hpre. cbv zeta.
  fold (scratch_input config asset) (scratch_output config asset).
  unfold try_finally.
  destruct (process_asset_try _ _ _ _ _ _ _ _ _ w) as [r w1].
  destruct (cleanup_returns env (scratch_input config asset)
              (scratch_output config asset) w1) as [w2 Hcl].
  pose proof (cleanup_keeps_calls env (scratch_input config asset)
                (scratch_output config asset) w1) as Hk.
  rewrite Hcl in Hk |- *. done.
Qed.

(** C2.  After a download and a first transcode that succeeded, validated
    and produced more bytes than the input: with allow-larger the replace
    protocol follows at once and no second attempt is recorded; without it
    and with retry disabled the asset is skipped and the first attempt is
    the only one; without it and with retry enabled exactly one more
    attempt is recorded, with the retry parameter, after which the replace
    protocol follows when the retry succeeded, validated and is no larger
    than the input or accept-retry-output is set, and the asset is skipped
    otherwise (a retry that raises ends the pipeline with its exception
    and nothing more is recorded). *)
Theorem quality_retry_decision asset w in_bytes err w1 result w2 :
  let is_video := String.eqb (type asset) "VIDEO" in
  let inp := scratch_input config asset in
  let outp := scratch_output config asset in
  prefiltered asset = false -> dry_run config = false ->
  download_original env client (id asset) inp w = (Ret (in_bytes, err), w1) ->
  truthy err = false ->
  transcode_and_validate env config is_video false inp outp w1
  = (Ret (result, true), w2) ->
  success result = true -> in_bytes < output_bytes result ->
  let r := process_asset env client config asset w in
  let calls := issued w (snd r) in
  let first := [CallDownload (id asset) inp (in_bytes, err);
                attempt_call config is_video false inp outp] in
  let retry := transcode_and_validate env config is_video true inp outp w2 in
  let accepted (tail : list call) :=
    exists st ri, replace_calls (id asset) st tail /\
                  fst r = Ret ri /\ status ri = st in
  let skipped := exists ri, fst r = Ret ri /\ status ri = "skipped" in
  (allow_larger config = true ->
     exists tail, calls = first ++ tail /\ accepted tail) /\
  (allow_larger config = false -> enable_retry config = false ->
     calls = first /\ skipped) /\
  (allow_larger config = false -> enable_retry config = true ->
     exists tail,
       calls = first ++ attempt_call config is_video true inp outp :: tail /\
       match fst retry with
       | Raise e => tail = [] /\ fst r = Raise e
       | Ret (result2, is_valid2) =>
           if success result2 && is_valid2 then
             if (output_bytes result2 <=? in_bytes)
                || accept_retry_output config
             then accepted tail
             else tail = [] /\ skipped
           else tail = [] /\ skipped
       end).
Proof.
  intros is_video inp outp Hpre Hdry Hdl Herr Htv Hsucc Hlarger
    r calls first retry accepted skipped.
  destruct (process_asset_of_try asset w Hpre) as [Hr Hcalls].
  fold r in Hr, Hcalls. fold is_video inp outp in Hr, Hcalls.
  subst accepted skipped calls. cbv beta. unfold issued.
  rewrite Hr, Hcalls. clear Hr Hcalls r.
  (* the calls recorded so far *)
  destruct (download_original_calls env client (id asset) inp w)
    as (dl & w1' & Hdl' & Hc1). rewrite Hdl in Hdl'.
  injection Hdl' as <- <-.
  destruct (transcode_and_validate_calls env config is_video false inp outp
              w1) as (rv & w2' & Htv' & Hc2). rewrite Htv in Htv'.
  injection Htv' as <- <-.
  rewrite Hc1, <- app_assoc in Hc2. cbn [app] in Hc2. fold first in Hc2.
  (* the [try] block up to the retry decision *)
  destruct (process_asset_try _ _ _ _ _ _ _ _ _ w) as [res wf] eqn:Hbody.
  cbn [fst snd]. revert Hbody.
  unfold process_asset_try. rewrite Hdry. cbn [andb].
  unfold bind at 1. rewrite Hdl. cbn [fst snd]. rewrite Herr.
  unfold bind at 1. rewrite Htv. cbn [fst snd negb]. rewrite Hsucc.
  cbn [negb]. unfold handle_larger_output.
  apply Z.ltb_lt in Hlarger. rewrite Hlarger. intros Hbody.
  split_and!.
  - intros Ha. revert Hbody. rewrite Ha.
    unfold bind at 1. unfold ret at 1. cbv beta iota.
    match goal with
    | |- context [replace env client ?a ?b ?c ?d] =>
        destruct (replace_spec env client a b c d w2)
          as (st & tr & w3 & Hrep & Hrc & Hw)
    end.
    rewrite Hrep. intros [= <- <-]. exists tr.
    rewrite Hw, Hc2, <- app_assoc, drop_app_length. split; [done|].
    eexists st, _; split_and!; [exact Hrc|reflexivity..].
  - intros Ha He. revert Hbody. rewrite Ha, He. unfold bind, ret.
    intros [= <- <-].
    rewrite Hc2, drop_app_length. split; [done|].
    eexists; split; reflexivity.
  - intros Ha He. revert Hbody. rewrite Ha, He. subst retry.
    destruct (transcode_and_validate_calls env config is_video true inp outp
                w2) as (rv & w3 & Htv3 & Hc3).
    rewrite Hc2, <- app_assoc in Hc3.
    unfold bind at 1. unfold bind at 1. rewrite Htv3. cbn [fst snd].
    destruct rv as [[result2 is_valid2]|e]; cbn [fst snd].
    + destruct (success result2), is_valid2; cbn [negb orb andb].
      * assert ((in_bytes <? output_bytes result2)
                = negb (output_bytes result2 <=? in_bytes)) as ->.
        { destruct (Z.leb_spec (output_bytes result2) in_bytes);
            [apply Z.ltb_ge|apply Z.ltb_lt]; lia. }
        destruct ((output_bytes result2 <=? in_bytes)
                  || accept_retry_output config) eqn:Hacc.
        -- replace (negb (output_bytes result2 <=? in_bytes)
                    && negb (accept_retry_output config)) with false
             by (by destruct (_ <=? _), (accept_retry_output config)).
           unfold ret at 1. cbv beta iota.
           match goal with
           | |- context [replace env client ?a ?b ?c ?d] =>
               destruct (replace_spec env client a b c d w3)
                 as (st & tr & w4 & Hrep & Hrc & Hw)
           end.
           rewrite Hrep. intros [= <- <-]. exists tr.
           rewrite Hw, Hc3, <- !app_assoc, drop_app_length.
           split; [done|].
           eexists st, _; split_and!; [exact Hrc|reflexivity..].
        -- replace (negb (output_bytes result2 <=? in_bytes)
                    && negb (accept_retry_output config)) with true
             by (by destruct (_ <=? _), (accept_retry_output config)).
           unfold bind, ret. intros [= <- <-]. exists [].
           rewrite Hc3, drop_app_length. split; [done|].
           split; [done|]. eexists; split; reflexivity.
      * unfold bind, ret. intros [= <- <-]. exists [].
        rewrite Hc3, drop_app_length. split; [done|].
        split; [done|]. eexists; split; reflexivity.
      * unfold bind, ret. intros [= <- <-]. exists [].
        rewrite Hc3, drop_app_length. split; [done|].
        split; [done|]. eexists; split; reflexivity.
      * unfold bind, ret. intros [= <- <-]. exists [].
        rewrite Hc3, drop_app_length. split; [done|].
        split; [done|]. eexists; split; reflexivity.
    + unfold bind. intros [= <- <-]. exists [].
      rewrite Hc3, drop_app_length. done.
Qed.

End Retry.

Section Auth.
Variable env : environment.
Variable client : ImmichClient.
Variable config : Config.

Lemma http_request_eq req fs clk http procs calls :
  http_request env req (World fs clk http procs calls) =
  (Ret (env_http env clk req), World fs (S clk) (http ++ [req]) procs calls).
Proof. reflexivity. Qed.

Lemma after_requests_S n req fs clk http procs calls :
  after_requests n req (World fs (S clk) (http ++ [req]) procs calls)
  = after_requests (S n) req (World fs clk http procs calls).
Proof.
  unfold after_requests. cbn [w_fs w_clock w_http w_procs w_calls replicate].
  f_equal; [lia|]. by rewrite <- app_assoc.
Qed.

Lemma stop_after_one {A} req todo fs clk http procs calls (res : result A) :
  (auth_failure (env_http env clk req) = true ->
   exists msg, res = Raise (RuntimeError msg)) ->
  exists n res',
    (res, World fs (S clk) (http ++ [req]) procs calls)
    = (res', after_requests n req (World fs clk http procs calls)) /\
    (n <= S todo)%nat /\ (S todo <> 0%nat -> n <> 0%nat) /\
    forall i, (i < n)%nat ->
      auth_failure (env_http env (clk + i)%nat req) = true ->
      S i = n /\ exists msg, res' = Raise (RuntimeError msg).
Proof.
  intros Hres. exists 1%nat, res. split.
  - unfold after_requests.
    cbn [w_fs w_clock w_http w_procs w_calls replicate].
    by rewrite Nat.add_1_r.
  - split; [lia|]. split; [lia|].
    intros i Hi Hf. replace i with 0%nat in * by lia.
    rewrite Nat.add_0_r in Hf. auto.
Qed.

(** The requests of [_request_with_retry]: all alike, and an
    authentication failure is always the last of them. *)
Lemma request_attempts_auth req attempt todo last w :
  exists n res,
    request_attempts env client req attempt todo last w
    = (res, after_requests n req w) /\
    (n <= todo)%nat /\ (todo <> 0%nat -> n <> 0%nat) /\
    forall i, (i < n)%nat ->
      auth_failure (env_http env (w_clock w + i)%nat req) = true ->
      S i = n /\ exists msg, res = Raise (RuntimeError msg).
Proof.
  revert attempt last w.
  induction todo as [|todo IH]; intros attempt last w;
    destruct w as [fs clk http procs calls].
  - exists 0%nat. cbn [request_attempts]. unfold after_requests.
    cbn [w_fs w_clock w_http w_procs w_calls replicate].
    rewrite Nat.add_0_r, app_nil_r.
    destruct last; eexists; (split; [reflexivity|]); (split; [lia|]);
      (split; [done|]); lia.
  - cbn [request_attempts w_clock]. unfold bind. rewrite http_request_eq.
    assert (forall attempt' last',
              auth_failure (env_http env clk req) = false ->
              exists n res,
                request_attempts env client req attempt' todo last'
                  (World fs (S clk) (http ++ [req]) procs calls)
                = (res, after_requests n req (World fs clk http procs calls))
                /\ (n <= S todo)%nat /\ (S todo <> 0%nat -> n <> 0%nat) /\
                forall i, (i < n)%nat ->
                  auth_failure (env_http env (clk + i)%nat req) = true ->
                  S i = n /\ exists msg, res = Raise (RuntimeError msg))
      as Hmore.
    { intros attempt' last' Hok.
      destruct (IH attempt' last'
                  (World fs (S clk) (http ++ [req]) procs calls))
        as (n & res & Heq & Hn & _ & Hauth).
      exists (S n), res. rewrite Heq, after_requests_S.
      split; [done|]. split; [lia|]. split; [lia|]. intros [|i] Hi Hf.
      - rewrite Nat.add_0_r in Hf. congruence.
      - cbn [w_clock] in Hauth.
        replace (clk + S i)%nat with (S clk + i)%nat in Hf by lia.
        destruct (Hauth i ltac:(lia) Hf) as [-> Hres]. done. }
    destruct (env_http env clk req) as [r|e] eqn:Hresp; cbn [auth_failure] in *.
    + destruct (status_code r =? 401) eqn:H401;
        [apply stop_after_one; eauto|].
      destruct (status_code r =? 403) eqn:H403;
        [apply stop_after_one; eauto|].
      assert (auth_failure (env_http env clk req) = false) as Hok
        by (by rewrite Hresp; cbn; rewrite H401, H403).
      destruct (status_code r =? 404);
        [apply stop_after_one; congruence|].
      destruct (retryable (status_code r) && (attempt <? retry_max client));
        [by apply Hmore|].
      apply stop_after_one; congruence.
    + assert (auth_failure (env_http env clk req) = false) as Hok
        by (by rewrite Hresp).
      destruct (attempt <? retry_max client); [by apply Hmore|].
      apply stop_after_one; congruence.
Qed.

Lemma read_file_eq path fs clk http procs calls :
  read_file path (World fs clk http procs calls) =
  (match fs !! path with
   | Some f => if f_readable f then Ret (f_data f)
               else Raise (OSError ("Permission denied: " +:+ path))
   | None => Raise (OSError ("No such file or directory: " +:+ path))
   end, World fs clk http procs calls).
Proof. mrun. destruct (fs !! path) as [[data [|]]|]; done. Qed.

(** The requests of [upload_asset]: an authentication failure is always
    the last of them, and is returned as the error of the upload. *)
Lemma upload_attempts_auth path form attempt todo last w data :
  readable_data (w_fs w) path = Some data ->
  exists n r,
    upload_attempts env client path form attempt todo last w
    = (Ret r, after_requests n (form data) w) /\
    (n <= todo)%nat /\ (todo <> 0%nat -> n <> 0%nat) /\
    forall i, (i < n)%nat ->
      auth_failure (env_http env (w_clock w + i)%nat (form data)) = true ->
      S i = n /\ exists msg, r = (None, Some msg).
Proof.
  revert attempt last w.
  induction todo as [|todo IH]; intros attempt last w Hdata;
    destruct w as [fs clk http procs calls]; cbn [w_fs w_clock] in *.
  - exists 0%nat. cbn [upload_attempts]. unfold after_requests.
    cbn [w_fs w_clock w_http w_procs w_calls replicate].
    rewrite Nat.add_0_r, app_nil_r.
    eexists. split; [reflexivity|]. split; [lia|]. split; [done|]. lia.
  - cbn [upload_attempts]. unfold bind at 1, upload_attempt, try_except.
    unfold bind at 1. rewrite read_file_eq.
    unfold readable_data in Hdata.
    destruct (fs !! path) as [[data' rd]|] eqn:Hf; [|done].
    cbn [f_readable f_data] in *. destruct rd; [|done].
    injection Hdata as ->.
    unfold bind at 1. rewrite http_request_eq.
    assert (forall attempt' last',
              auth_failure (env_http env clk (form data)) = false ->
              exists n r,
                upload_attempts env client path form attempt' todo last'
                  (World fs (S clk) (http ++ [form data]) procs calls)
                = (Ret r, after_requests n (form data)
                            (World fs clk http procs calls))
                /\ (n <= S todo)%nat /\ (S todo <> 0%nat -> n <> 0%nat) /\
                forall i, (i < n)%nat ->
                  auth_failure (env_http env (clk + i)%nat (form data)) = true
                  -> S i = n /\ exists msg, r = (None, Some msg))
      as Hmore.
    { intros attempt' last' Hok.
      destruct (IH attempt' last'
                  (World fs (S clk) (http ++ [form data]) procs calls))
        as (n & r & Heq & Hn & _ & Hauth).
      { cbn [w_fs]. unfold readable_data. by rewrite Hf. }
      exists (S n), r. rewrite Heq, after_requests_S.
      split; [done|]. split; [lia|]. split; [lia|]. intros [|i] Hi Hx.
      - rewrite Nat.add_0_r in Hx. congruence.
      - cbn [w_clock] in Hauth.
        replace (clk + S i)%nat with (S clk + i)%nat in Hx by lia.
        destruct (Hauth i ltac:(lia) Hx) as [-> Hres]. done. }
    assert (forall r : option string * option string,
              (auth_failure (env_http env clk (form data)) = true ->
               exists msg, r = (None, Some msg)) ->
              exists n r',
                (Ret r, World fs (S clk) (http ++ [form data]) procs calls)
                = (Ret r', after_requests n (form data)
                             (World fs clk http procs calls))
                /\ (n <= S todo)%nat /\ (S todo <> 0%nat -> n <> 0%nat) /\
                forall i, (i < n)%nat ->
                  auth_failure (env_http env (clk + i)%nat (form data)) = true
                  -> S i = n /\ exists msg, r' = (None, Some msg))
      as Hstop.
    { intros r Hr. exists 1%nat, r. split.
      - unfold after_requests.
        cbn [w_fs w_clock w_http w_procs w_calls replicate].
        by rewrite Nat.add_1_r.
      - split; [lia|]. split; [lia|].
        intros i Hi Hx. replace i with 0%nat in * by lia.
        rewrite Nat.add_0_r in Hx. auto. }
    destruct (env_http env clk (form data)) as [r|e] eqn:Hresp;
      cbn [auth_failure] in *.
    + destruct (status_code r =? 401) eqn:H401;
        [apply Hstop; eauto|].
      destruct (status_code r =? 403) eqn:H403;
        [apply Hstop; eauto|].
      cbn [orb] in *.
      destruct (retryable (status_code r) && (attempt <? retry_max client));
        [by apply Hmore|].
      destruct ((status_code r =? 200) || (status_code r =? 201)).
      * destruct (resp_json_id r) as [[|] m|i];
          [by apply Hmore| |]; apply Hstop; congruence.
      * apply Hstop; congruence.
    + by apply Hmore.
Qed.

Lemma attempts_nonzero : 0 <= retry_max client ->
  Z.to_nat (retry_max client + 1) <> 0%nat.
Proof. lia. Qed.

(** [_request_with_retry] when the first response is an authentication
    failure: one request, then [RuntimeError]. *)
Lemma request_auth_first req w :
  0 <= retry_max client ->
  auth_failure (env_http env (w_clock w) req) = true ->
  exists msg,
    _request_with_retry env client req w
    = (Raise (RuntimeError msg), after_requests 1 req w).
Proof.
  intros Hmax Hauth. unfold _request_with_retry.
  destruct (request_attempts_auth req 0 (Z.to_nat (retry_max client + 1))
              None w) as (n & res & Heq & Hn & Hn0 & Hlast).
  specialize (Hn0 (attempts_nonzero Hmax)).
  destruct (Hlast 0%nat ltac:(lia)) as [<- [msg ->]].
  { by rewrite Nat.add_0_r. }
  eauto.
Qed.

Lemma truthy_prefixed (p s : string) : p <> "" -> truthy (Some (p +:+ s)) = true.
Proof. intros Hp. by destruct p. Qed.

Lemma download_auth_failed asset w :
  prefiltered asset = false ->
  dry_run config && negb (String.eqb (type asset) "VIDEO") = false ->
  0 <= retry_max client ->
  auth_failure (env_http env (w_clock w) (ReqDownload (id asset))) = true ->
  exists ri w',
    process_asset env client config asset w = (Ret ri, w') /\
    status ri = "failed_download" /\
    w_http w' = w_http w ++ [ReqDownload (id asset)].
Proof.
  intros Hpre Hdry Hmax Hauth.
  destruct (request_auth_first _ w Hmax Hauth) as [msg Hreq].
  unfold process_asset. fold (prefiltered asset). rewrite Hpre. cbv zeta.
  unfold try_finally, process_asset_try. rewrite Hdry.
  unfold bind at 1, download_original. unfold bind at 1, try_except.
  unfold bind at 1. rewrite Hreq.
  destruct w as [fs clk http procs calls]. unfold after_requests.
  cbn [w_fs w_clock w_http w_procs w_calls replicate]. mcore.
  rewrite truthy_prefixed by done. mcore.
  repeat first
    [ rewrite cleanup_path_eq
    | progress mcore
    | match goal with
      | |- context [if ?c then _ else _] => destruct c
      end ];
    eexists _, _; (split; [reflexivity|]); done.
Qed.

Lemma upload_auth_failed asset output_path result_info w data :
  readable_data (w_fs w) output_path = Some data ->
  0 <= retry_max client ->
  auth_failure (env_http env (w_clock w) (upload_request asset data)) = true ->
  exists w',
    replace env client asset (_get_target_format asset) output_path
      result_info w
    = (Ret (set_status "failed_upload" result_info), w') /\
    w_http w' = w_http w ++ [upload_request asset data].
Proof.
  intros Hdata Hmax Hauth. unfold replace, upload_asset. cbv zeta.
  match goal with
  | |- context [upload_attempts env client ?p ?f ?a ?t ?l] =>
      destruct (upload_attempts_auth p f a t l w data Hdata)
        as (n & r & Heq & Hn & Hn0 & Hlast)
  end.
  specialize (Hn0 (attempts_nonzero Hmax)).
  destruct (Hlast 0%nat ltac:(lia)) as [<- [msg ->]].
  { by rewrite Nat.add_0_r. }
  unfold bind at 1. unfold bind at 1. rewrite Heq.
  destruct w as [fs clk http procs calls]. unfold after_requests.
  cbn [w_fs w_clock w_http w_procs w_calls replicate]. mcore.
  eexists. split; reflexivity.
Qed.

(** Every asset of a batch gets its result, whatever happens to the
    others. *)
Lemma run_pool_total assets w :
  exists results w',
    run_pool env client config assets w = (Ret results, w') /\
    length results = length assets.
Proof.
  revert w. induction assets as [|asset assets IH]; intros w.
  - by exists [], w.
  - cbn [run_pool]. unfold bind at 1, try_except.
    destruct (process_asset env client config asset w) as [[r|e] w1].
    + destruct (IH w1) as (results & w2 & Heq & Hlen).
      unfold bind. rewrite Heq. eexists _, _. split; [reflexivity|].
      cbn. by rewrite Hlen.
    + unfold ret at 1. cbv beta iota.
      destruct (IH w1) as (results & w2 & Heq & Hlen).
      unfold bind. rewrite Heq. eexists _, _. split; [reflexivity|].
      cbn. by rewrite Hlen.
Qed.

Lemma main_auth_abort fuel w :
  0 <= retry_max client ->
  auth_failure (env_http env (w_clock w) probe_request) = true ->
  exists w',
    main env client config fuel w = (Ret (Some (1, [])), w') /\
    w_http w' = w_http w ++ [probe_request].
Proof.
  intros Hmax Hauth.
  destruct (request_auth_first _ w Hmax Hauth) as [msg Hreq].
  unfold main, test_connection, search_assets. cbv zeta.
  unfold bind at 1, try_except. unfold bind at 1. unfold bind at 1.
  cbn [truthy]. fold probe_request. rewrite Hreq.
  destruct w as [fs clk http procs calls]. unfold after_requests.
  cbn [w_fs w_clock w_http w_procs w_calls replicate]. mcore.
  eexists. split; reflexivity.
Qed.

(** C9 (as the code has it).  An HTTP 401 or 403 is never retried: it is
    the last request of [_request_with_retry], which raises, and the last
    request of [upload_asset], which returns it as its error.  With at
    least one attempt configured: answered to the download it makes the
    asset failed_download after that single request, answered to the
    upload it makes the replace protocol end as failed_upload after that
    single request, and answered to the connection test it makes [main]
    return 1 without processing anything.  A batch gives every asset its
    result, whatever happened to the others. *)
Theorem auth_failure_fails_the_asset_only :
  (forall req w,
     exists n res,
       _request_with_retry env client req w = (res, after_requests n req w) /\
       forall i, (i < n)%nat ->
         auth_failure (env_http env (w_clock w + i)%nat req) = true ->
         S i = n /\ exists msg, res = Raise (RuntimeError msg)) /\
  (forall fp da di fc fm fn w data,
     readable_data (w_fs w) fp = Some data ->
     let req := ReqUpload data da di fc fm (if truthy fn then fn else None) in
     exists n r w',
       upload_asset env client fp da di fc fm fn w = (Ret r, w') /\
       w_http w' = w_http w ++ replicate n req /\
       forall i, (i < n)%nat ->
         auth_failure (env_http env (w_clock w + i)%nat req) = true ->
         S i = n /\ exists msg, r = (None, Some msg)) /\
  (0 <= retry_max client ->
     (forall asset w,
        prefiltered asset = false ->
        dry_run config && negb (String.eqb (type asset) "VIDEO") = false ->
        auth_failure (env_http env (w_clock w) (ReqDownload (id asset))) = true
        ->
        exists ri w',
          process_asset env client config asset w = (Ret ri, w') /\
          status ri = "failed_download" /\
          w_http w' = w_http w ++ [ReqDownload (id asset)]) /\
     (forall asset output_path result_info w data,
        readable_data (w_fs w) output_path = Some data ->
        auth_failure (env_http env (w_clock w) (upload_request asset data))
        = true ->
        exists w',
          replace env client asset (_get_target_format asset) output_path
            result_info w
          = (Ret (set_status "failed_upload" result_info), w') /\
          w_http w' = w_http w ++ [upload_request asset data]) /\
     (forall fuel w,
        auth_failure (env_http env (w_clock w) probe_request) = true ->
        exists w',
          main env client config fuel w = (Ret (Some (1, [])), w') /\
          w_http w' = w_http w ++ [probe_request])) /\
  (forall assets w,
     exists results w',
       run_pool env client config assets w = (Ret results, w') /\
       length results = length assets).
Proof.
  split_and!.
  - intros req w. unfold _request_with_retry.
    destruct (request_attempts_auth req 0 (Z.to_nat (retry_max client + 1))
                None w) as (n & res & Heq & _ & _ & Hlast).
    eauto.
  - intros fp da di fc fm fn w data Hdata req. unfold upload_asset.
    destruct (upload_attempts_auth fp
                (fun data => ReqUpload data da di fc fm
                               (if truthy fn then fn else None))
                0 (Z.to_nat (retry_max client + 1)) None w data Hdata)
      as (n & r & Heq & _ & _ & Hlast).
    unfold bind at 1. rewrite Heq.
    destruct w as [fs clk http procs calls]. unfold after_requests.
    cbn [w_fs w_clock w_http w_procs w_calls]. mcore.
    eexists n, r, _. split; [reflexivity|]. split; [done|]. exact Hlast.
  - intros Hmax. split_and!.
    + intros asset w Hpre Hdry Hauth.
      by apply download_auth_failed.
    + intros asset output_path result_info w data Hdata Hauth.
      by apply upload_auth_failed.
    + intros fuel w Hauth. by apply main_auth_abort.
  - apply run_pool_total.
Qed.

End Auth.

(** * Further properties *)

(** ** The names of the formats *)

(** Membership in an explicit list, by position. *)
Ltac in_list :=
  solve [repeat first [apply list_elem_of_here | apply list_elem_of_further]].

Section FormatNames.




(** X2.  [detect_format] looks at the first 32 bytes only: two readable
    files that agree on them are given the same answer. *)
Theorem detect_format_first_32_bytes path path' w w' data data' :
  w_fs w !! path = Some (File data true) ->
  w_fs w' !! path' = Some (File data' true) ->
  take 32 data = take 32 data' ->
  fst (detect_format path w) = fst (detect_format path' w').
Proof.
  intros Hf Hf' Hpre. rewrite !detect_format_spec, Hf, Hf'. cbn [fst].
  by rewrite <- (detect_header_take data), Hpre, detect_header_take.
Qed.

End FormatNames.

(** ** The retry loop of the client *)

Section Retries.
Variable env : environment.
Variable self : ImmichClient.

Lemma retryable_not_special (s : Z) :
  retryable s = true ->
  (s =? 401) = false /\ (s =? 403) = false /\ (s =? 404) = false.
Proof. unfold retryable. lia. Qed.

Lemma request_attempts_retry req k :
  forall attempt todo last w,
    (S k <= todo)%nat ->
    attempt + Z.of_nat k <= retry_max self ->
    (forall i, (i < k)%nat ->
       transient (env_http env (w_clock w + i)%nat req) = true) ->
    (attempt + Z.of_nat k = retry_max self \/
     transient (env_http env (w_clock w + k)%nat req) = false) ->
    request_attempts env self req attempt todo last w =
    (answer (env_http env (w_clock w + k)%nat req), after_requests (S k) req w).
Proof.
  induction k as [|k IH]; intros attempt todo last w Htodo Hmax Htr Hend;
    destruct w as [fs clk http procs calls]; cbn [w_clock] in *;
    (destruct todo as [|todo]; [lia|]);
    cbn [request_attempts]; unfold bind; rewrite http_request_eq.
  - rewrite Nat.add_0_r in *.
    replace (after_requests 1 req (World fs clk http procs calls))
      with (World fs (S clk) (http ++ [req]) procs calls)
      by (unfold after_requests; cbn; f_equal; lia).
    destruct (env_http env clk req) as [r|e]; cbn [answer transient] in *.
    + destruct (status_code r =? 401); [done|].
      destruct (status_code r =? 403); [done|].
      destruct (status_code r =? 404); [done|].
      destruct Hend as [Hend| ->]; [|done].
      replace (attempt <? retry_max self) with false by lia.
      by rewrite andb_false_r.
    + destruct Hend as [Hend|]; [|done].
      by replace (attempt <? retry_max self) with false by lia.
  - rewrite <- after_requests_S.
    assert (transient (env_http env clk req) = true) as H0.
    { rewrite <- (Nat.add_0_r clk). apply Htr. lia. }
    replace (clk + S k)%nat with (S clk + k)%nat in * by lia.
    replace (attempt <? retry_max self) with true by lia.
    assert (forall last',
              request_attempts env self req (attempt + 1) todo last'
                (World fs (S clk) (http ++ [req]) procs calls)
              = (answer (env_http env (S clk + k)%nat req),
                 after_requests (S k) req
                   (World fs (S clk) (http ++ [req]) procs calls))) as Hrec.
    { intros last'. apply IH; cbn [w_clock]; [lia|lia| |].
      - intros i Hi. replace (S clk + i)%nat with (clk + S i)%nat by lia.
        apply Htr. lia.
      - destruct Hend; [left; lia|by right]. }
    destruct (env_http env clk req) as [r|e]; cbn [transient] in H0.
    + destruct (retryable_not_special _ H0) as (-> & -> & ->).
      rewrite H0. cbn [andb]. apply Hrec.
    + apply Hrec.
Qed.

(** X3.  [_request_with_retry] repeats the request after HTTP 429, HTTP 5xx
    and network errors.  When the first [k] outcomes are of that kind, [k]
    is at most [retry_max], and the next outcome is of another kind or no
    retry is left, exactly [k + 1] requests are sent, nothing else changes,
    and the result is what that last outcome gives: its response, or
    [RuntimeError] for HTTP 401, HTTP 403 and a network error. *)
Theorem request_with_retry_recovers req w k :
  Z.of_nat k <= retry_max self ->
  (forall i, (i < k)%nat ->
     transient (env_http env (w_clock w + i)%nat req) = true) ->
  (Z.of_nat k = retry_max self \/
   transient (env_http env (w_clock w + k)%nat req) = false) ->
  _request_with_retry env self req w =
  (answer (env_http env (w_clock w + k)%nat req), after_requests (S k) req w).
Proof.
  intros Hk Htr Hend. unfold _request_with_retry.
  apply request_attempts_retry; try done; lia.
Qed.

Lemma after_requests_1 req fs clk http procs calls :
  World fs (S clk) (http ++ [req]) procs calls
  = after_requests 1 req (World fs clk http procs calls).
Proof. unfold after_requests; cbn; f_equal; lia. Qed.

Lemma request_attempts_last req todo :
  forall attempt last w,
    retry_max self + 1 <= attempt + Z.of_nat todo -> todo <> 0%nat ->
    exists m,
      request_attempts env self req attempt todo last w
      = (answer (env_http env (w_clock w + m)%nat req),
         after_requests (S m) req w) /\
      (S m <= todo)%nat /\
      (forall i, (i < m)%nat ->
         transient (env_http env (w_clock w + i)%nat req) = true) /\
      (transient (env_http env (w_clock w + m)%nat req) = true ->
       retry_max self <= attempt + Z.of_nat m).
Proof.
  induction todo as [|todo IH]; intros attempt last w Hinv Hne; [done|].
  destruct w as [fs clk http procs calls]; cbn [w_clock] in *.
  cbn [request_attempts]. unfold bind. rewrite http_request_eq.
  assert (forall last',
            attempt < retry_max self ->
            transient (env_http env clk req) = true ->
            exists m,
              request_attempts env self req (attempt + 1) todo last'
                (World fs (S clk) (http ++ [req]) procs calls)
              = (answer (env_http env (clk + m)%nat req),
                 after_requests (S m) req (World fs clk http procs calls)) /\
              (S m <= S todo)%nat /\
              (forall i, (i < m)%nat ->
                 transient (env_http env (clk + i)%nat req) = true) /\
              (transient (env_http env (clk + m)%nat req) = true ->
               retry_max self <= attempt + Z.of_nat m)) as Hmore.
  { intros last' Hlt H0.
    destruct (IH (attempt + 1) last'
                (World fs (S clk) (http ++ [req]) procs calls))
      as (m & Heq & Hm & Htr & Hstop); [lia|lia|].
    cbn [w_clock] in *. exists (S m).
    replace (clk + S m)%nat with (S clk + m)%nat by lia.
    rewrite Heq, after_requests_S. split; [done|]. split; [lia|]. split.
    - intros [|i] Hi; [by rewrite Nat.add_0_r|].
      replace (clk + S i)%nat with (S clk + i)%nat by lia. apply Htr. lia.
    - intros Ht. specialize (Hstop Ht). lia. }
  assert (forall res,
            res = answer (env_http env clk req) ->
            (transient (env_http env clk req) = true ->
             retry_max self <= attempt) ->
            exists m,
              (res, World fs (S clk) (http ++ [req]) procs calls)
              = (answer (env_http env (clk + m)%nat req),
                 after_requests (S m) req (World fs clk http procs calls)) /\
              (S m <= S todo)%nat /\
              (forall i, (i < m)%nat ->
                 transient (env_http env (clk + i)%nat req) = true) /\
              (transient (env_http env (clk + m)%nat req) = true ->
               retry_max self <= attempt + Z.of_nat m)) as Hstop.
  { intros res -> Ht. exists 0%nat. rewrite Nat.add_0_r, after_requests_1.
    split; [done|]. split; [lia|]. split; [lia|]. intros H. specialize (Ht H).
    lia. }
  destruct (env_http env clk req) as [r|e] eqn:Ho; cbn [answer transient] in *.
  - destruct (status_code r =? 401) eqn:H401.
    { apply Hstop; [done|]. unfold retryable. lia. }
    destruct (status_code r =? 403) eqn:H403.
    { apply Hstop; [done|]. unfold retryable. lia. }
    destruct (status_code r =? 404) eqn:H404.
    { apply Hstop; [done|]. unfold retryable. lia. }
    destruct (retryable (status_code r)) eqn:Hr; cbn [andb].
    + destruct (Z.ltb_spec attempt (retry_max self)).
      * by apply Hmore.
      * apply Hstop; [done|]. lia.
    + by apply Hstop.
  - destruct (Z.ltb_spec attempt (retry_max self)).
    + by apply Hmore.
    + apply Hstop; [done|]. lia.
Qed.

(** X4.  With a negative [retry_max], [_request_with_retry] sends nothing
    and returns [None].  Otherwise it sends at least one and at most
    [retry_max + 1] requests, all alike, and changes nothing else; every
    outcome but the last was a transient failure, the result is what the
    last outcome gives, and a last outcome that is a transient failure means
    that the retries are used up. *)
Theorem request_with_retry_outcome req w :
  (retry_max self < 0 -> _request_with_retry env self req w = (Ret None, w)) /\
  (0 <= retry_max self ->
   exists m,
     _request_with_retry env self req w
     = (answer (env_http env (w_clock w + m)%nat req),
        after_requests (S m) req w) /\
     Z.of_nat m <= retry_max self /\
     (forall i, (i < m)%nat ->
        transient (env_http env (w_clock w + i)%nat req) = true) /\
     (transient (env_http env (w_clock w + m)%nat req) = true ->
      Z.of_nat m = retry_max self)).
Proof.
  unfold _request_with_retry. split.
  - intros Hneg. by replace (Z.to_nat (retry_max self + 1)) with 0%nat by lia.
  - intros Hmax.
    destruct (request_attempts_last req (Z.to_nat (retry_max self + 1)) 0 None
                w) as (m & Heq & Hm & Htr & Hstop); [lia|lia|].
    exists m. split; [done|]. split; [lia|]. split; [done|].
    intros Ht. specialize (Hstop Ht). lia.
Qed.

End Retries.

(** ** The client methods *)

Section ClientCalls.
Variable env : environment.
Variable self : ImmichClient.



Lemma download_original_footprint asset_id path w :
  exists size err n w',
    download_original env self asset_id path w = (Ret (size, err), w') /\
    w_calls w' = w_calls w ++ [CallDownload asset_id path (size, err)] /\
    w_http w' = w_http w ++ replicate n (ReqDownload asset_id) /\
    Z.of_nat n <= Z.max 0 (retry_max self + 1) /\
    w_procs w' = w_procs w /\
    (forall p, p <> path -> w_fs w' !! p = w_fs w !! p) /\
    ((err = None /\
      exists f, w_fs w' !! path = Some f /\ size = len (f_data f)) \/
     (size = 0 /\ truthy err = true)).
Proof.
  destruct (request_attempts_auth env self (ReqDownload asset_id) 0
              (Z.to_nat (retry_max self + 1)) None w)
    as (n & res & Heq & Hn & _ & _).
  unfold download_original. unfold bind at 1, try_except. unfold bind at 1.
  unfold _request_with_retry. rewrite Heq.
  destruct w as [fs clk http procs calls]. unfold after_requests.
  cbn [w_fs w_clock w_http w_procs w_calls].
  assert (forall msg,
            truthy (Some ("Download failed: " +:+ msg)) = true) as Htr.
  { intros msg. by apply truthy_prefixed. }
  destruct res as [[r|]|e]; unfold the_response; mcore.
  2,3: eexists _, _, n, _; (split; [reflexivity|]); cbn [w_calls w_http w_procs w_fs];
       split_and!; try done; try lia; right; split; [done|apply Htr].
  destruct (status_code r =? 200); cbn [negb]; mcore.
  2: { eexists _, _, n, _. split; [reflexivity|].
       cbn [w_calls w_http w_procs w_fs].
       split_and!; try done; try lia. right. split; [done|].
       change ("Download failed: HTTP " +:+ pretty (status_code r))
         with ("Download failed: " +:+ ("HTTP " +:+ pretty (status_code r))).
       apply Htr. }
  unfold write_stream. mcore.
  destruct (env_open_w env (clk + n)%nat path); cbn [negb]; mcore.
  2: { eexists _, _, n, _. split; [reflexivity|].
       cbn [w_calls w_http w_procs w_fs].
       split_and!; try done; try lia. right. split; [done|apply Htr]. }
  destruct (resp_stream_error r) as [e|]; mcore.
  { eexists _, _, n, _. split; [reflexivity|].
    cbn [w_calls w_http w_procs w_fs].
    split_and!; try done; try lia.
    - intros p Hp. by rewrite lookup_insert_ne.
    - right. split; [done|apply Htr]. }
  rewrite getsize_eq, lookup_insert_eq. mcore.
  eexists _, _, n, _. split; [reflexivity|].
  cbn [w_calls w_http w_procs w_fs f_data].
  split_and!; try done; try lia.
  - intros p Hp. by rewrite lookup_insert_ne.
  - left. split; [done|]. eexists. by rewrite lookup_insert_eq.
Qed.


End ClientCalls.

Section Upload.
Variable env : environment.
Variable self : ImmichClient.

Lemma upload_attempt_shape fp form attempt last w :
  exists s w',
    upload_attempt env self fp form attempt last w = (Ret s, w') /\
    w_fs w' = w_fs w /\ w_procs w' = w_procs w /\ w_calls w' = w_calls w /\
    (readable_data (w_fs w) fp = None ->
     w' = w /\ exists msg, s = inr (None, Some msg) /\ truthy (Some msg) = true) /\
    match s with
    | inr (asset_id, err) => err <> None -> asset_id = None
    | inl _ => True
    end.
Proof.
  destruct w as [fs clk http procs calls]. cbn [w_fs w_procs w_calls].
  unfold upload_attempt, try_except. unfold bind at 1. rewrite read_file_eq.
  unfold readable_data.
  destruct (fs !! fp) as [[data [|]]|]; cbn [f_readable f_data].
  2,3: eexists _, _; (split; [reflexivity|]); split_and!; try done;
       intros _; (split; [done|]); eexists; (split; [reflexivity|]);
       by apply truthy_prefixed.
  unfold bind at 1. rewrite http_request_eq.
  destruct (env_http env clk (form data)) as [r|e]; mcore.
  2: by eexists _, _; split; [reflexivity|].
  repeat match goal with
         | |- context [if ?c then _ else _] => destruct c; mcore
         end;
    try (by eexists _, _; split; [reflexivity|]).
  destruct (resp_json_id r) as [[|] m|i]; mcore;
    by eexists _, _; split; [reflexivity|].
Qed.

Lemma upload_attempts_shape fp form todo :
  forall attempt last w,
    exists asset_id err w',
      upload_attempts env self fp form attempt todo last w
      = (Ret (asset_id, err), w') /\
      w_fs w' = w_fs w /\ w_procs w' = w_procs w /\ w_calls w' = w_calls w /\
      (err <> None -> asset_id = None) /\
      (readable_data (w_fs w) fp = None ->
       w' = w /\ asset_id = None /\ truthy err = true).
Proof.
  induction todo as [|todo IH]; intros attempt last w; cbn [upload_attempts].
  - eexists _, _, _. split; [reflexivity|]. by split_and!.
  - destruct (upload_attempt_shape fp form attempt last w)
      as (s & w1 & Heq & Hfs & Hprocs & Hcalls & Hnone & Hs).
    unfold bind. rewrite Heq. destruct s as [last'|[asset_id err]].
    + destruct (IH (attempt + 1) last' w1)
        as (asset_id & err & w2 & Heq2 & Hfs2 & Hprocs2 & Hcalls2 & Hs2 & _).
      rewrite Heq2. eexists _, _, _. split; [reflexivity|].
      split_and!; [congruence|congruence|congruence|done|].
      intros Hno. destruct (Hnone Hno) as (_ & msg & Hmsg & _).
      discriminate Hmsg.
    + eexists _, _, _. split; [reflexivity|]. split_and!; try done.
      intros Hno. destruct (Hnone Hno) as (-> & msg & [= -> ->] & Hmsg).
      done.
Qed.


End Upload.

(** ** The tools *)

(** Run the next step of a tool function with its equation. *)
Ltac xstep :=
  first [ rewrite subprocess_run_eq
        | rewrite copy_metadata_eq
        | rewrite getsize_or_0_eq
        | rewrite getsize_eq
        | rewrite detect_format_spec
        | progress mcore ].

Section Tools.
Variable env : environment.

Lemma fs_after_proc_other cmd out fs p :
  command_output cmd <> Some p -> fs_after_proc cmd out fs !! p = fs !! p.
Proof.
  intros Hne. unfold fs_after_proc.
  destruct (command_output cmd) as [q|]; [|done].
  destruct (p_written out); [|done].
  rewrite lookup_insert_ne; congruence.
Qed.

Lemma started_app (w : world) fs clk http procs calls l :
  w_procs w = procs ->
  started w (World fs clk http (procs ++ l) calls) = l.
Proof. intros <-. unfold started. cbn. by rewrite drop_app_length. Qed.


End Tools.

Section ImageTools.
Variable env : environment.



End ImageTools.

Section VideoValidation.
Variable env : environment.

Lemma path_exists_eq path fs clk http procs calls :
  path_exists path (World fs clk http procs calls)
  = (Ret (bool_decide (is_Some (fs !! path))), World fs clk http procs calls).
Proof. reflexivity. Qed.

(** X10.  [validate_video_output] changes no file, sends no request and
    records no call.  A missing or empty file is rejected without starting
    ffprobe.  The answer is true only when ffprobe was started once, ended
    by itself (with whatever exit status), and printed a duration other
    than N/A that reads as a positive number.  The only exception that
    leaves the function is an [OSError] of starting ffprobe. *)
Theorem validate_video_output_outcome path w :
  let out := validate_video_output env path w in
  let probe := CmdFfprobeDuration path in
  w_fs (snd out) = w_fs w /\ w_http (snd out) = w_http w /\
  w_calls (snd out) = w_calls w /\
  (from_option (fun f => len (f_data f)) 0 (w_fs w !! path) = 0 ->
   out = (Ret false, w)) /\
  (fst out = Ret true ->
   started w (snd out) = [probe] /\
   exists rc so se,
     p_result (env_proc env (w_clock w) probe) = Exited rc so se /\
     strip so <> "N/A" /\ env_float_positive env (strip so) = Some true) /\
  (forall e, fst out = Raise e ->
   exists m, p_result (env_proc env (w_clock w) probe) = ProcOSError m /\
             e = OSError m).
Proof.
  intros out probe. subst out.
  destruct w as [fs clk http procs calls]. unfold validate_video_output.
  cbn [w_fs w_clock w_http w_procs w_calls].
  repeat first [rewrite path_exists_eq | xstep].
  destruct (fs !! path) as [f|] eqn:Hf.
  2: { rewrite bool_decide_eq_false_2 by (by intros [? ?]). cbn [negb].
       repeat xstep. by split_and!. }
  rewrite (bool_decide_eq_true_2 _ (mk_is_Some _ _ eq_refl)). cbn [negb].
  repeat xstep. rewrite ?Hf. cbn [from_option]. repeat xstep.
  destruct (Z.eqb_spec (len (f_data f)) 0) as [H0|H0];
    repeat xstep; [by split_and!|].
  fold probe.
  change (fs_after_proc probe (env_proc env clk probe) fs) with fs.
  destruct (p_result (env_proc env clk probe)) as [rc so se| | |m];
    repeat xstep; try by split_and!.
  - destruct (String.eqb (strip so) "N/A") eqn:Hna;
      repeat xstep; [by split_and!|].
    apply String.eqb_neq in Hna.
    destruct (env_float_positive env (strip so)) as [[|]|] eqn:Hpos;
      repeat xstep; try by split_and!.
    split_and!; try done. intros _.
    rewrite (started_app _ _ _ _ _ _ [probe]) by done. eauto 10.
  - split_and!; try done. intros e [= <-]. eauto.
Qed.

End VideoValidation.

(** ** The outcomes of the pipeline *)

Section Outcomes.
Variable env : environment.
Variable client : ImmichClient.
Variable config : Config.

Lemma handle_larger_output_outcome is_video input_path output_path
    in_bytes out_bytes result_info w :
  ri_input_bytes result_info = in_bytes ->
  ri_output_bytes result_info = out_bytes ->
  exists res w',
    handle_larger_output env config is_video input_path output_path in_bytes
      out_bytes result_info w = (res, w') /\
    (w_calls w' = w_calls w \/
     w_calls w'
     = w_calls w ++ [attempt_call config is_video true input_path output_path])
    /\
    match res with
    | Ret (inl ri) => status ri = "skipped"
    | Ret (inr (ri, ob)) =>
        ri_input_bytes ri = in_bytes /\ ri_output_bytes ri = ob /\
        (allow_larger config = false -> accept_retry_output config = false ->
         ob <= in_bytes)
    | Raise _ => True
    end.
Proof.
  intros Hin Hout. unfold handle_larger_output.
  destruct (Z.ltb_spec in_bytes out_bytes);
    [|eexists _, _; split; [reflexivity|]; split; [by left|];
      split_and!; try done; lia].
  destruct (allow_larger config);
    [by eexists _, _; split; [reflexivity|]; split; [by left|]|].
  destruct (enable_retry config);
    [|by eexists _, _; split; [reflexivity|]; split; [by left|]].
  destruct (transcode_and_validate_calls env config is_video true input_path
              output_path w) as (res & w1 & Heq & Hc).
  unfold bind. rewrite Heq. destruct res as [[result is_valid]|e].
  - cbn [fst snd].
    destruct (negb (success result) || negb is_valid);
      [by eexists _, _; split; [reflexivity|]; split; [by right|]|].
    destruct (Z.ltb_spec in_bytes (output_bytes result)); cbn [andb].
    + destruct (accept_retry_output config); cbn [negb];
        by eexists _, _; split; [reflexivity|]; split; [by right|].
    + eexists _, _; split; [reflexivity|]; split; [by right|].
      by split_and!.
  - by eexists _, _; split; [reflexivity|]; split; [by right|].
Qed.

(** The outcome of the [try] block of [process_asset]: the calls it
    records, the status it gives and the sizes it reports. *)
Lemma process_asset_try_outcome asset is_video target_format input_path
    output_path result_info w :
  exists r w' pre tr,
    process_asset_try env client config asset is_video target_format
      input_path output_path result_info w = (r, w') /\
    w_calls w' = w_calls w ++ pre ++ tr /\
    forallb is_preparation pre = true /\
    match r with
    | Raise _ => tr = []
    | Ret ri =>
        (tr = [] /\
         status ri
           ∈ ["dry_run_skip"; "failed_download"; "skipped";
              "failed_transcode"]) \/
        (replace_calls (id asset) (status ri) tr /\
         (allow_larger config = false -> accept_retry_output config = false ->
          ri_output_bytes ri <= ri_input_bytes ri))
    end.
Proof.
  unfold process_asset_try.
  destruct (dry_run config && negb is_video).
  { exists (Ret (set_status "dry_run_skip" result_info)), w, [], [].
    rewrite !app_nil_r. split_and!; try done. left. split; [done|in_list]. }
  destruct (download_original_calls env client (id asset) input_path w)
    as (dl & w1 & Heq & Hdl).
  unfold bind at 1. rewrite Heq. clear Heq. cbv beta iota.
  destruct (truthy (snd dl)).
  { eexists _, _, [_], []. split; [reflexivity|].
    split; [exact Hdl|]. split; [done|]. left. split; [done|in_list]. }
  destruct (dry_run config && is_video).
  { pose proof (keeps_detect_video_codec env input_path w1) as Hk.
    rewrite Hdl in Hk. unfold bind.
    destruct (detect_video_codec env input_path w1) as [[codec|e] w2];
      cbn [snd] in Hk.
    - destruct (bool_decide (codec = Some "av1"));
        eexists _, _, [_], []; (split; [reflexivity|]);
        (split; [exact Hk|]); (split; [done|]); left; (split; [done|in_list]).
    - eexists _, _, [_], []. split; [reflexivity|].
      split; [exact Hk|]. done. }
  destruct (transcode_and_validate_calls env config is_video false input_path
              output_path w1) as (rv & w2 & Heq & Hc).
  rewrite Hdl, <- app_assoc in Hc. cbn [app] in Hc.
  assert (forallb is_preparation
            [CallDownload (id asset) input_path dl;
             attempt_call config is_video false input_path output_path]
          = true) as Hprep by (by destruct is_video).
  unfold bind at 1. rewrite Heq. destruct rv as [[result is_valid]|e].
  2: { eexists _, _, [_; _], []. split; [reflexivity|].
       split; [exact Hc|]. done. }
  cbn [fst snd].
  destruct (negb (success result)).
  { destruct (match error result with Some e => _ | None => _ end);
      eexists _, _, [_; _], []; (split; [reflexivity|]);
      (split; [exact Hc|]); (split; [done|]); left; (split; [done|in_list]). }
  destruct (negb is_valid).
  { eexists _, _, [_; _], []. split; [reflexivity|].
    split; [exact Hc|]. split; [done|]. left. split; [done|in_list]. }
  match goal with
  | |- context [handle_larger_output env config ?a ?b ?c ?d ?e ?f] =>
      destruct (handle_larger_output_outcome a b c d e f w2 eq_refl eq_refl)
        as (h & w3 & Hh & Hhc & Hres)
  end.
  unfold bind at 1. rewrite Hh.
  assert (exists pre, w_calls w3 = w_calls w ++ pre /\
                      forallb is_preparation pre = true)
    as (pre & Hpre & Hprep').
  { destruct Hhc as [Hhc|Hhc]; rewrite Hhc, Hc, <- ?app_assoc.
    - eauto.
    - eexists. split; [reflexivity|]. cbn. by destruct is_video. }
  destruct h as [[ri|[ri ob]]|e].
  - exists (Ret ri), w3, pre, []. rewrite app_nil_r.
    split_and!; try done. left. split; [done|]. rewrite Hres. in_list.
  - destruct Hres as (Hib & Hob & Hle).
    match goal with
    | |- context [replace env client ?a ?b ?c ?d] =>
        destruct (replace_spec env client a b c d w3)
          as (st & tr & w4 & Hrep & Hrc & Hw)
    end.
    rewrite Hrep. eexists _, _, pre, tr. split; [reflexivity|].
    rewrite Hw, Hpre, <- app_assoc. split; [done|]. split; [done|].
    right. split; [done|]. intros Hal Hacc. specialize (Hle Hal Hacc).
    destruct (0 <? fst dl); cbn; lia.
  - exists (Raise e), w3, pre, []. rewrite app_nil_r. done.
Qed.

Lemma process_asset_outcome asset w :
  exists r w' pre tr,
    process_asset env client config asset w = (r, w') /\
    issued w w' = pre ++ tr /\
    forallb is_preparation pre = true /\
    match r with
    | Raise _ => tr = []
    | Ret ri =>
        (tr = [] /\
         status ri
           ∈ ["dry_run_skip"; "failed_download"; "skipped";
              "failed_transcode"]) \/
        (replace_calls (id asset) (status ri) tr /\
         (allow_larger config = false -> accept_retry_output config = false ->
          ri_output_bytes ri <= ri_input_bytes ri))
    end.
Proof.
  unfold process_asset, issued.
  destruct (negb (String.eqb (type asset) "VIDEO")
            && _should_skip_by_mime_type asset).
  { eexists _, w, [], []. split; [reflexivity|].
    rewrite drop_all. split_and!; try done. left. split; [done|in_list]. }
  match goal with
  | |- context [process_asset_try env client config ?a ?v ?t ?i ?o ?ri] =>
      destruct (process_asset_try_outcome a v t i o ri w)
        as (r & w1 & pre & tr & Heq & Hc & Hpre & Htr)
  end.
  cbv zeta. unfold try_finally. rewrite Heq.
  match goal with
  | |- context [(cleanup_path env ?p ;;; cleanup_path env ?q) w1] =>
      destruct (cleanup_returns env p q w1) as [w2 Hcl];
      pose proof (cleanup_keeps_calls env p q w1) as Hk
  end.
  rewrite Hcl in Hk |- *. cbn [snd] in Hk.
  exists r, w2, pre, tr. split; [done|].
  by rewrite Hk, Hc, drop_app_length.
Qed.

Lemma replace_calls_status asset_id st tr :
  replace_calls asset_id st tr ->
  st ∈ ["failed_upload"; "failed_copy"; "failed_verification";
        "partial_success"; "success"].
Proof. destruct 1; in_list. Qed.

Lemma process_asset_status_known asset w ri :
  fst (process_asset env client config asset w) = Ret ri ->
  status ri
    ∈ ["skipped"; "dry_run_skip"; "failed_download"; "failed_transcode";
       "failed_upload"; "failed_copy"; "failed_verification";
       "partial_success"; "success"].
Proof.
  destruct (process_asset_outcome asset w)
    as (r & w' & pre & tr & Heq & _ & _ & Hr).
  rewrite Heq. cbn [fst]. intros ->.
  destruct Hr as [[_ Hst]|[Hrc _]].
  - in_cases Hst; rewrite Hst; in_list.
  - apply replace_calls_status in Hrc. in_cases Hrc; rewrite Hrc; in_list.
Qed.

(** X11.  The loop over a batch, run by one worker, never raises and gives
    every asset one result: either the error result that stands for an
    exception of [process_asset], or a result whose status is one of
    skipped, dry_run_skip, failed_download, failed_transcode, failed_upload,
    failed_copy, failed_verification, partial_success and success (never
    the initial status unknown). *)
Theorem batch_statuses assets w :
  exists results w',
    run_pool env client config assets w = (Ret results, w') /\
    length results = length assets /\
    Forall (fun r =>
              r = error_result \/
              status r
                ∈ ["skipped"; "dry_run_skip"; "failed_download";
                   "failed_transcode"; "failed_upload"; "failed_copy";
                   "failed_verification"; "partial_success"; "success"])
      results.
Proof.
  revert w. induction assets as [|asset assets IH]; intros w.
  - by exists [], w.
  - cbn [run_pool]. unfold bind at 1, try_except.
    pose proof (process_asset_status_known asset w) as Hst.
    destruct (process_asset env client config asset w) as [[r|e] w1];
      cbn [fst] in Hst; unfold ret at 1; cbv beta iota;
      destruct (IH w1) as (results & w2 & Heq & Hlen & Hall);
      unfold bind; rewrite Heq; eexists _, _; (split; [reflexivity|]);
      (split; [cbn; by rewrite Hlen|]); apply Forall_cons; (split; [|done]).
    + right. by apply Hst.
    + by left.
Qed.

(** X12.  An asset that ends as skipped, dry_run_skip, failed_download or
    failed_transcode has caused no upload, copy, verification or delete
    call: all that was recorded are downloads and transcode attempts. *)
Theorem no_upload_no_catalog_call asset w ri :
  let out := process_asset env client config asset w in
  fst out = Ret ri ->
  status ri ∈ ["skipped"; "dry_run_skip"; "failed_download";
               "failed_transcode"] ->
  forall c, c ∈ issued w (snd out) -> is_preparation c = true.
Proof.
  intros out. subst out.
  destruct (process_asset_outcome asset w)
    as (r & w' & pre & tr & Heq & Hc & Hpre & Hr).
  rewrite Heq. cbn [fst snd]. intros -> Hst c Hin.
  destruct Hr as [[-> _]|[Hrc _]].
  - rewrite Hc, app_nil_r in Hin. by apply (preparation_elem pre).
  - apply replace_calls_status in Hrc.
    in_cases Hrc; rewrite Hrc in Hst; in_cases Hst.
Qed.

(** X13.  An asset ends as success only after the whole replace protocol:
    the last four recorded calls are the successful upload of the new
    asset, the successful copy of the relations from the original to it,
    its successful verification and the successful delete of the original,
    and nothing but downloads and transcode attempts precedes them. *)
Theorem success_after_whole_protocol asset w ri :
  let out := process_asset env client config asset w in
  fst out = Ret ri -> status ri = "success" ->
  exists pre fp da di fc fm fn n e c g d,
    issued w (snd out)
    = pre ++ [CallUpload fp da di fc fm fn (Some n, e); CallCopy (id asset) n c;
              CallGet n g; CallDelete [id asset] d] /\
    forallb is_preparation pre = true /\
    upload_ok (Some n, e) = true /\ fst c = true /\ fst g = true /\
    fst d = true.
Proof.
  intros out. subst out.
  destruct (process_asset_outcome asset w)
    as (r & w' & pre & tr & Heq & Hc & Hpre & Hr).
  rewrite Heq. cbn [fst snd]. intros -> Hst.
  destruct Hr as [[_ Hin]|[Hrc _]].
  { rewrite Hst in Hin. in_cases Hin. }
  rewrite Hst in Hrc. inversion Hrc; subst.
  rewrite Hc. by eexists pre, _, _, _, _, _, _, _, _, _, _, _.
Qed.

(** X14.  An asset that ends as failed_copy or failed_verification has
    caused exactly one delete call: it is the last call, and it carries the
    id that the successful upload returned and no other. *)
Theorem compensating_delete asset w ri :
  let out := process_asset env client config asset w in
  fst out = Ret ri ->
  status ri ∈ ["failed_copy"; "failed_verification"] ->
  exists pre fp da di fc fm fn n e mid d,
    issued w (snd out)
    = pre ++ CallUpload fp da di fc fm fn (Some n, e) :: mid
          ++ [CallDelete [n] d] /\
    upload_ok (Some n, e) = true /\
    forall ids d', CallDelete ids d' ∉ pre ++ mid.
Proof.
  intros out. subst out.
  destruct (process_asset_outcome asset w)
    as (r & w' & pre & tr & Heq & Hc & Hpre & Hr).
  rewrite Heq. cbn [fst snd]. intros -> Hst.
  assert (forall mid ids d',
            (forall x, x ∈ mid -> forall ids d', x <> CallDelete ids d') ->
            CallDelete ids d' ∉ pre ++ mid) as Hno.
  { intros mid ids d' Hmid [Hin|Hin]%elem_of_app.
    - by apply (preparation_elem pre) in Hin.
    - by apply (Hmid _ Hin ids d'). }
  destruct Hr as [[_ Hin]|[Hrc _]].
  { in_cases Hst; rewrite Hst in Hin; in_cases Hin. }
  rewrite Hc.
  inversion Hrc; subst; try (rewrite <- H in Hst; in_cases Hst).
  - eexists pre, _, _, _, _, _, _, _, _, [_], _.
    split; [reflexivity|]. split; [done|]. intros ids d'. apply Hno.
    intros x Hx. in_cases Hx; by subst.
  - eexists pre, _, _, _, _, _, _, _, _, [_; _], _.
    split; [reflexivity|]. split; [done|]. intros ids d'. apply Hno.
    intros x Hx. in_cases Hx; by subst.
Qed.

(** X15.  Unless allow-larger or accept-retry-output is set, an asset for
    which an upload was recorded reports an output size that is not larger
    than its input size. *)
Theorem no_upload_of_a_larger_file asset w ri fp da di fc fm fn r :
  let out := process_asset env client config asset w in
  allow_larger config = false -> accept_retry_output config = false ->
  fst out = Ret ri ->
  CallUpload fp da di fc fm fn r ∈ issued w (snd out) ->
  ri_output_bytes ri <= ri_input_bytes ri.
Proof.
  intros out. subst out.
  destruct (process_asset_outcome asset w)
    as (r' & w' & pre & tr & Heq & Hc & Hpre & Hr).
  rewrite Heq. cbn [fst snd]. intros Hal Hacc -> Hin.
  destruct Hr as [[-> _]|[_ Hle]]; [|by apply Hle].
  rewrite Hc, app_nil_r in Hin. by apply (preparation_elem pre) in Hin.
Qed.

End Outcomes.

(** ** Dry runs *)

Section DryRun.
Variable env : environment.
Variable client : ImmichClient.
Variable config : Config.

Lemma cleanup_frame p q w :
  exists w',
    (cleanup_path env p ;;; cleanup_path env q) w = (Ret tt, w') /\
    w_http w' = w_http w /\ w_procs w' = w_procs w /\ w_calls w' = w_calls w.
Proof.
  destruct w as [fs clk http procs calls]. unfold bind.
  rewrite cleanup_path_eq.
  destruct (negb (String.eqb p "") && exists_ fs p);
    rewrite cleanup_path_eq;
    match goal with |- context [if ?c then _ else _] => destruct c end; eauto.
Qed.

Lemma dry_run_run asset w :
  dry_run config = true ->
  let inp := scratch_input config asset in
  exists r w' n l,
    process_asset env client config asset w = (r, w') /\
    w_http w' = w_http w ++ replicate n (ReqDownload (id asset)) /\
    w_procs w' = w_procs w ++ l /\
    (l = [] \/ l = [CmdFfprobeCodec inp]) /\
    (type asset <> "VIDEO" -> n = 0%nat /\ l = []) /\
    (w_calls w' = w_calls w \/
     exists d, w_calls w' = w_calls w ++ [CallDownload (id asset) inp d]) /\
    (forall ri, r = Ret ri ->
       status ri ∈ ["skipped"; "dry_run_skip"; "failed_download"]).
Proof.
  intros Hdry inp. unfold process_asset.
  destruct (negb (String.eqb (type asset) "VIDEO")
            && _should_skip_by_mime_type asset).
  { eexists _, w, 0%nat, []. split; [reflexivity|]. cbn [replicate].
    rewrite !app_nil_r. split_and!; try done; [by left|by left|].
    intros ri [= <-]. in_list. }
  cbv zeta. fold (scratch_input config asset) (scratch_output config asset).
  fold inp. unfold try_finally, process_asset_try. rewrite Hdry.
  cbn [andb].
  destruct (String.eqb (type asset) "VIDEO") eqn:Hv; cbn [negb].
  - apply String.eqb_eq in Hv.
    destruct (download_original_footprint env client (id asset) inp w)
      as (size & err & n & w1 & Heq & Hcalls & Hhttp & Hn & Hprocs & _ & _).
    unfold bind at 1. rewrite Heq. cbn [fst snd].
    assert (forall (r : result ProcessingResult) w2 l,
              l = [] \/ l = [CmdFfprobeCodec inp] ->
              w_http w2 = w_http w1 -> w_procs w2 = w_procs w1 ++ l ->
              w_calls w2 = w_calls w1 ->
              (forall ri, r = Ret ri ->
                 status ri ∈ ["skipped"; "dry_run_skip"; "failed_download"]) ->
              exists r' w' n l,
                match (cleanup_path env inp ;;;
                       cleanup_path env (scratch_output config asset)) w2 with
                | (Ret _, w3) => (r, w3)
                | (Raise e, w3) => (Raise e, w3)
                end = (r', w') /\
                w_http w' = w_http w ++ replicate n (ReqDownload (id asset)) /\
                w_procs w' = w_procs w ++ l /\
                (l = [] \/ l = [CmdFfprobeCodec inp]) /\
                (type asset <> "VIDEO" -> n = 0%nat /\ l = []) /\
                (w_calls w' = w_calls w \/
                 exists d,
                   w_calls w' = w_calls w ++ [CallDownload (id asset) inp d]) /\
                (forall ri, r' = Ret ri ->
                   status ri ∈ ["skipped"; "dry_run_skip"; "failed_download"]))
      as Hend.
    { intros r w2 l Hl Hh Hp Hc Hst.
      destruct (cleanup_frame inp (scratch_output config asset) w2)
        as (w3 & Hcl & Hh3 & Hp3 & Hc3).
      rewrite Hcl. exists r, w3, n, l. split; [done|].
      rewrite Hh3, Hp3, Hc3, Hh, Hp, Hc, Hcalls, Hhttp, Hprocs.
      split_and!; try done. eauto. }
    destruct (truthy err).
    { unfold ret at 1. apply (Hend _ _ []); try done;
        [by left|by rewrite app_nil_r|].
      intros ri [= <-]. in_list. }
    unfold detect_video_codec. unfold bind at 2. unfold bind at 1.
    destruct w1 as [fs1 clk1 http1 procs1 calls1].
    rewrite subprocess_run_eq.
    cbn [w_http w_procs w_calls] in *.
    destruct (p_result (env_proc env clk1 (CmdFfprobeCodec inp)))
      as [rc so se| | |m].
    + destruct (rc =? 0); unfold ret at 1; cbv beta iota;
        destruct (bool_decide _); unfold ret at 1;
        apply (Hend _ _ [CmdFfprobeCodec inp]); try done;
        try (by right); intros ri [= <-]; in_list.
    + unfold ret at 1; cbv beta iota. destruct (bool_decide _); unfold ret at 1;
        apply (Hend _ _ [CmdFfprobeCodec inp]); try done;
        try (by right); intros ri [= <-]; in_list.
    + unfold ret at 1; cbv beta iota. destruct (bool_decide _); unfold ret at 1;
        apply (Hend _ _ [CmdFfprobeCodec inp]); try done;
        try (by right); intros ri [= <-]; in_list.
    + unfold raise at 1. cbv beta iota.
      apply (Hend _ _ [CmdFfprobeCodec inp]); try done; by right.
  - unfold ret at 1.
    destruct (cleanup_frame inp (scratch_output config asset) w)
      as (w3 & Hcl & Hh3 & Hp3 & Hc3).
    rewrite Hcl. exists (Ret (set_status "dry_run_skip"
                                (mkResult "unknown" 0 0 0%Q))), w3, 0%nat, [].
    split; [done|]. cbn [replicate]. rewrite !app_nil_r.
    split_and!; try done; [by left|by left|].
    intros ri [= <-]. in_list.
Qed.

(** X16.  In dry-run mode [process_asset] changes nothing in the catalog:
    the only call it records is a download of the asset to its scratch
    input path, every request it sends asks for the original of the asset,
    the only process it starts is the codec probe of the scratch input
    path, and the status is skipped, dry_run_skip or failed_download.  For
    an asset that is not a video it sends no request and starts no process
    at all. *)
Theorem dry_run_changes_nothing asset w :
  dry_run config = true ->
  let out := process_asset env client config asset w in
  let inp := scratch_input config asset in
  (forall c, c ∈ issued w (snd out) ->
     exists r, c = CallDownload (id asset) inp r) /\
  (forall req, req ∈ sent w (snd out) -> req = ReqDownload (id asset)) /\
  (forall cmd, cmd ∈ started w (snd out) -> cmd = CmdFfprobeCodec inp) /\
  (type asset <> "VIDEO" ->
   sent w (snd out) = [] /\ started w (snd out) = []) /\
  (forall ri, fst out = Ret ri ->
     status ri ∈ ["skipped"; "dry_run_skip"; "failed_download"]).
Proof.
  intros Hdry out inp. subst out.
  destruct (dry_run_run asset w Hdry)
    as (r & w' & n & l & Heq & Hh & Hp & Hl & Himg & Hc & Hst).
  rewrite Heq. unfold issued, sent, started. cbn [fst snd].
  rewrite Hh, Hp, !drop_app_length. split_and!; try done.
  - intros c. destruct Hc as [->|[d ->]].
    + rewrite drop_all. by intros ?%elem_of_nil.
    + rewrite drop_app_length. intros ->%list_elem_of_singleton. eauto.
  - by intros req [-> _]%elem_of_replicate.
  - destruct Hl as [->| ->]; intros cmd Hcmd; by in_cases Hcmd.
  - intros Hi. by destruct (Himg Hi) as [-> ->].
Qed.

End DryRun.

(** ** The scan and the run *)

Section Scan.
Variable env : environment.
Variable client : ImmichClient.
Variable config : Config.

Lemma scan_pages_returns fuel atype page assets w :
  exists o w',
    scan_pages env client config fuel atype page assets w = (Ret o, w') /\
    forall found, o = Some found -> (length assets <= length found)%nat.
Proof.
  revert page assets w.
  induction fuel as [|fuel IH]; intros page assets w; cbn [scan_pages].
  - eexists _, _. split; [reflexivity|]. done.
  - unfold bind at 1, try_except.
    destruct ((_ <- search_assets _ _ _ _ _ _ _ _ _ ;; _) w)
      as [[[[|a page_assets]|]|e] w1]; cbv beta iota;
      try (eexists _, _; split; [reflexivity|]; by intros ? [= <-]).
    destruct (negb (max_assets config =? 0) && _).
    + eexists _, _. split; [reflexivity|]. intros ? [= <-].
      rewrite length_app. lia.
    + destruct (IH (page + 1) (assets ++ a :: page_assets) w1)
        as (o & w2 & Heq & Hlen).
      rewrite Heq. eexists _, _. split; [reflexivity|].
      intros found Hf. specialize (Hlen found Hf).
      rewrite length_app in Hlen. lia.
Qed.

(** With a maximum set, the scan of one asset type ends by itself. *)
Lemma scan_pages_capped fuel atype page assets w :
  0 < max_assets config ->
  (Z.to_nat (max_assets config) - length assets < fuel)%nat ->
  exists found w',
    scan_pages env client config fuel atype page assets w
    = (Ret (Some found), w') /\
    (length assets <= length found)%nat.
Proof.
  intros Hmax. revert page assets w.
  induction fuel as [|fuel IH]; intros page assets w Hfuel; [lia|].
  cbn [scan_pages]. unfold bind at 1, try_except.
  destruct ((_ <- search_assets _ _ _ _ _ _ _ _ _ ;; _) w)
    as [[[[|a page_assets]|]|e] w1]; cbv beta iota;
    try (by eexists _, _; split; [reflexivity|]).
  destruct (Z.eqb_spec (max_assets config) 0) as [?|_]; [lia|].
  cbn [negb andb].
  destruct (Z.leb_spec (max_assets config)
              (Z.of_nat (length (assets ++ a :: page_assets)))) as [Hge|Hlt].
  - eexists _, _. split; [reflexivity|]. rewrite length_app. lia.
  - destruct (IH (page + 1) (assets ++ a :: page_assets) w1)
      as (found & w2 & Heq & Hlen).
    { rewrite length_app in *. cbn [length] in *. lia. }
    rewrite Heq. eexists _, _. split; [reflexivity|].
    rewrite length_app in Hlen. lia.
Qed.

Lemma scan_types_returns fuel atypes assets w :
  exists o w', scan_types env client config fuel atypes assets w = (Ret o, w').
Proof.
  revert assets w. induction atypes as [|atype atypes IH]; intros assets w;
    cbn [scan_types].
  - by eexists _, _.
  - destruct (scan_pages_returns fuel atype 1 assets w)
      as (o & w1 & Heq & _).
    unfold bind. rewrite Heq. destruct o as [found|]; [apply IH|].
    by eexists _, _.
Qed.

Lemma scan_types_capped fuel atypes assets w :
  0 < max_assets config ->
  (Z.to_nat (max_assets config) - length assets < fuel)%nat ->
  exists found w',
    scan_types env client config fuel atypes assets w
    = (Ret (Some found), w').
Proof.
  intros Hmax. revert assets w.
  induction atypes as [|atype atypes IH]; intros assets w Hfuel;
    cbn [scan_types].
  - by eexists _, _.
  - destruct (scan_pages_capped fuel atype 1 assets w Hmax Hfuel)
      as (found & w1 & Heq & Hlen).
    unfold bind. rewrite Heq. apply IH. lia.
Qed.

Lemma test_connection_returns w :
  exists r w', test_connection env client w = (Ret r, w').
Proof.
  unfold test_connection, try_except.
  destruct ((_ ;;; _) w) as [[r|e] w']; by eexists _, _.
Qed.

Lemma main_run fuel w :
  exists o w',
    main env client config fuel w = (Ret o, w') /\
    (forall code results, o = Some (code, results) ->
       (code = 0 \/ code = 1 /\ results = []) /\
       (0 < max_assets config ->
        Z.of_nat (length results) <= max_assets config)) /\
    (0 < max_assets config -> (Z.to_nat (max_assets config) < fuel)%nat ->
     o <> None).
Proof.
  unfold main.
  destruct (test_connection_returns w) as ([ok err] & w1 & Ht).
  unfold bind at 1. rewrite Ht. cbn [fst].
  destruct ok; cbn [negb].
  2: { eexists _, _. split; [reflexivity|]. split; [|done].
       intros ? ? [= <- <-]. cbn [length]. split; [by right|lia]. }
  destruct (scan_types_returns fuel (asset_types config) [] w1)
    as (o & w2 & Hs).
  assert (0 < max_assets config -> (Z.to_nat (max_assets config) < fuel)%nat ->
          o <> None) as Hsome.
  { intros Hmax Hfuel.
    destruct (scan_types_capped fuel (asset_types config) [] w1 Hmax)
      as (found & w2' & Hs'); [cbn [length]; lia|]. congruence. }
  unfold bind at 1; rewrite Hs. destruct o as [assets|].
  2: { eexists _, _. split; [reflexivity|]. split; [done|].
       intros Hmax Hfuel. by destruct (Hsome Hmax Hfuel). }
  cbv zeta.
  match goal with
  | |- context [Z.of_nat (length ?l) =? 0] =>
      set (chosen := l);
      assert (0 < max_assets config ->
              Z.of_nat (length chosen) <= max_assets config) as Hcap
  end.
  { intros Hmax. subst chosen.
    destruct (Z.eqb_spec (max_assets config) 0); [lia|]. cbn [negb andb].
    destruct (Z.ltb_spec (max_assets config) (Z.of_nat (length assets)));
      [|lia].
    rewrite length_take. lia. }
  destruct (Z.of_nat (length chosen) =? 0).
  { eexists _, _. split; [reflexivity|]. split; [|done].
    intros ? ? [= <- <-]. cbn [length]. split; [by left|lia]. }
  destruct (run_pool_total env client config chosen w2)
    as (results & w3 & Hp & Hlen).
  unfold bind. rewrite Hp. eexists _, _. split; [reflexivity|].
  split; [|done].
  intros ? ? [= <- <-]. rewrite Hlen. split; [by left|done].
Qed.

(** X17.  From the connection test on, [main] never raises.  When it ends,
    the exit status is 0, or it is 1 and no asset was processed. *)
Theorem main_never_raises fuel w :
  exists o w',
    main env client config fuel w = (Ret o, w') /\
    forall code results, o = Some (code, results) ->
      code = 0 \/ code = 1 /\ results = [].
Proof.
  destruct (main_run fuel w) as (o & w' & Heq & Hres & _).
  exists o, w'. split; [done|]. intros code results Ho.
  by destruct (Hres code results Ho).
Qed.

(** X18.  With a positive [max_assets] the scan ends by itself ([max_assets]
    + 1 turns of the page loop per asset type are enough), [main] ends, and
    it processes at most [max_assets] assets. *)
Theorem main_ends_when_capped fuel w :
  0 < max_assets config ->
  (Z.to_nat (max_assets config) < fuel)%nat ->
  exists code results w',
    main env client config fuel w = (Ret (Some (code, results)), w') /\
    Z.of_nat (length results) <= max_assets config.
Proof.
  intros Hmax Hfuel.
  destruct (main_run fuel w) as (o & w' & Heq & Hres & Hsome).
  destruct o as [[code results]|]; [|by destruct (Hsome Hmax Hfuel)].
  exists code, results, w'. split; [done|].
  by destruct (Hres code results eq_refl) as [_ Hcap]; apply Hcap.
Qed.

End Scan.

(** ** The summary *)

Section SummaryProperties.

Lemma foldl_add_shift {A} (f : A -> Z) (l : list A) (a : Z) :
  foldl (fun acc r => acc + f r) a l = a + foldl (fun acc r => acc + f r) 0 l.
Proof.
  revert a. induction l as [|x l IH]; intros a; cbn [foldl]; [lia|].
  rewrite (IH (a + f x)), (IH (0 + f x)). lia.
Qed.

Lemma foldl_add_perm {A} (f : A -> Z) (l l' : list A) :
  l ≡ₚ l' ->
  foldl (fun acc r => acc + f r) 0 l = foldl (fun acc r => acc + f r) 0 l'.
Proof.
  induction 1 as [|x l l' _ IH|x y l|l l' l'' _ IH1 _ IH2]; cbn [foldl].
  - done.
  - rewrite (foldl_add_shift f l), (foldl_add_shift f l'). by rewrite IH.
  - rewrite (foldl_add_shift f l (0 + f y + f x)),
            (foldl_add_shift f l (0 + f x + f y)). lia.
  - congruence.
Qed.

Lemma occurrences_cons s r results :
  occurrences s (r :: results)
  = (if decide (status r = s) then 1 else 0) + occurrences s results.
Proof.
  unfold occurrences. rewrite filter_cons.
  destruct (decide (status r = s)); cbn [length]; lia.
Qed.

Lemma occurrences_nonneg s results : 0 <= occurrences s results.
Proof. unfold occurrences. lia. Qed.

Lemma occurrences_perm s results results' :
  results ≡ₚ results' -> occurrences s results = occurrences s results'.
Proof.
  induction 1 as [|x l l' _ IH|x y l|l l' l'' _ IH1 _ IH2];
    rewrite ?occurrences_cons; [done|lia|lia|congruence].
Qed.

Lemma count_status_lookup counts results s :
  foldl count_status counts results !! s
  = if decide (occurrences s results = 0) then counts !! s
    else Some (default 0 (counts !! s) + occurrences s results).
Proof.
  revert counts. induction results as [|r results IH]; intros counts.
  - done.
  - cbn [foldl]. rewrite IH, occurrences_cons. unfold count_status.
    pose proof (occurrences_nonneg s results).
    destruct (decide (status r = s)) as [->|Hne].
    + rewrite lookup_insert_eq. cbn [default].
      destruct (decide (occurrences s results = 0)) as [->|?];
        destruct (decide _); try lia; f_equal; unfold Datatypes.id; lia.
    + rewrite lookup_insert_ne by done.
      destruct (decide (occurrences s results = 0)) as [->|?];
        destruct (decide _); try lia; done.
Qed.

Lemma sum_of_counts_insert counts s n :
  sum_of_counts (<[s := n]> counts)
  = sum_of_counts counts - default 0 (counts !! s) + n.
Proof.
  unfold sum_of_counts.
  assert (forall v (m : gmap string Z), m !! s = None ->
            map_fold (fun _ n acc => n + acc) 0 (<[s := v]> m)
            = v + map_fold (fun _ n acc => n + acc) 0 m) as Hfresh'.
  { intros v m Hm. apply (map_fold_insert_L (fun _ n acc => n + acc)); [|done].
    intros; lia. }
  pose proof (Hfresh' n) as Hfresh.
  destruct (counts !! s) as [v|] eqn:Hs; cbn [default].
  - rewrite <- (insert_delete_eq counts s n).
    rewrite (Hfresh (delete s counts) (lookup_delete_eq _ _)).
    rewrite <- (insert_delete_id counts s v Hs) at 2.
    rewrite (Hfresh' v (delete s counts) (lookup_delete_eq _ _)).
    unfold Datatypes.id. lia.
  - rewrite Hfresh by done. lia.
Qed.

Lemma sum_of_counts_foldl counts results :
  sum_of_counts (foldl count_status counts results)
  = sum_of_counts counts + Z.of_nat (length results).
Proof.
  revert counts. induction results as [|r results IH]; intros counts;
    cbn [foldl length]; [lia|].
  rewrite IH. unfold count_status. rewrite sum_of_counts_insert. lia.
Qed.

(** X19.  The status counts of the summary: a status is listed exactly
    when some result has it, with the number of results that have it, and
    the counts add up to the number of results. *)
Theorem status_counts_count results :
  (forall s,
     status_counts results !! s
     = if decide (occurrences s results = 0) then None
       else Some (occurrences s results)) /\
  sum_of_counts (status_counts results) = Z.of_nat (length results).
Proof.
  split.
  - intros s. unfold status_counts. rewrite count_status_lookup.
    rewrite lookup_empty. cbn [default]. by destruct (decide _).
  - unfold status_counts. rewrite sum_of_counts_foldl.
    unfold sum_of_counts. by rewrite map_fold_empty.
Qed.

(** X20.  The summary does not depend on the order in which the results
    come in: the totals and the status counts of two orderings of the same
    results are the same. *)
Theorem summary_order_independent results results' :
  results ≡ₚ results' ->
  total_input results = total_input results' /\
  total_output results = total_output results' /\
  total_savings results = total_savings results' /\
  status_counts results = status_counts results'.
Proof.
  intros Hp. unfold total_savings, total_input, total_output.
  rewrite (foldl_add_perm ri_input_bytes _ _ Hp),
          (foldl_add_perm ri_output_bytes _ _ Hp).
  split_and!; try done.
  apply map_eq. intros s. unfold status_counts.
  by rewrite !count_status_lookup, (occurrences_perm s _ _ Hp).
Qed.

End SummaryProperties.

(** ** Frames: what a computation leaves alone *)

Section Respects.
Context (R : relation world) `{!PreOrder R}.

Lemma respects_ret {A} (a : A) : respects R (ret a).
Proof. intros w. reflexivity. Qed.

Lemma respects_raise {A} (e : exn) : respects R (@raise A e).
Proof. intros w. reflexivity. Qed.

Lemma respects_bind {A B} (m : M A) (k : A -> M B) :
  respects R m -> (forall a, respects R (k a)) -> respects R (bind m k).
Proof.
  intros Hm Hk w. unfold bind. specialize (Hm w).
  destruct (m w) as [[a|e] w']; cbn [snd] in *; [|done].
  etrans; [exact Hm|apply Hk].
Qed.

Lemma respects_try_except {A} (m : M A) (h : exn -> M A) :
  respects R m -> (forall e, respects R (h e)) -> respects R (try_except m h).
Proof.
  intros Hm Hh w. unfold try_except. specialize (Hm w).
  destruct (m w) as [[a|e] w']; cbn [snd] in *; [done|].
  etrans; [exact Hm|apply Hh].
Qed.

Lemma respects_try_finally {A} (m : M A) (c : M unit) :
  respects R m -> respects R c -> respects R (try_finally m c).
Proof.
  intros Hm Hc w. unfold try_finally. specialize (Hm w).
  destruct (m w) as [r w']. specialize (Hc w').
  destruct (c w') as [[]]; cbn [snd] in *; by etrans.
Qed.

End Respects.

Lemma same_files_but_preorder paths : PreOrder (same_files_but paths).
Proof.
  split.
  - by intros w p Hp.
  - intros w1 w2 w3 H12 H23 p Hp. by rewrite H23, H12.
Qed.

Lemma sending_preorder P : PreOrder (sending P).
Proof.
  split.
  - intros w. exists []. by rewrite app_nil_r.
  - intros w1 w2 w3 (l1 & H1 & HP1) (l2 & H2 & HP2). exists (l1 ++ l2).
    rewrite H2, H1, app_assoc. split; [done|]. by apply Forall_app.
Qed.

#[export] Existing Instance same_files_but_preorder.
#[export] Existing Instance sending_preorder.

Create HintDb respects discriminated.

(** Decompose a computation along its binds and case distinctions. *)
Ltac respects :=
  repeat first
    [ solve [eauto with respects]
    | match goal with
      | |- forall _, _ => intro
      | |- respects _ (ret _) => apply respects_ret
      | |- respects _ (raise _) => apply respects_raise
      | |- respects _ (bind _ _) => apply respects_bind
      | |- respects _ (try_except _ _) => apply respects_try_except
      | |- respects _ (try_finally _ _) => apply respects_try_finally
      | |- PreOrder _ => apply _
      | |- respects _ (match ?x with _ => _ end) => destruct x
      | |- respects _ (let _ := _ in _) => cbv zeta
      end ].

Section FilesOfPrimitives.
Variable env : environment.
Variable paths : list string.

Lemma same_files (w w' : world) :
  w_fs w' = w_fs w -> same_files_but paths w w'.
Proof. intros Hfs p _. by rewrite Hfs. Qed.

Lemma files_get_fs : respects (same_files_but paths) get_fs.
Proof. intros w. by apply same_files. Qed.
Lemma files_tick : respects (same_files_but paths) tick.
Proof. intros w. by apply same_files. Qed.
Lemma files_log_http r : respects (same_files_but paths) (log_http r).
Proof. intros w. by apply same_files. Qed.
Lemma files_log_proc c : respects (same_files_but paths) (log_proc c).
Proof. intros w. by apply same_files. Qed.
Lemma files_log_call c : respects (same_files_but paths) (log_call c).
Proof. intros w. by apply same_files. Qed.

End FilesOfPrimitives.

#[export] Hint Resolve files_get_fs files_tick files_log_http files_log_proc
  files_log_call : respects.

Section FilesOfProgram.
Variable env : environment.
Variable client : ImmichClient.
Variable config : Config.
Variable paths : list string.

Lemma files_path_exists p : respects (same_files_but paths) (path_exists p).
Proof. unfold path_exists. respects. Qed.
Lemma files_getsize p : respects (same_files_but paths) (getsize p).
Proof. unfold getsize. respects. Qed.
Lemma files_getsize_or_0 p : respects (same_files_but paths) (getsize_or_0 p).
Proof.
  unfold getsize_or_0. respects; auto using files_path_exists, files_getsize.
Qed.
Lemma files_read_prefix n p : respects (same_files_but paths) (read_prefix n p).
Proof. unfold read_prefix. respects. Qed.
Lemma files_read_file p : respects (same_files_but paths) (read_file p).
Proof. unfold read_file. respects. Qed.

Lemma files_subprocess_run cmd :
  (forall p, command_output cmd = Some p -> p ∈ paths) ->
  respects (same_files_but paths) (subprocess_run env cmd).
Proof.
  intros Hout [fs clk http procs calls] p Hp. rewrite subprocess_run_eq.
  cbn [snd w_fs]. apply fs_after_proc_other. intros Hc. by apply Hp, Hout.
Qed.

Lemma files_detect_format p : respects (same_files_but paths) (detect_format p).
Proof. unfold detect_format. respects; auto using files_read_prefix. Qed.

Lemma files_detect_video_codec p : respects (same_files_but paths) (detect_video_codec env p).
Proof.
  unfold detect_video_codec. respects.
  all: by apply files_subprocess_run.
Qed.

Lemma files_validate_output p e : respects (same_files_but paths) (validate_output p e).
Proof.
  unfold validate_output.
  respects; auto using files_path_exists, files_getsize, files_detect_format.
Qed.

Lemma files_validate_video_output p :
  respects (same_files_but paths) (validate_video_output env p).
Proof.
  unfold validate_video_output.
  respects; auto using files_path_exists, files_getsize.
  all: by apply files_subprocess_run.
Qed.

Lemma files_copy_metadata s d :
  d ∈ paths -> respects (same_files_but paths) (copy_metadata env s d).
Proof.
  intros Hd. unfold copy_metadata. respects.
  apply files_subprocess_run. by intros p [= <-].
Qed.

Lemma files_transcode_with_magick i o d :
  o ∈ paths -> respects (same_files_but paths) (_transcode_with_magick env i o d).
Proof.
  intros Ho. unfold _transcode_with_magick.
  respects; auto using files_getsize, files_detect_format,
    files_copy_metadata, files_getsize_or_0.
  apply files_subprocess_run. by intros p [= <-].
Qed.

Lemma files_transcode i o d : o ∈ paths -> respects (same_files_but paths) (transcode env i o d).
Proof.
  intros Ho. unfold transcode, transcode_body.
  respects; auto using files_getsize, files_detect_format,
    files_transcode_with_magick, files_getsize_or_0.
  apply files_subprocess_run. by intros p [= <-].
Qed.

Lemma files_transcode_video i o c p m a :
  o ∈ paths -> respects (same_files_but paths) (transcode_video env i o c p m a).
Proof.
  intros Ho. unfold transcode_video, transcode_video_body.
  respects; auto using files_getsize, files_detect_video_codec,
    files_getsize_or_0.
  apply files_subprocess_run. by intros ? [= <-].
Qed.

Lemma files_http_request r : respects (same_files_but paths) (http_request env r).
Proof. unfold http_request. respects. Qed.

Lemma files_request_attempts r a todo l :
  respects (same_files_but paths) (request_attempts env client r a todo l).
Proof.
  revert a l. induction todo as [|todo IH]; intros a l; cbn [request_attempts].
  - respects.
  - respects; auto using files_http_request.
Qed.

Lemma files_the_response o : respects (same_files_but paths) (the_response o).
Proof. unfold the_response. respects. Qed.

Lemma files_status_call req (ok : Z) (msg : response -> string)
    (ev : bool * option string -> call) :
  respects (same_files_but paths)
    (r <- try_except
            (o <- _request_with_retry env client req ;;
             response <- the_response o ;;
             if status_code response =? ok then ret (true, None)
             else ret (false, Some (msg response)))
            (fun e => ret (false, Some (str_exn e))) ;;
     log_call (ev r) ;;; ret r).
Proof.
  unfold _request_with_retry.
  respects; auto using files_request_attempts, files_the_response.
Qed.

Lemma files_write_stream p r :
  p ∈ paths -> respects (same_files_but paths) (write_stream env p r).
Proof.
  intros Hp [fs clk http procs calls] q Hq. unfold write_stream. mrun.
  destruct (env_open_w env clk p); [|done]. cbn [negb]. mrun.
  destruct (resp_stream_error r); cbn [snd w_fs];
    rewrite lookup_insert_ne; congruence.
Qed.

Lemma files_download_original asset_id p :
  p ∈ paths -> respects (same_files_but paths) (download_original env client asset_id p).
Proof.
  intros Hp. unfold download_original, _request_with_retry.
  respects; auto using files_request_attempts, files_the_response,
    files_getsize, files_write_stream.
Qed.

Lemma files_cleanup_path p : p ∈ paths -> respects (same_files_but paths) (cleanup_path env p).
Proof.
  intros Hp [fs clk http procs calls] q Hq. rewrite cleanup_path_eq.
  destruct (negb (String.eqb p "") && exists_ fs p); [|done].
  cbn [snd w_fs]. destruct (env_remove env clk p); [|done].
  rewrite lookup_delete_ne; congruence.
Qed.

Lemma files_upload_attempts p f a todo l :
  respects (same_files_but paths) (upload_attempts env client p f a todo l).
Proof.
  revert a l. induction todo as [|todo IH]; intros a l; cbn [upload_attempts].
  - respects.
  - unfold upload_attempt.
    respects; auto using files_read_file, files_http_request.
Qed.

Lemma files_upload_asset fp da di fc fm fn :
  respects (same_files_but paths) (upload_asset env client fp da di fc fm fn).
Proof. unfold upload_asset. respects; auto using files_upload_attempts. Qed.

Lemma files_get_asset a : respects (same_files_but paths) (get_asset env client a).
Proof. apply files_status_call. Qed.
Lemma files_copy_asset_data a b :
  respects (same_files_but paths) (copy_asset_data env client a b).
Proof. apply files_status_call. Qed.
Lemma files_delete_assets ids : respects (same_files_but paths) (delete_assets env client ids).
Proof. apply files_status_call. Qed.

Lemma files_replace asset tf o ri :
  respects (same_files_but paths) (replace env client asset tf o ri).
Proof.
  unfold replace.
  respects; auto using files_upload_asset, files_get_asset,
    files_copy_asset_data, files_delete_assets.
Qed.

Lemma files_transcode_and_validate v retry i o :
  o ∈ paths -> respects (same_files_but paths) (transcode_and_validate env config v retry i o).
Proof.
  intros Ho. unfold transcode_and_validate.
  respects; auto using files_transcode, files_transcode_video,
    files_validate_output, files_validate_video_output.
Qed.

Lemma files_handle_larger_output v i o ib ob ri :
  o ∈ paths -> respects (same_files_but paths) (handle_larger_output env config v i o ib ob ri).
Proof.
  intros Ho. unfold handle_larger_output.
  respects; auto using files_transcode_and_validate.
Qed.

Lemma files_process_asset_try asset v tf i o ri :
  i ∈ paths -> o ∈ paths ->
  respects (same_files_but paths) (process_asset_try env client config asset v tf i o ri).
Proof.
  intros Hi Ho. unfold process_asset_try.
  respects; auto using files_download_original, files_detect_video_codec,
    files_transcode_and_validate, files_handle_larger_output, files_replace.
Qed.

End FilesOfProgram.

Section ScratchOnly.
Variable env : environment.
Variable client : ImmichClient.
Variable config : Config.

(** X21.  [process_asset] leaves every file other than the two scratch
    files of the asset as it found it, whether it returns or raises (the
    external tools being taken to write the output file they are given and
    nothing else). *)
Theorem process_asset_touches_scratch_only asset w p :
  p <> scratch_input config asset -> p <> scratch_output config asset ->
  w_fs (snd (process_asset env client config asset w)) !! p = w_fs w !! p.
Proof.
  intros Hi Ho.
  assert (respects
            (same_files_but
               [scratch_input config asset; scratch_output config asset])
            (process_asset env client config asset)) as Hframe.
  { unfold process_asset. fold (scratch_input config asset).
    respects.
    - apply files_process_asset_try; in_list.
    - apply files_cleanup_path; in_list.
    - apply files_cleanup_path.
      unfold scratch_output. in_list. }
  apply Hframe. intros Hin. by in_cases Hin.
Qed.

End ScratchOnly.

(** ** What is uploaded *)

Section HttpOfPrimitives.
Variable P : request -> Prop.

Lemma same_http (w w' : world) : w_http w' = w_http w -> sending P w w'.
Proof. intros Hh. exists []. by rewrite app_nil_r. Qed.

Lemma http_get_fs : respects (sending P) get_fs.
Proof. intros w. by apply same_http. Qed.
Lemma http_set_fs fs : respects (sending P) (set_fs fs).
Proof. intros w. by apply same_http. Qed.
Lemma http_tick : respects (sending P) tick.
Proof. intros w. by apply same_http. Qed.
Lemma http_log_proc c : respects (sending P) (log_proc c).
Proof. intros w. by apply same_http. Qed.
Lemma http_log_call c : respects (sending P) (log_call c).
Proof. intros w. by apply same_http. Qed.
Lemma http_log_http r : P r -> respects (sending P) (log_http r).
Proof. intros Hr w. exists [r]. split; [done|]. by apply Forall_singleton. Qed.

Lemma sending_weaken (Q : request -> Prop) w w' :
  (forall r, P r -> Q r) -> sending P w w' -> sending Q w w'.
Proof.
  intros HPQ (l & Hl & HP). exists l. split; [done|].
  by apply (Forall_impl P).
Qed.

End HttpOfPrimitives.

#[export] Hint Resolve http_get_fs http_set_fs http_tick http_log_proc
  http_log_call : respects.

Section HttpOfProgram.
Variable env : environment.
Variable client : ImmichClient.
Variable config : Config.
Variable P : request -> Prop.

Lemma http_path_exists p : respects (sending P) (path_exists p).
Proof. unfold path_exists. respects. Qed.
Lemma http_getsize p : respects (sending P) (getsize p).
Proof. unfold getsize. respects. Qed.
Lemma http_getsize_or_0 p : respects (sending P) (getsize_or_0 p).
Proof.
  unfold getsize_or_0. respects; auto using http_path_exists, http_getsize.
Qed.
Lemma http_read_prefix n p : respects (sending P) (read_prefix n p).
Proof. unfold read_prefix. respects. Qed.
Lemma http_subprocess_run cmd : respects (sending P) (subprocess_run env cmd).
Proof. unfold subprocess_run. respects. Qed.
Lemma http_detect_format p : respects (sending P) (detect_format p).
Proof. unfold detect_format. respects; auto using http_read_prefix. Qed.
Lemma http_detect_video_codec p : respects (sending P) (detect_video_codec env p).
Proof. unfold detect_video_codec. respects; auto using http_subprocess_run. Qed.
Lemma http_validate_output p e : respects (sending P) (validate_output p e).
Proof.
  unfold validate_output.
  respects; auto using http_path_exists, http_getsize, http_detect_format.
Qed.
Lemma http_validate_video_output p : respects (sending P) (validate_video_output env p).
Proof.
  unfold validate_video_output.
  respects; auto using http_path_exists, http_getsize, http_subprocess_run.
Qed.
Lemma http_copy_metadata s d : respects (sending P) (copy_metadata env s d).
Proof. unfold copy_metadata. respects; auto using http_subprocess_run. Qed.
Lemma http_transcode_with_magick i o d :
  respects (sending P) (_transcode_with_magick env i o d).
Proof.
  unfold _transcode_with_magick.
  respects; auto using http_getsize, http_detect_format, http_copy_metadata,
    http_getsize_or_0, http_subprocess_run.
Qed.
Lemma http_transcode i o d : respects (sending P) (transcode env i o d).
Proof.
  unfold transcode, transcode_body.
  respects; auto using http_getsize, http_detect_format,
    http_transcode_with_magick, http_getsize_or_0, http_subprocess_run.
Qed.
Lemma http_transcode_video i o c p m a :
  respects (sending P) (transcode_video env i o c p m a).
Proof.
  unfold transcode_video, transcode_video_body.
  respects; auto using http_getsize, http_detect_video_codec,
    http_getsize_or_0, http_subprocess_run.
Qed.
Lemma http_transcode_and_validate v retry i o :
  respects (sending P) (transcode_and_validate env config v retry i o).
Proof.
  unfold transcode_and_validate.
  respects; auto using http_transcode, http_transcode_video,
    http_validate_output, http_validate_video_output.
Qed.
Lemma http_handle_larger_output v i o ib ob ri :
  respects (sending P) (handle_larger_output env config v i o ib ob ri).
Proof.
  unfold handle_larger_output.
  respects; auto using http_transcode_and_validate.
Qed.

Lemma http_cleanup p q :
  respects (sending P) (cleanup_path env p ;;; cleanup_path env q).
Proof. unfold cleanup_path. respects; auto using http_path_exists. Qed.

Lemma http_http_request r : P r -> respects (sending P) (http_request env r).
Proof. intros Hr. unfold http_request. respects. by apply http_log_http. Qed.

Lemma http_request_attempts r a todo l :
  P r -> respects (sending P) (request_attempts env client r a todo l).
Proof.
  intros Hr. revert a l.
  induction todo as [|todo IH]; intros a l; cbn [request_attempts].
  - respects.
  - respects; auto using http_http_request.
Qed.

Lemma http_the_response o : respects (sending P) (the_response o).
Proof. unfold the_response. respects. Qed.

Lemma http_status_call req (ok : Z) (msg : response -> string)
    (ev : bool * option string -> call) :
  P req ->
  respects (sending P)
    (r <- try_except
            (o <- _request_with_retry env client req ;;
             response <- the_response o ;;
             if status_code response =? ok then ret (true, None)
             else ret (false, Some (msg response)))
            (fun e => ret (false, Some (str_exn e))) ;;
     log_call (ev r) ;;; ret r).
Proof.
  intros Hr. unfold _request_with_retry.
  respects; auto using http_request_attempts, http_the_response.
Qed.

Lemma http_download_original asset_id p :
  P (ReqDownload asset_id) ->
  respects (sending P) (download_original env client asset_id p).
Proof.
  intros Hr. unfold download_original, write_stream, _request_with_retry.
  respects; auto using http_request_attempts, http_the_response, http_getsize.
Qed.

End HttpOfProgram.

Section Uploads.
Variable env : environment.
Variable client : ImmichClient.
Variable config : Config.

Lemma validate_video_output_true p w w' :
  validate_video_output env p w = (Ret true, w') ->
  validated true p w'.
Proof.
  destruct w as [fs clk http procs calls]. unfold validate_video_output.
  repeat first [rewrite path_exists_eq | xstep].
  destruct (fs !! p) as [f|] eqn:Hf.
  2: { rewrite bool_decide_eq_false_2 by (by intros [? ?]). cbn [negb].
       by repeat xstep. }
  rewrite (bool_decide_eq_true_2 _ (mk_is_Some _ _ eq_refl)). cbn [negb].
  repeat xstep. rewrite ?Hf.
  destruct (Z.eqb_spec (len (f_data f)) 0) as [H0|H0]; repeat xstep; [done|].
  change (fs_after_proc (CmdFfprobeDuration p)
            (env_proc env clk (CmdFfprobeDuration p)) fs) with fs.
  intros Heq.
  assert (w_fs w' = fs) as Hfs.
  { destruct (p_result _) as [rc so se| | |m]; repeat xstep;
      try (by injection Heq as _ <-).
    revert Heq. destruct (String.eqb _ _); [by intros [= <-]|].
    destruct (env_float_positive _ _) as [[|]|]; by intros [= <-]. }
  exists f. rewrite Hfs. split; [done|]. split; [|done].
  intros Hnil. apply H0. unfold len. by rewrite Hnil.
Qed.

Lemma validate_output_true p w w' :
  validate_output p "jxl" w = (Ret true, w') -> validated false p w'.
Proof.
  rewrite validate_output_run. intros [= Hb <-].
  destruct (w_fs w !! p) as [f|] eqn:Hf; [|done]. exists f. split; [done|].
  destruct (Z.eqb_spec (len (f_data f)) 0) as [H0|H0]; [done|].
  apply bool_decide_eq_true in Hb. split.
  - intros Hnil. apply H0. unfold len. by rewrite Hnil.
  - intros _. by destruct (f_readable f).
Qed.

Lemma transcode_and_validate_true is_video retry i o w result w' :
  transcode_and_validate env config is_video retry i o w
  = (Ret (result, true), w') ->
  validated is_video o w'.
Proof.
  unfold transcode_and_validate. destruct is_video.
  - unfold bind at 1. destruct (transcode_video _ _ _ _ _ _ _ w) as [[r|e] w1];
      [|done].
    unfold bind.
    destruct (validate_video_output env o w1) as [[b|e] w2] eqn:Hv; [|done].
    intros [= _ -> <-]. by apply (validate_video_output_true o w1).
  - unfold bind at 1. destruct (transcode _ _ _ _ w) as [[r|e] w1]; [|done].
    unfold bind.
    destruct (validate_output o "jxl" w1) as [[b|e] w2] eqn:Hv; [|done].
    intros [= _ -> <-]. by apply (validate_output_true o w1).
Qed.

Lemma handle_larger_output_validated is_video i o ib ob ri w x w' :
  validated is_video o w ->
  handle_larger_output env config is_video i o ib ob ri w = (Ret (inr x), w') ->
  validated is_video o w'.
Proof.
  intros Hv. unfold handle_larger_output.
  destruct (ib <? ob); [|by intros [= _ <-]].
  destruct (allow_larger config); [by intros [= _ <-]|].
  destruct (enable_retry config); [|done].
  unfold bind.
  destruct (transcode_and_validate env config is_video true i o w)
    as [[[result is_valid]|e] w1] eqn:Htv; [|done].
  cbn [fst snd]. destruct (success result); cbn [negb orb]; [|done].
  destruct is_valid; cbn [negb]; [|done].
  destruct (_ && _); [done|]. intros [= _ <-].
  by apply (transcode_and_validate_true _ _ _ _ _ _ _ Htv).
Qed.

Lemma upload_asset_sending is_video fp da di fc fm fn w :
  validated is_video fp w ->
  sending (acceptable_upload is_video) w
    (snd (upload_asset env client fp da di fc fm fn w)).
Proof.
  intros (f & Hf & Hok). unfold upload_asset. cbv zeta.
  destruct (readable_data (w_fs w) fp) as [data|] eqn:Hdata.
  - match goal with
    | |- context [upload_attempts env client ?p ?form ?a ?t ?l] =>
        destruct (upload_attempts_auth env client p form a t l w data Hdata)
          as (n & r & Heq & _)
    end.
    unfold bind at 1. rewrite Heq.
    destruct w as [fs clk http procs calls]. unfold after_requests.
    cbn [w_fs w_clock w_http w_procs w_calls]. mcore.
    eexists. split; [reflexivity|]. apply Forall_replicate.
    cbn [acceptable_upload]. unfold readable_data in Hdata.
    cbn [w_fs] in *. rewrite Hf in Hdata.
    destruct (f_readable f); [|done]. by injection Hdata as <-.
  - match goal with
    | |- context [upload_attempts env client ?p ?form ?a ?t ?l] =>
        destruct (upload_attempts_shape env client p form t a l w)
          as (asset_id & err & w' & Heq & _ & _ & _ & _ & Hsame)
    end.
    destruct (Hsame Hdata) as (-> & _).
    unfold bind at 1. rewrite Heq. destruct w. mcore. by apply same_http.
Qed.

Lemma replace_sending is_video asset tf o ri w :
  validated is_video o w ->
  sending (acceptable_upload is_video) w
    (snd (replace env client asset tf o ri w)).
Proof.
  intros Hv. unfold replace. cbv zeta.
  match goal with
  | |- context [upload_asset env client ?a ?b ?c ?d ?e ?f] =>
      pose proof (upload_asset_sending is_video a b c d e f w Hv) as Hup
  end.
  unfold bind at 1.
  destruct (upload_asset _ _ _ _ _ _ _ _ w) as [[up|e] w1]; cbn [snd] in *;
    [|done].
  etrans; [exact Hup|]. clear Hup.
  assert (respects (sending (acceptable_upload is_video))
            (match up with
             | (Some new_asset_id, error) =>
                 if truthy error || String.eqb new_asset_id "" then
                   ret (set_status "failed_upload" ri)
                 else
                   cp <- copy_asset_data env client (id asset) new_asset_id ;;
                   if negb (fst cp) then
                     delete_assets env client [new_asset_id] ;;;
                     ret (set_status "failed_copy" ri)
                   else
                     vf <- get_asset env client new_asset_id ;;
                     if negb (fst vf) then
                       delete_assets env client [new_asset_id] ;;;
                       ret (set_status "failed_verification" ri)
                     else
                       dl <- delete_assets env client [id asset] ;;
                       if negb (fst dl) then
                         ret (set_status "partial_success" ri)
                       else ret (set_status "success" ri)
             | (None, _) => ret (set_status "failed_upload" ri)
             end)) as Hrest.
  { assert (forall a b, respects (sending (acceptable_upload is_video))
                          (copy_asset_data env client a b)) as Hcp
      by (intros; by apply http_status_call).
    assert (forall a, respects (sending (acceptable_upload is_video))
                        (get_asset env client a)) as Hg
      by (intros; by apply http_status_call).
    assert (forall a, respects (sending (acceptable_upload is_video))
                        (delete_assets env client a)) as Hd
      by (intros; by apply http_status_call).
    respects; auto. }
  apply Hrest.
Qed.

Lemma process_asset_try_sending asset target_format i o ri w :
  let is_video := String.eqb (type asset) "VIDEO" in
  sending (acceptable_upload is_video) w
    (snd (process_asset_try env client config asset is_video target_format
            i o ri w)).
Proof.
  intros is_video. unfold process_asset_try.
  destruct (dry_run config && negb is_video); [reflexivity|].
  pose proof (http_download_original env client
                (acceptable_upload is_video) (id asset) i I w) as Hdl.
  unfold bind at 1.
  destruct (download_original env client (id asset) i w) as [[dl|e] w1];
    cbn [snd] in *; [|done].
  etrans; [exact Hdl|]. clear Hdl.
  destruct (truthy (snd dl)); [reflexivity|].
  destruct (dry_run config && is_video).
  { pose proof (http_detect_video_codec env (acceptable_upload is_video) i w1)
      as Hc.
    unfold bind. destruct (detect_video_codec env i w1) as [[c|e] w2];
      cbn [snd] in *; [|done].
    by destruct (bool_decide _). }
  pose proof (http_transcode_and_validate env config
                (acceptable_upload is_video) is_video false i o w1) as Htv.
  unfold bind at 1.
  destruct (transcode_and_validate env config is_video false i o w1)
    as [[[result is_valid]|e] w2] eqn:Heq; cbn [snd fst] in *; [|done].
  etrans; [exact Htv|]. clear Htv.
  destruct (success result); cbn [negb];
    [|by destruct (match error result with Some _ => _ | None => _ end)].
  destruct is_valid; cbn [negb]; [|reflexivity].
  apply transcode_and_validate_true in Heq.
  match goal with
  | |- context [handle_larger_output env config ?a ?b ?c ?d ?e ?f] =>
      pose proof (http_handle_larger_output env config
                    (acceptable_upload is_video) a b c d e f w2) as Hh;
      pose proof (handle_larger_output_validated a b c d e f w2) as Hhv
  end.
  unfold bind at 1.
  destruct (handle_larger_output _ _ _ _ _ _ _ _ w2) as [[[ri'|[ri' ob']]|e] w3];
    cbn [snd] in *; try done.
  etrans; [exact Hh|]. apply replace_sending. by apply (Hhv (ri', ob') w3 Heq).
Qed.

(** X22.  Only validated output is uploaded: every upload request that
    [process_asset] sends carries data that is not empty and, for an asset
    that is not a video, sniffs as JPEG XL. *)
Theorem uploads_are_validated asset w data da di fc fm fn :
  let out := process_asset env client config asset w in
  ReqUpload data da di fc fm fn ∈ sent w (snd out) ->
  data <> [] /\ (type asset <> "VIDEO" -> detect_header data = Some "jxl").
Proof.
  intros out. subst out.
  assert (sending (acceptable_upload (String.eqb (type asset) "VIDEO")) w
            (snd (process_asset env client config asset w)))
    as (l & Hl & HP).
  { unfold process_asset.
    destruct (negb (String.eqb (type asset) "VIDEO")
              && _should_skip_by_mime_type asset); [reflexivity|].
    cbv zeta. unfold try_finally.
    match goal with
    | |- context [process_asset_try env client config ?a ?v ?t ?i ?o ?ri] =>
        pose proof (process_asset_try_sending a t i o ri w) as Htry;
        cbv zeta in Htry;
        destruct (process_asset_try env client config a v t i o ri w)
          as [r w1]
    end.
    cbn [snd] in Htry. etrans; [exact Htry|].
    match goal with
    | |- context [(cleanup_path env ?p ;;; cleanup_path env ?q) w1] =>
        pose proof (http_cleanup env
                      (acceptable_upload (String.eqb (type asset) "VIDEO"))
                      p q w1) as Hcl;
        destruct ((cleanup_path env p ;;; cleanup_path env q) w1)
          as [[[]|e] w2]
    end; exact Hcl. }
  unfold sent. rewrite Hl, drop_app_length. intros Hin.
  rewrite Forall_forall in HP. specialize (HP _ Hin).
  destruct HP as [Hne Hjxl]. split; [done|]. intros Hv. apply Hjxl.
  by apply String.eqb_neq.
Qed.

End Uploads.

(** ** The integer settings *)

Section SettingsProperties.
Variable py_strip : string -> string.
Variable py_int : string -> string + Z.
Variable environ : gmap string string.

Lemma parse_int_value name default min max v :
  _parse_int py_strip py_int environ name default min max = inr v ->
  (v = default /\
   forall value, environ !! name = Some value -> py_strip value = "") \/
  (exists value, environ !! name = Some value /\ py_int value = inr v /\
                 within min max v).
Proof.
  unfold _parse_int, within.
  destruct (environ !! name) as [value|]; [|intros [= <-]; by left].
  destruct (String.eqb_spec (py_strip value) "") as [He|He].
  { intros [= <-]. left. split; [done|]. by intros ? [= <-]. }
  destruct (py_int value) as [msg|i] eqn:Hint; [done|].
  destruct min as [m|], max as [m'|];
    repeat match goal with
           | |- context [?a <? ?b] => destruct (Z.ltb_spec a b)
           end; try done; intros [= <-]; right; exists value;
    (split; [done|]); (split; [done|]); split; intros ? [= <-]; lia.
Qed.

(** X23.  Every integer setting that [Config.from_env] reads (CONCURRENCY,
    MAX_ASSETS, VIDEO_CRF, VIDEO_PRESET, VIDEO_MAX_DIMENSION,
    VIDEO_CRF_RETRY) is within its bounds whenever [_parse_int] returns,
    whether the value comes from the environment or is the default. *)
Theorem integer_settings_in_range name default min max v :
  (name, default, min, max) ∈ INTEGER_SETTINGS ->
  _parse_int py_strip py_int environ name default min max = inr v ->
  within min max v.
Proof.
  intros Hin Hv.
  destruct (parse_int_value _ _ _ _ _ Hv) as [[-> _]|(value & _ & _ & Hr)];
    [|done].
  unfold INTEGER_SETTINGS, within in *.
  in_cases Hin; split; intros ? [= <-]; lia.
Qed.

End SettingsProperties.

(** ** The properties on concrete runs *)

Import Scenario.



Lemma detect_format_matroska_witness :
  startswith mkv_bytes [x1a; x45; xdf; xa3] = true /\
  detect_format inp (world_with inp mkv_bytes)
  = (Ret (Some "mkv"), world_with inp mkv_bytes).
Proof.
  split; [reflexivity|].
  apply (detect_format_matroska _ _ mkv_bytes); reflexivity.
Defined.

Lemma validate_output_spec_witness :
  validate_output outp "jxl" (world_with outp jxl_bytes)
  = (Ret true, world_with outp jxl_bytes).
Proof.
  destruct (validate_output_spec outp "jxl" (world_with outp jxl_bytes))
    as (b & Heq & Hiff & _).
  rewrite Heq. do 2 f_equal. apply Hiff.
  exists (File jxl_bytes true).
  split; [reflexivity|]. split; [discriminate|reflexivity].
Defined.



Lemma metadata_copy_best_effort_witness :
  let w := world_with inp png_bytes in
  let r := _transcode_with_magick env_png inp outp 1 w in
  (w_fs w !! inp = Some (File png_bytes true) /\
   p_result (env_proc env_png (w_clock w) (CmdMagick inp 1 outp))
   = Exited 0 "" "" /\
   p_result (env_proc env_png (S (w_clock w)) (CmdExiftool inp outp))
   = FileNotFound) /\
  w_procs (snd r) = w_procs w ++ [CmdMagick inp 1 outp; CmdExiftool inp outp]
  /\ exists tr, fst r = Ret tr /\ success tr = true.
Proof.
  cbv zeta. split; [split_and!; reflexivity|].
  destruct (metadata_copy_best_effort env_png inp outp 1
              (world_with inp png_bytes) (File png_bytes true) eq_refl)
    as (H & _).
  destruct (H "" "" eq_refl) as [Hprocs Hsucc].
  split; [exact Hprocs|]. apply Hsucc. intros m. discriminate.
Defined.

(** C5, as stated, fails on the [cjxl] path: the conversion succeeds and
    [exiftool] is never started. *)
Lemma cjxl_metadata_counterexample :
  let w := world_with inp jpeg_bytes in
  let r := transcode env_ok inp outp 1 w in
  fst r = Ret (mkTranscodeResult true inp outp 8 3 "jpg" None) /\
  w_procs (snd r) = [CmdCjxl inp outp] /\
  CmdExiftool inp outp ∉ w_procs (snd r).
Proof.
  cbv zeta. split_and!; try (vm_compute; reflexivity).
  intros H. vm_compute in H. in_cases H.
Qed.

Lemma scratch_files_removed_witness :
  let w' := snd (process_asset env_ok client config photo empty_world) in
  (env_remove env_ok 7 inp = true /\ prefiltered photo = false /\
   scratch_input config photo = inp /\ scratch_output config photo = outp) /\
  w_fs w' !! inp = None /\ w_fs w' !! outp = None.
Proof.
  cbv zeta. split; [split_and!; reflexivity|].
  apply (scratch_files_removed env_ok client config photo empty_world).
  - intros t p. reflexivity.
  - intros H. vm_compute in H. discriminate H.
Defined.

(** C6, as stated, fails when [os.remove] fails: the failure is logged and
    swallowed, and both scratch files are still there when [process_asset]
    has returned. *)
Lemma failed_remove_counterexample :
  let r := process_asset env_remove_fails client config photo empty_world in
  w_fs empty_world !! inp = None /\ w_fs empty_world !! outp = None /\
  scratch_input config photo = inp /\ scratch_output config photo = outp /\
  (exists ri, fst r = Ret ri /\ status ri = "success") /\
  w_fs (snd r) !! inp = Some (File jpeg_bytes true) /\
  w_fs (snd r) !! outp = Some (File jxl_bytes true).
Proof.
  cbv zeta. split_and!; try (vm_compute; reflexivity).
  eexists. split; vm_compute; reflexivity.
Qed.


Lemma partial_success_keeps_new_asset_witness :
  let r := process_asset env_delete_refused client config photo empty_world in
  issued empty_world (snd r)
  = [CallDownload "a1" inp (8, None); CallTranscode inp outp 1;
     CallUpload outp "a1-jxl" "phone" "2020-01-01T00:00:00.000Z"
       "2020-01-02T00:00:00.000Z" (Some "photo.jxl") (Some "n1", None);
     CallCopy "a1" "n1" (true, None); CallGet "n1" (true, None);
     CallDelete ["a1"] (false, Some "Delete failed: HTTP 400")] /\
  exists ri, fst r = Ret ri /\ status ri = "partial_success".
Proof.
  cbv zeta. split; [vm_compute; reflexivity|].
  assert (issued empty_world
            (snd (process_asset env_delete_refused client config photo
                    empty_world))
          = [CallDownload "a1" inp (8, None); CallTranscode inp outp 1;
             CallUpload outp "a1-jxl" "phone" "2020-01-01T00:00:00.000Z"
               "2020-01-02T00:00:00.000Z" (Some "photo.jxl")
               (Some "n1", None);
             CallCopy "a1" "n1" (true, None); CallGet "n1" (true, None);
             CallDelete ["a1"] (false, Some "Delete failed: HTTP 400")])
    as Hcalls by (vm_compute; reflexivity).
  apply (partial_success_keeps_new_asset env_delete_refused client config
           photo empty_world outp "a1-jxl" "phone" "2020-01-01T00:00:00.000Z"
           "2020-01-02T00:00:00.000Z" (Some "photo.jxl") "n1" None
           (true, None) (true, None) (false, Some "Delete failed: HTTP 400"));
    rewrite ?Hcalls; try reflexivity.
  - do 2 apply list_elem_of_further. apply list_elem_of_here.
  - do 3 apply list_elem_of_further. apply list_elem_of_here.
  - do 4 apply list_elem_of_further. apply list_elem_of_here.
  - do 5 apply list_elem_of_further. apply list_elem_of_here.
Defined.

Lemma quality_retry_decision_witness :
  let w := empty_world in
  let inp2 := "/work/in/a2.bin" in
  let outp2 := "/work/out/a2.jxl" in
  let w1 := snd (download_original env_png client "a2" inp2 w) in
  let w2 := snd (transcode_and_validate env_png config false false inp2 outp2
                   w1) in
  let first := mkTranscodeResult true inp2 outp2 8 12 "png" None in
  let r := process_asset env_png client config drawing w in
  (download_original env_png client "a2" inp2 w = (Ret (8, None), w1) /\
   transcode_and_validate env_png config false false inp2 outp2 w1
   = (Ret (first, true), w2) /\
   allow_larger config = false /\ enable_retry config = true) /\
  exists tail,
    issued w (snd r)
    = [CallDownload "a2" inp2 (8, None); CallTranscode inp2 outp2 1]
      ++ CallTranscode inp2 outp2 2 :: tail /\
    exists st ri, replace_calls "a2" st tail /\ fst r = Ret ri /\
                  status ri = st.
Proof.
  cbv zeta. split; [split_and!; vm_compute; reflexivity|].
  destruct (quality_retry_decision env_png client config drawing empty_world
              8 None
              (snd (download_original env_png client "a2" "/work/in/a2.bin"
                      empty_world))
              (mkTranscodeResult true "/work/in/a2.bin" "/work/out/a2.jxl"
                 8 12 "png" None)
              (snd (transcode_and_validate env_png config false false
                      "/work/in/a2.bin" "/work/out/a2.jxl"
                      (snd (download_original env_png client "a2"
                              "/work/in/a2.bin" empty_world)))))
    as (_ & _ & H); try (vm_compute; reflexivity).
  destruct (H eq_refl eq_refl) as (tail & Hcalls & Hretry).
  exists tail. split; [exact Hcalls|]. exact Hretry.
Defined.

Lemma auth_failure_fails_the_asset_only_witness :
  (0 <= retry_max client /\ prefiltered photo = false /\
   env_http env_unauthorized (w_clock empty_world) (ReqDownload "a1")
   = reply 401) /\
  exists ri w',
    process_asset env_unauthorized client config photo empty_world
    = (Ret ri, w') /\
    status ri = "failed_download" /\
    w_http w' = w_http empty_world ++ [ReqDownload "a1"].
Proof.
  split; [split_and!; [discriminate|reflexivity..]|].
  destruct (auth_failure_fails_the_asset_only env_unauthorized client config)
    as (_ & _ & H & _).
  destruct H as (Hdownload & _); [discriminate|].
  apply (Hdownload photo empty_world); reflexivity.
Defined.

(** C9, as stated, fails in the pipeline: every download of the batch is
    answered with HTTP 401, each asset ends as failed_download, the next
    asset is still requested, and the run ends with exit status 0. *)
Lemma unauthorized_batch_counterexample :
  let r := main env_unauthorized client config 3 empty_world in
  let failed := mkResult "failed_download" 0 0 0%Q in
  env_http env_unauthorized 4 (ReqDownload "a1") = reply 401 /\
  env_http env_unauthorized 5 (ReqDownload "a2") = reply 401 /\
  fst r = Ret (Some (0, [failed; failed])) /\
  w_http (snd r)
  = [ReqSearch 1 1 "IMAGE" false false None None;
     ReqSearch 1 500 "IMAGE" false false None None;
     ReqSearch 2 500 "IMAGE" false false None None;
     ReqSearch 1 500 "VIDEO" false false None None;
     ReqDownload "a1"; ReqDownload "a2"].
Proof. cbv zeta. split_and!; vm_compute; reflexivity. Qed.

(** ** The further properties on concrete runs *)

Import Cases.

Lemma detect_format_first_32_bytes_witness :
  take 32 (long_png [x01]) = take 32 (long_png [x02; x03]) /\
  fst (detect_format inp (world_with inp (long_png [x01])))
  = fst (detect_format outp (world_with outp (long_png [x02; x03]))).
Proof.
  split; [reflexivity|].
  apply (detect_format_first_32_bytes inp outp _ _ (long_png [x01])
           (long_png [x02; x03])); reflexivity.
Defined.

Lemma request_with_retry_recovers_witness :
  _request_with_retry env_busy client (ReqGetAsset "n1") empty_world
  = (answer (reply 200), after_requests 3 (ReqGetAsset "n1") empty_world).
Proof.
  apply (request_with_retry_recovers env_busy client (ReqGetAsset "n1")
           empty_world 2).
  - discriminate.
  - intros [|[|i]] Hi; [reflexivity|reflexivity|lia].
  - right. reflexivity.
Defined.

Lemma request_with_retry_outcome_witness :
  exists m,
    _request_with_retry env_busy client (ReqGetAsset "n1") empty_world
    = (answer (env_http env_busy m (ReqGetAsset "n1")),
       after_requests (S m) (ReqGetAsset "n1") empty_world) /\
    Z.of_nat m <= 3.
Proof.
  destruct (request_with_retry_outcome env_busy client (ReqGetAsset "n1")
              empty_world) as [_ H].
  destruct H as (m & Heq & Hm & _); [discriminate|].
  exists m. split; [exact Heq|exact Hm].
Defined.


Lemma no_upload_no_catalog_call_witness :
  let out := process_asset env_unauthorized client config photo empty_world in
  fst out = Ret failed /\
  Forall (fun c => is_preparation c = true) (issued empty_world (snd out)).
Proof.
  cbv zeta. split; [vm_compute; reflexivity|].
  apply Forall_forall.
  apply (no_upload_no_catalog_call env_unauthorized client config photo
           empty_world failed).
  - vm_compute. reflexivity.
  - do 2 apply list_elem_of_further. apply list_elem_of_here.
Defined.

Lemma success_after_whole_protocol_witness :
  let out := process_asset env_ok client config photo empty_world in
  fst out = Ret converted /\
  exists pre fp da di fc fm fn n e c g d,
    issued empty_world (snd out)
    = pre ++ [CallUpload fp da di fc fm fn (Some n, e); CallCopy (id photo) n c;
              CallGet n g; CallDelete [id photo] d] /\
    forallb is_preparation pre = true /\
    upload_ok (Some n, e) = true /\ fst c = true /\ fst g = true /\
    fst d = true.
Proof.
  cbv zeta. split; [vm_compute; reflexivity|].
  apply (success_after_whole_protocol env_ok client config photo empty_world
           converted).
  - vm_compute. reflexivity.
  - reflexivity.
Defined.

Lemma compensating_delete_witness :
  let out := process_asset env_no_copy client config photo empty_world in
  (exists ri, fst out = Ret ri /\ status ri = "failed_copy") /\
  exists pre fp da di fc fm fn n e mid d,
    issued empty_world (snd out)
    = pre ++ CallUpload fp da di fc fm fn (Some n, e) :: mid
          ++ [CallDelete [n] d] /\
    upload_ok (Some n, e) = true /\
    forall ids d', CallDelete ids d' ∉ pre ++ mid.
Proof.
  cbv zeta. split; [eexists; split; vm_compute; reflexivity|].
  eapply (compensating_delete env_no_copy client config photo empty_world).
  - vm_compute. reflexivity.
  - cbn [status]. apply list_elem_of_here.
Defined.

Lemma no_upload_of_a_larger_file_witness :
  let out := process_asset env_ok client config photo empty_world in
  fst out = Ret converted /\
  ri_output_bytes converted <= ri_input_bytes converted.
Proof.
  cbv zeta. split; [vm_compute; reflexivity|].
  assert (issued empty_world
            (snd (process_asset env_ok client config photo empty_world))
          = [CallDownload "a1" inp (8, None); CallTranscode inp outp 1;
             CallUpload outp "a1-jxl" "phone" "2020-01-01T00:00:00.000Z"
               "2020-01-02T00:00:00.000Z" (Some "photo.jxl")
               (Some "n1", None);
             CallCopy "a1" "n1" (true, None); CallGet "n1" (true, None);
             CallDelete ["a1"] (true, None)])
    as Hcalls by (vm_compute; reflexivity).
  apply (no_upload_of_a_larger_file env_ok client config photo empty_world
           converted outp "a1-jxl" "phone" "2020-01-01T00:00:00.000Z"
           "2020-01-02T00:00:00.000Z" (Some "photo.jxl") (Some "n1", None)).
  - reflexivity.
  - reflexivity.
  - vm_compute. reflexivity.
  - rewrite Hcalls. do 2 apply list_elem_of_further. apply list_elem_of_here.
Defined.

Lemma dry_run_changes_nothing_witness :
  let out := process_asset env_ok client config_dry_run photo empty_world in
  dry_run config_dry_run = true /\
  sent empty_world (snd out) = [] /\ started empty_world (snd out) = [].
Proof.
  cbv zeta. split; [reflexivity|].
  destruct (dry_run_changes_nothing env_ok client config_dry_run photo
              empty_world eq_refl) as (_ & _ & _ & H & _).
  apply H. discriminate.
Defined.

Lemma main_ends_when_capped_witness :
  exists code results w',
    main env_ok client config_capped 2 empty_world
    = (Ret (Some (code, results)), w') /\
    Z.of_nat (length results) <= 1.
Proof.
  apply (main_ends_when_capped env_ok client config_capped 2 empty_world).
  - reflexivity.
  - vm_compute. lia.
Defined.

Lemma summary_order_independent_witness :
  total_input [converted; failed] = total_input [failed; converted] /\
  total_output [converted; failed] = total_output [failed; converted] /\
  total_savings [converted; failed] = total_savings [failed; converted] /\
  status_counts [converted; failed] = status_counts [failed; converted].
Proof.
  apply (summary_order_independent [converted; failed] [failed; converted]).
  apply perm_swap.
Defined.

Lemma process_asset_touches_scratch_only_witness :
  let w := world_with library_file jpeg_bytes in
  w_fs (snd (process_asset env_ok client config photo w)) !! library_file
  = Some (File jpeg_bytes true).
Proof.
  cbv zeta.
  etransitivity;
    [apply (process_asset_touches_scratch_only env_ok client config photo)|].
  - vm_compute. discriminate.
  - vm_compute. discriminate.
  - reflexivity.
Defined.

Lemma uploads_are_validated_witness :
  let out := process_asset env_ok client config photo empty_world in
  let upload :=
    ReqUpload jxl_bytes "a1-jxl" "phone" "2020-01-01T00:00:00.000Z"
      "2020-01-02T00:00:00.000Z" (Some "photo.jxl") in
  upload ∈ sent empty_world (snd out) /\
  jxl_bytes <> [] /\ detect_header jxl_bytes = Some "jxl".
Proof.
  cbv zeta.
  assert (ReqUpload jxl_bytes "a1-jxl" "phone" "2020-01-01T00:00:00.000Z"
            "2020-01-02T00:00:00.000Z" (Some "photo.jxl")
          ∈ sent empty_world
              (snd (process_asset env_ok client config photo empty_world)))
    as Hin.
  { replace (sent empty_world
               (snd (process_asset env_ok client config photo empty_world)))
      with [ReqDownload "a1";
            ReqUpload jxl_bytes "a1-jxl" "phone" "2020-01-01T00:00:00.000Z"
              "2020-01-02T00:00:00.000Z" (Some "photo.jxl");
            ReqCopy "a1" "n1"; ReqGetAsset "n1"; ReqDelete ["a1"]]
      by (vm_compute; reflexivity).
    apply list_elem_of_further, list_elem_of_here. }
  split; [exact Hin|].
  destruct (uploads_are_validated env_ok client config photo empty_world _ _ _
              _ _ _ Hin) as [Hne Hjxl].
  split; [exact Hne|]. apply Hjxl. discriminate.
Defined.

Lemma integer_settings_in_range_witness :
  _parse_int strip int_of_30 environ_crf "VIDEO_CRF" 36 (Some 0) (Some 63)
  = inr 30 /\
  within (Some 0) (Some 63) 30.
Proof.
  split; [vm_compute; reflexivity|].
  apply (integer_settings_in_range strip int_of_30 environ_crf "VIDEO_CRF" 36).
  - do 2 apply list_elem_of_further. apply list_elem_of_here.
  - vm_compute. reflexivity.
Defined.
